(** * EOD-GPT: point-in-time valuation metrics and the staging/merge load

    A shallow embedding of [PriceMetrics.getHistoricalPriceData],
    [PriceMetrics.calculateHistoricalMetrics], [PriceMetrics.saveMetrics],
    the batch loop of [PriceMetrics.hydrateAllData] and
    [PriceMetrics.refreshPriceData], and
    [PriceMetricsDataManager.insertPriceMetricsToTempTable] and
    [PriceMetricsDataManager.mergeTempTableToMainTable], followed by the
    properties of the as-of join, the trailing-twelve-month aggregation, the
    ratios, the batches and the merge. Further on: the runs
    [hydrateAllData] and [refreshPriceData] as wholes, [createTable] and
    [PriceMetricsDataManager.createPriceMetricsTable], the staging and merge
    of [EarningsDataManager] and [InternationalStockDataManager],
    [FinancialsDataManager.filterNumericFields], and the extraction of the
    query in [QueryProcessor.processNaturalLanguageQuery].

    Conventions of the embedding:
    - a JavaScript [Date] is the integer number of milliseconds since the
      epoch ([Z]); [a <= b] on two dates compares these numbers;
    - a JavaScript number is an exact rational ([Q]); NaN and the infinities
      are outside the model, and equalities between computed numbers are
      stated with [==];
    - a numeric field of a lean document is a [jsnum]: [undefined] when the
      document lacks it, [null], or a number; a nullable column of a metrics
      row is [option Q], [None] being [null];
    - [new Date()] is a reading of the clock of the environment, one
      reading for every evaluation;
    - a rejected promise or a thrown exception is the [Threw] outcome; what
      a service outside the program answers to an awaited call, a rejection
      included, is given with the environment;
    - a table or a collection is the list of its rows; a document of the
      operational collection is given by the fields of [IPriceMetrics],
      without the [_id], [createdAt] and [updatedAt] that the database and
      the [timestamps] option of the schema add. *)

From Stdlib Require Import String List ZArith QArith Bool Sorted Lia.
Import ListNotations.

Local Open Scope Z_scope.

(** ** JavaScript values *)

(** [0 < q] on numbers. *)
Definition Qgtb0 (q : Q) : bool :=
  match (0 ?= q)%Q with Lt => true | _ => false end.

(** The value read from a numeric field of a lean document. *)
Inductive jsnum : Type :=
| Undefined
| Null
| Num (q : Q).

(** Truthiness: [undefined], [null] and [0] are falsy. *)
Definition truthy (v : jsnum) : bool :=
  match v with
  | Num q => negb (Qeq_bool q 0)
  | _ => false
  end.

(** [v || d] where [d] is a number. *)
Definition or_num (v : jsnum) (d : Q) : Q :=
  match v with
  | Num q => if Qeq_bool q 0 then d else q
  | _ => d
  end.

(** [v > 0]: [undefined > 0] and [null > 0] are [false]. *)
Definition gt0 (v : jsnum) : bool :=
  match v with
  | Num q => Qgtb0 q
  | _ => false
  end.

(** [v !== undefined]. *)
Definition defined (v : jsnum) : bool :=
  match v with
  | Undefined => false
  | _ => true
  end.

(** Completion of a call that may throw (or of an awaited promise). *)
Inductive outcome (A : Type) : Type :=
| Returned (a : A)
| Threw (e : string).
Arguments Returned {A} a.
Arguments Threw {A} e.

(** ** Documents *)

(** A quarterly statement as [QuarterlyFinancialsModel.find(...).lean()]
    returns it; only the fields the derivation reads. *)
Module Quarter.
Record t : Type := mk {
  date : Z;
  commonStockSharesOutstanding : jsnum;
  netIncome : jsnum;
  totalRevenue : jsnum;
  totalStockholderEquity : jsnum;
  longTermDebt : jsnum;
  shortTermDebt : jsnum;
  shortLongTermDebt : jsnum;
  cashAndShortTermInvestments : jsnum;
  cash : jsnum
}.
End Quarter.

(** A shares-outstanding record of [InternationalStock]. The schema gives
    the field the default [0]; a lean document may still lack it. *)
Module IntlStock.
Record t : Type := mk {
  date : Z;
  commonStockSharesOutstanding : jsnum
}.
End IntlStock.

(** An element of the array [getHistoricalPriceData] resolves to. *)
Module PriceData.
Record t : Type := mk {
  price : Q;
  volume : Q;
  date : Z
}.
End PriceData.

(** [IPriceMetrics]. *)
Module Metrics.
Record t : Type := mk {
  ticker : string;
  symbol : string;
  date : Z;
  price : Q;
  volume : Q;
  marketCap : Q;
  peRatioTTM : option Q;
  psRatioTTM : option Q;
  pbRatioTTM : option Q;
  enterpriseValue : option Q;
  isInternational : bool;
  lastUpdated : Z
}.
End Metrics.

(** ** [calculateHistoricalMetrics]: the international branch *)

Section Derivation.

Variable ticker : string.
(** The reading of [new Date()] in the iteration at hand. *)
Variable now : Z.

(** The inner [for (const sharesData of intlStockData)] loop, with
    [closestSharesData] as accumulator; the [else] branch is the [break]. *)
Fixpoint closestScan (closestSharesData : option IntlStock.t)
    (intlStockData : list IntlStock.t) (priceDate : Z) : option IntlStock.t :=
  match intlStockData with
  | [] => closestSharesData
  | sharesData :: rest =>
      if IntlStock.date sharesData <=? priceDate
      then closestScan (Some sharesData) rest priceDate
      else closestSharesData
  end.

Definition findClosestSharesData (intlStockData : list IntlStock.t)
    (priceDate : Z) : option IntlStock.t :=
  closestScan None intlStockData priceDate.

(** One iteration of the outer loop: the rows pushed for [priceData]. *)
Definition intlMetricsAt (intlStockData : list IntlStock.t)
    (priceData : PriceData.t) : list Metrics.t :=
  match findClosestSharesData intlStockData (PriceData.date priceData) with
  | Some closest =>
      match IntlStock.commonStockSharesOutstanding closest with
      | Num shares =>
          if truthy (Num shares)
          then
            [ Metrics.mk ticker ticker (PriceData.date priceData)
                (PriceData.price priceData) (PriceData.volume priceData)
                (PriceData.price priceData * shares)%Q
                None None None None true now ]
          else []
      | _ => []
      end
  | None => []
  end.

(** *** The US branch *)

(** [allQuarters.filter((q) => q.date <= priceData.date)]. *)
Definition availableQuarters (allQuarters : list Quarter.t) (priceDate : Z)
    : list Quarter.t :=
  filter (fun q => Quarter.date q <=? priceDate) allQuarters.

(** [availableQuarters[availableQuarters.length - 1]], [None] standing for
    the [continue] taken when [availableQuarters.length === 0]. *)
Definition latestQuarter (allQuarters : list Quarter.t) (priceDate : Z)
    : option Quarter.t :=
  let available := availableQuarters allQuarters priceDate in
  if Nat.eqb (length available) 0 then None
  else nth_error available (length available - 1).

(** [arr.slice(-4)]: the last four elements, all of them when there are
    fewer. *)
Definition slice_last4 {A : Type} (arr : list A) : list A :=
  skipn (length arr - 4) arr.

Definition ttmQuarters (allQuarters : list Quarter.t) (priceDate : Z)
    : list Quarter.t :=
  slice_last4 (availableQuarters allQuarters priceDate).

(** [ttmQuarters.reduce((sum, q) => sum + (q.netIncome || 0), 0)]. *)
Definition sumNetIncome (ttm : list Quarter.t) : Q :=
  fold_left (fun sum q => sum + or_num (Quarter.netIncome q) 0)%Q ttm 0%Q.

Definition sumTotalRevenue (ttm : list Quarter.t) : Q :=
  fold_left (fun sum q => sum + or_num (Quarter.totalRevenue q) 0)%Q ttm 0%Q.

(** [quartersAvailable > 0 ? 4 / quartersAvailable : 0]. *)
Definition scaleFactor (quartersAvailable : nat) : Q :=
  if Nat.ltb 0 quartersAvailable
  then (4 / inject_Z (Z.of_nat quartersAvailable))%Q
  else 0%Q.

Definition ttmNetIncome (ttm : list Quarter.t) : Q :=
  (sumNetIncome ttm * scaleFactor (length ttm))%Q.

Definition ttmTotalRevenue (ttm : list Quarter.t) : Q :=
  (sumTotalRevenue ttm * scaleFactor (length ttm))%Q.

(** [den > 0 ? marketCap / den : null]. *)
Definition ratio (marketCap den : Q) : option Q :=
  if Qgtb0 den then Some (marketCap / den)%Q else None.

Definition pbRatio (marketCap : Q) (latest : Quarter.t) : option Q :=
  match Quarter.totalStockholderEquity latest with
  | Num equity => ratio marketCap equity
  | _ => None
  end.

Definition totalDebt (latest : Quarter.t) : Q :=
  (or_num (Quarter.longTermDebt latest) 0 +
   or_num (Quarter.shortTermDebt latest) 0 +
   or_num (Quarter.shortLongTermDebt latest) 0)%Q.

(** [cashAndShortTermInvestments || cash || 0]. *)
Definition cashTerm (latest : Quarter.t) : Q :=
  or_num (Quarter.cashAndShortTermInvestments latest)
    (or_num (Quarter.cash latest) 0).

(** The condition of the [if] that guards the enterprise value. *)
Definition anyDebtOrCashField (latest : Quarter.t) : bool :=
  defined (Quarter.longTermDebt latest) ||
  defined (Quarter.shortTermDebt latest) ||
  defined (Quarter.shortLongTermDebt latest) ||
  defined (Quarter.cashAndShortTermInvestments latest) ||
  defined (Quarter.cash latest).

Definition enterpriseValue (marketCap : Q) (latest : Quarter.t) : option Q :=
  if anyDebtOrCashField latest
  then Some (marketCap + totalDebt latest - cashTerm latest)%Q
  else None.

(** The row pushed at the end of an iteration that reached it. *)
Definition usRow (priceData : PriceData.t) (latest : Quarter.t)
    (sharesOutstanding : Q) (ttm : list Quarter.t) : Metrics.t :=
  let marketCap := (PriceData.price priceData * sharesOutstanding)%Q in
  Metrics.mk ticker ticker (PriceData.date priceData)
    (PriceData.price priceData) (PriceData.volume priceData)
    marketCap
    (ratio marketCap (ttmNetIncome ttm))
    (ratio marketCap (ttmTotalRevenue ttm))
    (pbRatio marketCap latest)
    (enterpriseValue marketCap latest)
    false now.

(** One iteration of the loop over [priceDataPoints]; [[]] is a
    [continue]. *)
Definition usMetricsAt (allQuarters : list Quarter.t)
    (priceData : PriceData.t) : list Metrics.t :=
  match latestQuarter allQuarters (PriceData.date priceData) with
  | None => []
  | Some latest =>
      match Quarter.commonStockSharesOutstanding latest with
      | Num sharesOutstanding =>
          if truthy (Num sharesOutstanding)
          then [ usRow priceData latest sharesOutstanding
                   (ttmQuarters allQuarters (PriceData.date priceData)) ]
          else []
      | _ => []
      end
  end.

End Derivation.

(** *** The loops over the price observations *)

(** [for (const priceData of priceDataPoints) { ... }] from iteration [i]
    on: [rowsAt] gives the rows an iteration pushes, and [now i] is what
    [new Date()] reads in iteration [i], so that every row gets the reading
    of its own push. *)
Fixpoint forPriceDataPoints (rowsAt : Z -> PriceData.t -> list Metrics.t)
    (now : nat -> Z) (i : nat) (priceDataPoints : list PriceData.t)
    : list Metrics.t :=
  match priceDataPoints with
  | [] => []
  | priceData :: rest =>
      rowsAt (now i) priceData ++
      forPriceDataPoints rowsAt now (S i) rest
  end.

Definition intlMetrics (ticker : string) (now : nat -> Z)
    (intlStockData : list IntlStock.t) (priceDataPoints : list PriceData.t)
    : list Metrics.t :=
  forPriceDataPoints (fun reading => intlMetricsAt ticker reading intlStockData)
    now 0 priceDataPoints.

Definition usMetrics (ticker : string) (now : nat -> Z)
    (allQuarters : list Quarter.t) (priceDataPoints : list PriceData.t)
    : list Metrics.t :=
  forPriceDataPoints (fun reading => usMetricsAt ticker reading allQuarters)
    now 0 priceDataPoints.

(** ** [calculateHistoricalMetrics]: fetching, branching and the [catch] *)

(** A bar of the market-data provider ([EodhdHistoricalPriceData]); [date]
    is the instant [new Date(data.date)] denotes. *)
Module EodhdHistoricalPriceData.
Record t : Type := mk {
  date : Z;
  close : Q;
  volume : Q
}.
End EodhdHistoricalPriceData.

(** The collaborators the derivation awaits: the provider's client, whose
    request may reject; the two [find(...).sort({ date: 1 }).lean()]
    queries, which may reject; the time-zone arithmetic of
    [standardizeToMarketClose]; and the clock, which is read anew at every
    push. *)
Record Env : Type := {
  eodhdClient_getHistoricalPriceData :
    string -> string -> string -> string ->
    outcome (list EodhdHistoricalPriceData.t);
  standardizeToMarketClose : Z -> Z;
  InternationalStock_find : string -> outcome (list IntlStock.t);
  QuarterlyFinancialsModel_find : string -> outcome (list Quarter.t);
  (** [clock ticker i]: the reading of [new Date()] in iteration [i] of the
      loop over the price observations in the derivation of [ticker] *)
  clock : string -> nat -> Z
}.

(** [getHistoricalPriceData]: the bars mapped to close, volume and the
    standardized date; its own [catch] turns a failed request into [[]]. *)
Definition getHistoricalPriceData (env : Env)
    (ticker from to exchange : string) : list PriceData.t :=
  match eodhdClient_getHistoricalPriceData env ticker exchange from to with
  | Returned historicalData =>
      map (fun data =>
             PriceData.mk (EodhdHistoricalPriceData.close data)
               (EodhdHistoricalPriceData.volume data)
               (standardizeToMarketClose env
                  (EodhdHistoricalPriceData.date data)))
          historicalData
  | Threw _ => []
  end.

(** The body of the [try] block. *)
Definition calculateHistoricalMetrics_try (env : Env) (ticker : string)
    (isInternational : bool) (from to exchange : string)
    : outcome (list Metrics.t) :=
  let priceDataPoints := getHistoricalPriceData env ticker from to exchange in
  if Nat.eqb (length priceDataPoints) 0 then Returned []
  else if isInternational then
    match InternationalStock_find env ticker with
    | Threw e => Threw e
    | Returned intlStockData =>
        if Nat.eqb (length intlStockData) 0 then Returned []
        else Returned (intlMetrics ticker (clock env ticker) intlStockData
                         priceDataPoints)
    end
  else
    match QuarterlyFinancialsModel_find env ticker with
    | Threw e => Threw e
    | Returned allQuarters =>
        if Nat.eqb (length allQuarters) 0 then Returned []
        else Returned (usMetrics ticker (clock env ticker) allQuarters
                         priceDataPoints)
    end.

(** [try { ... } catch (error) { console.error(...); return []; }]. *)
Definition calculateHistoricalMetrics (env : Env) (ticker : string)
    (isInternational : bool) (from to exchange : string) : list Metrics.t :=
  match calculateHistoricalMetrics_try env ticker isInternational
          from to exchange with
  | Returned metrics => metrics
  | Threw _ => []
  end.

(** ** The stores *)

(** [T.ticker = S.ticker AND T.date = S.date], also the filter of the
    MongoDB [updateOne]. *)
Definition sameKey (t s : Metrics.t) : bool :=
  String.eqb (Metrics.ticker t) (Metrics.ticker s) &&
  (Metrics.date t =? Metrics.date s).

(** The [UPDATE SET] clause: nine columns are assigned from [S]; [ticker],
    [symbol] and [date] are not in the list and keep the value of [T]. *)
Definition updateSet (t s : Metrics.t) : Metrics.t :=
  Metrics.mk (Metrics.ticker t) (Metrics.symbol t) (Metrics.date t)
    (Metrics.price s) (Metrics.volume s) (Metrics.marketCap s)
    (Metrics.peRatioTTM s) (Metrics.psRatioTTM s) (Metrics.pbRatioTTM s)
    (Metrics.enterpriseValue s) (Metrics.isInternational s)
    (Metrics.lastUpdated s).

(** The rows of the source table that satisfy the [ON] condition with [t]. *)
Definition matching (source : list Metrics.t) (t : Metrics.t)
    : list Metrics.t :=
  filter (sameKey t) source.

(** [WHEN MATCHED THEN UPDATE SET ...] on one row of the target. *)
Definition whenMatched (source : list Metrics.t) (t : Metrics.t) : Metrics.t :=
  match matching source t with
  | s :: _ => updateSet t s
  | [] => t
  end.

(** [WHEN NOT MATCHED THEN INSERT ... VALUES ...]: the source rows that no
    target row matches, inserted whole. *)
Definition whenNotMatched (target source : list Metrics.t) : list Metrics.t :=
  filter (fun s => negb (existsb (fun t => sameKey t s) target)) source.

(** The error of a [MERGE] whose target row meets several source rows. *)
Definition mergeError : string :=
  "UPDATE/MERGE must match at most one source row for each target row".

(** The [MERGE] statement. BigQuery rejects the statement when a target row
    matches more than one source row; the target is then unchanged. *)
Definition mergeQuery (target source : list Metrics.t)
    : list Metrics.t * outcome unit :=
  if existsb (fun t => Nat.ltb 1 (length (matching source t))) target
  then (target, Threw mergeError)
  else (map (whenMatched source) target ++ whenNotMatched target source,
        Returned tt).

(** [for (let i = 0; i < rows.length; i += batchSize)
       table.insert(rows.slice(i, i + batchSize))]. *)
Fixpoint insertLoop {A : Type} (fuel : nat) (batchSize : nat) (rows : list A)
    (i : nat) (table : list A) : list A :=
  match fuel with
  | O => table
  | S fuel' =>
      if Nat.ltb i (length rows)
      then insertLoop fuel' batchSize rows (i + batchSize)
             (table ++ firstn batchSize (skipn i rows))
      else table
  end.

(** [insertPriceMetricsToTempTable]: the rows go to the staging table in
    sub-batches of 500. The two [BigQuery.timestamp] conversions change the
    representation of [date] and [lastUpdated], not the instant. This is
    the staging table when every insert is accepted; the rejections are
    those of [insertPriceMetricsToTempTable_await] below. *)
Definition insertPriceMetricsToTempTable (metrics tempTable : list Metrics.t)
    : list Metrics.t :=
  if Nat.eqb (length metrics) 0 then tempTable
  else insertLoop (length metrics) 500 metrics 0 tempTable.

(** [mergeTempTableToMainTable]: the merge, then the staging table is
    dropped in the [finally] whatever the merge did. *)
Definition mergeTempTableToMainTable (mainTable tempTable : list Metrics.t)
    : list Metrics.t * outcome unit :=
  mergeQuery mainTable tempTable.

(** Staging and merge of one batch, as [saveMetrics] chains them when the
    services accept every call: [createPriceMetricsTable] makes a fresh,
    empty staging table. *)
Definition stageAndMerge (mainTable metrics : list Metrics.t)
    : list Metrics.t * outcome unit :=
  mergeTempTableToMainTable mainTable
    (insertPriceMetricsToTempTable metrics []).

(** One [updateOne] with [upsert: true] and [$set: metric]. *)
Fixpoint updateOneUpsert (collection : list Metrics.t) (metric : Metrics.t)
    : list Metrics.t :=
  match collection with
  | [] => [metric]
  | doc :: rest =>
      if sameKey doc metric then metric :: rest
      else doc :: updateOneUpsert rest metric
  end.

Definition bulkWrite (collection metrics : list Metrics.t) : list Metrics.t :=
  fold_left updateOneUpsert metrics collection.

(** The operational collection and the analytical table. *)
Record Stores : Type := {
  mongo : list Metrics.t;
  bigQuery : list Metrics.t
}.

(** ** [createTable]: creation and the wait for visibility *)

(** The table handle as [createTable] uses it: the answer of the [n]-th
    call of [table.exists()] (from 0), and what [table.create] does; either
    may reject. *)
Record TableService : Type := {
  table_exists : nat -> outcome bool;
  table_create : outcome unit
}.

(** What [createTable] did: the calls of [table.exists()], the calls of
    [table.create], and the delays of its [setTimeout]s, in milliseconds. *)
Record TableLog : Type := {
  existsCalls : nat;
  createCalls : nat;
  waited : list Z
}.

(** The [while (!exists && iterations < 3)] loop. *)
Fixpoint createTable_while (fuel : nat) (svc : TableService)
    (hasSchema : bool) (exists_ : bool) (iterations : nat) (log : TableLog)
    : TableLog * outcome unit :=
  match fuel with
  | O => (log, Returned tt)
  | S fuel' =>
      if negb exists_ && Nat.ltb iterations 3 then
        let creating := Nat.eqb iterations 0 && hasSchema in
        let log1 :=
          {| existsCalls := existsCalls log;
             createCalls :=
               if creating then S (createCalls log) else createCalls log;
             waited := waited log |} in
        match (if creating then table_create svc else Returned tt) with
        | Threw e => (log1, Threw e)
        | Returned _ =>
            let iterations' := S iterations in
            let log2 :=
              {| existsCalls := S (existsCalls log1);
                 createCalls := createCalls log1;
                 waited := waited log1 |} in
            match table_exists svc (existsCalls log1) with
            | Threw e => (log2, Threw e)
            | Returned exists' =>
                createTable_while fuel' svc hasSchema exists' iterations'
                  {| existsCalls := existsCalls log2;
                     createCalls := createCalls log2;
                     waited :=
                       waited log2 ++ [2 ^ Z.of_nat iterations' * 1000] |}
            end
        end
      else (log, Returned tt)
  end.

(** [createTable(tableName, schema?)]; [hasSchema] tells whether the
    optional [schema] was passed. The loop runs at most three times. *)
Definition createTable (svc : TableService) (hasSchema : bool)
    : TableLog * outcome unit :=
  let log0 := {| existsCalls := 1; createCalls := 0; waited := [] |} in
  match table_exists svc 0 with
  | Threw e => (log0, Threw e)
  | Returned exists_ => createTable_while 3 svc hasSchema exists_ 0 log0
  end.

(** ** [saveMetrics] and the services behind it *)

(** What the services outside the program answer in the course of one
    [saveMetrics]; every awaited call may reject. *)
Record Services : Type := {
  (** [PriceMetricsModel.bulkWrite(bulkOps)]: [None] when it resolves;
      [Some (n, e)] when it rejects with [e], the first [n] operations
      having been applied (the operations are ordered: they are applied one
      after the other, and the first that fails ends the call) *)
  bulkWrite_rejection : option (nat * string);
  (** [setupCredentials()] in the constructor of the manager, which throws
      when the credentials are not set or cannot be parsed *)
  setupCredentials : outcome unit;
  (** the handles of [pricemetrics.stock_metrics] and of the staging table *)
  stock_metrics : TableService;
  stock_metrics_temp : TableService;
  (** [table.insert(batch)] of the sub-batch that starts at row [i] *)
  table_insert : nat -> outcome unit;
  (** [bigquery.query] of the [MERGE]: [Some e] when the service rejects the
      job for a reason of its own; a rejected statement changes nothing *)
  query_rejection : option string
}.

(** [PriceMetricsModel.bulkWrite(bulkOps)] as a call of the service. *)
Definition PriceMetricsModel_bulkWrite (services : Services)
    (collection metrics : list Metrics.t) : list Metrics.t * outcome unit :=
  match bulkWrite_rejection services with
  | Some (n, e) => (bulkWrite collection (firstn n metrics), Threw e)
  | None => (bulkWrite collection metrics, Returned tt)
  end.

(** [PriceMetricsDataManager.createPriceMetricsTable]: the constructor, then
    [createTableIfNotExists] and [createTempTable], each [createTable] with
    the schema. It goes on whether or not the tables became visible. *)
Definition createPriceMetricsTable (services : Services) : outcome unit :=
  match setupCredentials services with
  | Threw e => Threw e
  | Returned _ =>
      match snd (createTable (stock_metrics services) true) with
      | Threw e => Threw e
      | Returned _ => snd (createTable (stock_metrics_temp services) true)
      end
  end.

(** The loop of [insertPriceMetricsToTempTable] with its [await]: the loop
    of [insertLoop], left at the first [table.insert] that rejects. What a
    rejected insert left in the staging table is of no consequence, since
    that table is then never merged. *)
Fixpoint insertLoop_await {A : Type} (insert : nat -> outcome unit)
    (fuel : nat) (batchSize : nat) (rows : list A) (i : nat) (table : list A)
    : list A * outcome unit :=
  match fuel with
  | O => (table, Returned tt)
  | S fuel' =>
      if Nat.ltb i (length rows)
      then
        match insert i with
        | Threw e => (table, Threw e)
        | Returned _ =>
            insertLoop_await insert fuel' batchSize rows (i + batchSize)
              (table ++ firstn batchSize (skipn i rows))
        end
      else (table, Returned tt)
  end.

(** [insertPriceMetricsToTempTable] as [saveMetrics] awaits it. *)
Definition insertPriceMetricsToTempTable_await (services : Services)
    (metrics tempTable : list Metrics.t) : list Metrics.t * outcome unit :=
  if Nat.eqb (length metrics) 0 then (tempTable, Returned tt)
  else insertLoop_await (table_insert services) (length metrics) 500 metrics 0
         tempTable.

(** [mergeTempTableToMainTable] as [saveMetrics] awaits it: the job is
    rejected by the service, or the statement runs. *)
Definition mergeTempTableToMainTable_await (services : Services)
    (mainTable tempTable : list Metrics.t) : list Metrics.t * outcome unit :=
  match query_rejection services with
  | Some e => (mainTable, Threw e)
  | None => mergeTempTableToMainTable mainTable tempTable
  end.

(** [saveMetrics]: nothing to do for no rows; otherwise the bulk write, the
    creation of the tables, the staging insert and the merge, one after the
    other; the [catch] logs and throws again, so the first rejection ends
    the save with what was written until then. *)
Definition saveMetrics (services : Services) (stores : Stores)
    (metrics : list Metrics.t) : Stores * outcome unit :=
  if Nat.eqb (length metrics) 0 then (stores, Returned tt)
  else
    match PriceMetricsModel_bulkWrite services (mongo stores) metrics with
    | (mongo', Threw e) =>
        ({| mongo := mongo'; bigQuery := bigQuery stores |}, Threw e)
    | (mongo', Returned _) =>
        match createPriceMetricsTable services with
        | Threw e =>
            ({| mongo := mongo'; bigQuery := bigQuery stores |}, Threw e)
        | Returned _ =>
            match insertPriceMetricsToTempTable_await services metrics [] with
            | (_, Threw e) =>
                ({| mongo := mongo'; bigQuery := bigQuery stores |}, Threw e)
            | (tempTable, Returned _) =>
                let (bigQuery', r) :=
                  mergeTempTableToMainTable_await services (bigQuery stores)
                    tempTable in
                ({| mongo := mongo'; bigQuery := bigQuery' |}, r)
            end
        end
    end.

(** ** One batch of [hydrateAllData] / [refreshPriceData] *)

(** [await Promise.all(batch.map(async (ticker) => ...))]: every derivation
    resolves (its own [catch] sees to that), so the result array has one
    entry per ticker, in the order of [batch]. *)
Definition batchResults (env : Env) (intlTickerSet : list string)
    (startDate endDate : string) (batch : list string)
    : list (list Metrics.t) :=
  map (fun ticker =>
         let isInternational :=
           existsb (String.eqb ticker) intlTickerSet in
         calculateHistoricalMetrics env ticker isInternational
           startDate endDate "US")
      batch.

(** [for (const tickerMetrics of results) allMetrics.push(...tickerMetrics)]. *)
Definition allMetrics (results : list (list Metrics.t)) : list Metrics.t :=
  fold_left (fun acc tickerMetrics => acc ++ tickerMetrics) results [].

Definition processBatch (env : Env) (services : Services)
    (intlTickerSet : list string) (startDate endDate : string)
    (stores : Stores) (batch : list string) : Stores * outcome unit :=
  let results := batchResults env intlTickerSet startDate endDate batch in
  let all := allMetrics results in
  if Nat.ltb 0 (length all) then saveMetrics services stores all
  else (stores, Returned tt).

(** [for (let i = 0; i < allTickers.length; i += batchSize)] with
    [batchSize = 10]; a throwing [saveMetrics] leaves the loop.
    [services i] is what the services do during the save of the batch that
    starts at ticker [i]. *)
Fixpoint batchLoop (fuel : nat) (env : Env) (services : nat -> Services)
    (intlTickerSet : list string) (startDate endDate : string)
    (allTickers : list string) (i : nat) (stores : Stores)
    : Stores * outcome unit :=
  match fuel with
  | O => (stores, Returned tt)
  | S fuel' =>
      if Nat.ltb i (length allTickers) then
        let batch := firstn 10 (skipn i allTickers) in
        match processBatch env (services i) intlTickerSet startDate endDate
                stores batch with
        | (stores', Returned _) =>
            batchLoop fuel' env services intlTickerSet startDate endDate
              allTickers (i + 10) stores'
        | (stores', Threw e) => (stores', Threw e)
        end
      else (stores, Returned tt)
  end.

(** ** Specification-side notions *)

(** The as-of join in the words of the specification: [r] is a record of
    [records] with the largest effective date not after [d], or nothing when
    every effective date is after [d]. *)
Definition isAsOf {A : Type} (dateOf : A -> Z) (records : list A) (d : Z)
    (r : option A) : Prop :=
  match r with
  | Some x =>
      In x records /\ dateOf x <= d /\
      forall y, In y records -> dateOf y <= d -> dateOf y <= dateOf x
  | None => forall y, In y records -> d < dateOf y
  end.

(** Not later than, on effective dates. *)
Definition dateLe {A : Type} (dateOf : A -> Z) (a b : A) : Prop :=
  dateOf a <= dateOf b.

(** Ascending by effective date (ties allowed). *)
Definition ascending {A : Type} (dateOf : A -> Z) (records : list A) : Prop :=
  Sorted (dateLe dateOf) records.

(** Effective at or before [d]. *)
Definition upTo {A : Type} (dateOf : A -> Z) (d : Z) (x : A) : bool :=
  dateOf x <=? d.

(** The last element of a list, by recursion on the list. *)
Fixpoint lastOpt {A : Type} (l : list A) : option A :=
  match l with
  | [] => None
  | x :: rest =>
      match lastOpt rest with
      | Some y => Some y
      | None => Some x
      end
  end.

(** A figure read with [undefined] and [null] as [0]. *)
Definition valueOr0 (v : jsnum) : Q :=
  match v with
  | Num q => q
  | _ => 0%Q
  end.

(** The sum of a figure over the quarters, a quarter without the figure
    contributing [0]. *)
Definition sumOr0 (figure : Quarter.t -> jsnum) (quarters : list Quarter.t)
    : Q :=
  fold_right (fun q acc => valueOr0 (figure q) + acc)%Q 0%Q quarters.

(** A figure that is present and not zero. *)
Definition presentNonZero (v : jsnum) (q : Q) : Prop :=
  v = Num q /\ ~ (q == 0)%Q.

(** A figure that is missing, [null] or zero. *)
Definition missingOrZero (v : jsnum) : Prop :=
  v = Undefined \/ v = Null \/ exists q, v = Num q /\ (q == 0)%Q.

(** The natural key of a row. *)
Definition keyOf (m : Metrics.t) : string * Z :=
  (Metrics.ticker m, Metrics.date m).

(** What the [try] block of the derivation of [ticker] comes to when the
    batch loop calls it. *)
Definition attempt (env : Env) (intlTickerSet : list string)
    (startDate endDate : string) (ticker : string)
    : outcome (list Metrics.t) :=
  calculateHistoricalMetrics_try env ticker
    (existsb (String.eqb ticker) intlTickerSet) startDate endDate "US".

(** The derivations of a batch that resolved normally hand over their rows; a
    derivation that threw hands over none. *)
Fixpoint successfulRows (outcomes : list (outcome (list Metrics.t)))
    : list Metrics.t :=
  match outcomes with
  | [] => []
  | Returned rows :: rest => rows ++ successfulRows rest
  | Threw _ :: rest => successfulRows rest
  end.

(** ** Sample data

    A US security with three quarters of income 100, 120 and 110, a later
    statement not yet effective, ten shares and a price of 50; a security
    whose latest statement reports zero shares; a foreign listing with
    1,000,000 shares as of 2023-01-01 priced 12.50 at the close of
    2023-03-15; and collaborators that answer with statements of 2022 and
    bars of March 2023. *)
Module Sample.

Definition quarter (date : Z) (shares netIncome : jsnum) : Quarter.t :=
  Quarter.mk date shares netIncome (Num 1000%Q) (Num 250%Q)
    Undefined Undefined Undefined Undefined Undefined.

Definition q1 : Quarter.t := quarter 100 (Num 10%Q) (Num 100%Q).
Definition q2 : Quarter.t := quarter 200 (Num 10%Q) (Num 120%Q).
Definition q3 : Quarter.t :=
  Quarter.mk 300 (Num 10%Q) (Num 110%Q) Null (Num 250%Q)
    (Num 40%Q) Undefined Undefined (Num 0%Q) (Num 30%Q).
Definition q4 : Quarter.t := quarter 400 (Num 99%Q) (Num 999%Q).

Definition allQuarters : list Quarter.t := [q1; q2; q3; q4].

Definition priceData : PriceData.t := PriceData.mk 50%Q 7000%Q 350.

(** The row of [priceData]: market cap 500, TTM income 440. *)
Definition row : Metrics.t :=
  usRow "X" 0 priceData q3 10%Q [q1; q2; q3].

(** Shares reported at first, then a statement with zero shares. *)
Definition gated : list Quarter.t :=
  [quarter 100 (Num 10%Q) (Num 100%Q); quarter 200 (Num 0%Q) (Num 120%Q)].

(** 2023-01-01T00:00:00Z and 2023-03-15T16:00:00-04:00. *)
Definition jan1 : Z := 1672531200000.
Definition mar15close : Z := 1678910400000.

Definition intlStockData : list IntlStock.t :=
  [IntlStock.mk jan1 (Num 1000000%Q)].

Definition intlPrice : PriceData.t :=
  PriceData.mk (25 # 2)%Q 300%Q mar15close.

(** [standardizeToMarketClose] on the instants of 2023, when New York is
    at UTC-4 from 2023-03-12T07:00Z until 2023-11-05T06:00Z and at UTC-5
    before and after: 16:00 in New York on the New York calendar day of the
    instant. *)
Definition marketClose2023 (date : Z) : Z :=
  let offset :=
    if (1678604400000 <=? date) && (date <? 1699164000000) then 4 else 5 in
  let day := (date - offset * 3600000) / 86400000 in
  let offsetAtClose := if (19428 <=? day) && (day <? 19666) then 4 else 5 in
  day * 86400000 + (16 + offsetAtClose) * 3600000.

(** The statements above as of 2022-06-30, 2022-09-30, 2022-12-31 and
    2023-03-31. *)
Definition reported : list Quarter.t :=
  [ quarter 1656547200000 (Num 10%Q) (Num 100%Q);
    quarter 1664496000000 (Num 10%Q) (Num 120%Q);
    Quarter.mk 1672444800000 (Num 10%Q) (Num 110%Q) Null (Num 250%Q)
      (Num 40%Q) Undefined Undefined (Num 0%Q) (Num 30%Q);
    quarter 1680220800000 (Num 99%Q) (Num 999%Q) ].

(** The bars of 2023-03-15 and 2023-03-16, dated at the midnight (UTC)
    that [new Date("2023-03-15")] and [new Date("2023-03-16")] denote. *)
Definition bars : list EodhdHistoricalPriceData.t :=
  [ EodhdHistoricalPriceData.mk 1678838400000 50%Q 7000%Q;
    EodhdHistoricalPriceData.mk 1678924800000 51%Q 7100%Q ].

(** Collaborators whose statement query rejects for ticker [A] and whose
    price request fails for ticker [P]; the derivations run in November
    2023, each reading of the clock a millisecond after the one before. *)
Definition env : Env :=
  {| eodhdClient_getHistoricalPriceData := fun ticker _ _ _ =>
       if String.eqb ticker "Y"
       then Returned
              [EodhdHistoricalPriceData.mk 1678924800000 (25 # 2)%Q 300%Q]
       else if String.eqb ticker "P" then Threw "Request failed"
       else Returned bars;
     standardizeToMarketClose := marketClose2023;
     InternationalStock_find := fun ticker =>
       if String.eqb ticker "Y" then Returned intlStockData
       else Returned [];
     QuarterlyFinancialsModel_find := fun ticker =>
       if String.eqb ticker "A" then Threw "connection lost"
       else if String.eqb ticker "X" then Returned reported
       else Returned [];
     clock := fun _ i => 1700000000000 + Z.of_nat i |}.

(** The readings of the clock a day later. *)
Definition later : string -> nat -> Z :=
  fun _ i => 1700086400000 + Z.of_nat i.

Definition stored (ticker symbol : string) (date : Z) (price : Q)
    : Metrics.t :=
  Metrics.mk ticker symbol date price 1%Q (price * 10)%Q
    None None None None false 0.

Definition mainTable : list Metrics.t :=
  [stored "X" "X.OLD" 350 48%Q; stored "Z" "Z" 350 7%Q].

Definition batch : list Metrics.t :=
  [stored "X" "X" 350 50%Q; stored "X" "X" 351 51%Q].

Definition emptyStores : Stores := {| mongo := []; bigQuery := [] |}.

(** Services that accept every call: the credentials are set, the main
    table is there, and the staging table is there once it is created. *)
Definition services : Services :=
  {| bulkWrite_rejection := None;
     setupCredentials := Returned tt;
     stock_metrics :=
       {| table_exists := fun _ => Returned true;
          table_create := Returned tt |};
     stock_metrics_temp :=
       {| table_exists := fun n => Returned (negb (Nat.eqb n 0));
          table_create := Returned tt |};
     table_insert := fun _ => Returned tt;
     query_rejection := None |}.

(** Services whose staging insert is refused. *)
Definition insertRefused : Services :=
  {| bulkWrite_rejection := None;
     setupCredentials := Returned tt;
     stock_metrics := stock_metrics services;
     stock_metrics_temp := stock_metrics_temp services;
     table_insert := fun _ => Threw "quota exceeded";
     query_rejection := None |}.

End Sample.

(** ** Notions for the further properties *)

(** The price observation a row records. *)
Definition observation (m : Metrics.t) : PriceData.t :=
  PriceData.mk (Metrics.price m) (Metrics.volume m) (Metrics.date m).

(** A row without its [lastUpdated]: what a row tells apart from the time
    at which it was computed. *)
Definition unstamped (m : Metrics.t) : Metrics.t :=
  Metrics.mk (Metrics.ticker m) (Metrics.symbol m) (Metrics.date m)
    (Metrics.price m) (Metrics.volume m) (Metrics.marketCap m)
    (Metrics.peRatioTTM m) (Metrics.psRatioTTM m) (Metrics.pbRatioTTM m)
    (Metrics.enterpriseValue m) (Metrics.isInternational m) 0.

(** The collaborators of [env] at another time: the same answers, other
    readings of the clock. *)
Definition withClock (env : Env) (readings : string -> nat -> Z) : Env :=
  {| eodhdClient_getHistoricalPriceData :=
       eodhdClient_getHistoricalPriceData env;
     standardizeToMarketClose := standardizeToMarketClose env;
     InternationalStock_find := InternationalStock_find env;
     QuarterlyFinancialsModel_find := QuarterlyFinancialsModel_find env;
     clock := readings |}.

(** [l1] is [l2] with some of its elements left out, the others in place. *)
Inductive subseq {A : Type} : list A -> list A -> Prop :=
| subseq_nil : subseq [] []
| subseq_skip (x : A) (l1 l2 : list A) : subseq l1 l2 -> subseq l1 (x :: l2)
| subseq_keep (x : A) (l1 l2 : list A) :
    subseq l1 l2 -> subseq (x :: l1) (x :: l2).

(** The longest prefix whose elements all satisfy [f]. *)
Fixpoint takeWhile {A : Type} (f : A -> bool) (l : list A) : list A :=
  match l with
  | [] => []
  | x :: rest => if f x then x :: takeWhile f rest else []
  end.

(** The document the filter [{ ticker, date }] selects in a collection: the
    first one that matches, as for [updateOne]. *)
Definition findOne (collection : list Metrics.t) (ticker : string) (date : Z)
    : option Metrics.t :=
  find (fun doc =>
          String.eqb (Metrics.ticker doc) ticker && (Metrics.date doc =? date))
       collection.

(** The columns the [UPDATE SET] clause of the merge assigns. *)
Definition assigned (m : Metrics.t)
    : Q * Q * Q * option Q * option Q * option Q * option Q * bool * Z :=
  (Metrics.price m, Metrics.volume m, Metrics.marketCap m,
   Metrics.peRatioTTM m, Metrics.psRatioTTM m, Metrics.pbRatioTTM m,
   Metrics.enterpriseValue m, Metrics.isInternational m,
   Metrics.lastUpdated m).

(** The values of [arr.slice(i, i + size)] that a loop
    [for (let i = ...; i < arr.length; i += size)] goes through. *)
Fixpoint sliceLoop {A : Type} (fuel size : nat) (arr : list A) (i : nat)
    : list (list A) :=
  match fuel with
  | O => []
  | S fuel' =>
      if Nat.ltb i (length arr)
      then firstn size (skipn i arr) :: sliceLoop fuel' size arr (i + size)
      else []
  end.

(** The batches of the hydration loop processed one after the other, the
    first of them starting at ticker [i]; a throwing [saveMetrics] ends the
    run. *)
Fixpoint saveBatches (env : Env) (services : nat -> Services)
    (intlTickerSet : list string) (startDate endDate : string) (i : nat)
    (batches : list (list string)) (stores : Stores)
    : Stores * outcome unit :=
  match batches with
  | [] => (stores, Returned tt)
  | batch :: rest =>
      match processBatch env (services i) intlTickerSet startDate endDate
              stores batch with
      | (stores', Returned _) =>
          saveBatches env services intlTickerSet startDate endDate (i + 10)
            rest stores'
      | (stores', Threw e) => (stores', Threw e)
      end
  end.

(** No awaited call of a save rejects. *)
Definition accepted (services : Services) : Prop :=
  bulkWrite_rejection services = None /\
  createPriceMetricsTable services = Returned tt /\
  (forall i, table_insert services i = Returned tt) /\
  query_rejection services = None.

(** The stores after a bulk write and a merge of [metrics]. *)
Definition savedStores (stores : Stores) (metrics : list Metrics.t)
    : Stores :=
  {| mongo := bulkWrite (mongo stores) metrics;
     bigQuery := fst (stageAndMerge (bigQuery stores) metrics) |}.

(** [Array.from(new Set(arr))]: the first occurrence of every element, in
    order; [seen] holds the elements already in the set. *)
Fixpoint dedupe (seen : list string) (arr : list string) : list string :=
  match arr with
  | [] => []
  | x :: rest =>
      if existsb (String.eqb x) seen then dedupe seen rest
      else x :: dedupe (x :: seen) rest
  end.

(** The position at which [x] first appears in [arr], as [arr.indexOf(x)]
    gives it; [None] when it does not appear. *)
Fixpoint firstIndex (x : string) (arr : list string) : option nat :=
  match arr with
  | [] => None
  | y :: rest =>
      if String.eqb x y then Some 0%nat else option_map S (firstIndex x rest)
  end.

(** The two [distinct("ticker")] queries of a run. *)
Record Universe : Type := {
  usTickers : outcome (list string);
  intlTickers : outcome (list string)
}.

(** [hydrateAllData] and [refreshPriceData] from their queries on: the
    tickers of both lists without repetition, the set of the international
    ones, and the loop over batches of ten. The start and end dates come
    from the clock and are taken as given; an exception of a query or of a
    save is logged and thrown again. [refreshPriceData] returns before the
    loop when there is no ticker, which the loop does as well. *)
Definition hydrateAllData (env : Env) (services : nat -> Services)
    (universe : Universe) (startDate endDate : string) (stores : Stores)
    : Stores * outcome unit :=
  match usTickers universe with
  | Threw e => (stores, Threw e)
  | Returned us =>
      match intlTickers universe with
      | Threw e => (stores, Threw e)
      | Returned intl =>
          let allTickers := dedupe [] (us ++ intl) in
          batchLoop (length allTickers) env services intl startDate endDate
            allTickers 0 stores
      end
  end.

(** ** [FinancialsDataManager.filterNumericFields] *)

(** The values of the fields of a statement document: primitives, and
    objects (a [Date], an id) by reference. A number is a rational or NaN
    ([None]); the infinities are outside the model. *)
Inductive jsvalue : Type :=
| VUndefined
| VNull
| VBool (b : bool)
| VNumber (n : option Q)
| VString (s : string)
| VObject (ref : nat).

Section FilterNumericFields.

(** [Number(s)] on a string and [Number(o)] on an object, [None] for NaN:
    the grammar of numeric strings and the conversion of objects to
    primitives are taken as given. *)
Variable stringToNumber : string -> option Q.
Variable objectToNumber : nat -> option Q.

(** [Number(value)]. *)
Definition toNumber (value : jsvalue) : option Q :=
  match value with
  | VUndefined => None
  | VNull => Some 0%Q
  | VBool true => Some 1%Q
  | VBool false => Some 0%Q
  | VNumber n => n
  | VString s => stringToNumber s
  | VObject ref => objectToNumber ref
  end.

(** [typeof value === "number" || !isNaN(Number(value))]. *)
Definition isNumeric (value : jsvalue) : bool :=
  match value with
  | VNumber _ => true
  | _ => match toNumber value with Some _ => true | None => false end
  end.

(** [requiredFields.includes(key)]. *)
Definition isRequiredField (key : string) : bool :=
  existsb (String.eqb key) ["ticker"; "symbol"; "date"]%string.

(** [filtered[key] = value] on the plain object [filtered], by the entry
    it adds: the key [__proto__] reaches the setter of [Object.prototype],
    which ignores a value that is a number and adds no property. *)
Definition assignNumber (key : string) (n : option Q)
    : list (string * jsvalue) :=
  if String.eqb key "__proto__" then [] else [(key, VNumber n)].

(** [filterNumericFields(data)], [data] being given by its entries in the
    order of [Object.entries], and the result by its own. *)
Definition filterNumericFields (data : list (string * jsvalue))
    : list (string * jsvalue) :=
  flat_map
    (fun entry : string * jsvalue =>
       let (key, value) := entry in
       if isRequiredField key then [(key, value)]
       else if isNumeric value then assignNumber key (toNumber value)
       else [])
    data.

End FilterNumericFields.

(** ** [QueryProcessor.processNaturalLanguageQuery]: the query in the reply *)

(** A JavaScript string, by its UTF-16 code units. *)
Definition jsstring : Type := list N.

(** The code units of a string of ASCII characters. *)
Definition codeUnits (s : string) : jsstring :=
  map Ascii.N_of_ascii (list_ascii_of_string s).

(** The characters [String.prototype.trim] removes: white space (TAB, VT,
    FF, the space separators, the byte-order mark) and line terminators. *)
Definition isWhiteSpace (c : N) : bool :=
  existsb (N.eqb c)
    [9; 10; 11; 12; 13; 32; 160; 5760;
     8192; 8193; 8194; 8195; 8196; 8197; 8198; 8199; 8200; 8201; 8202;
     8232; 8233; 8239; 8287; 12288; 65279]%N.

Fixpoint trimStart (s : jsstring) : jsstring :=
  match s with
  | [] => []
  | c :: rest => if isWhiteSpace c then trimStart rest else s
  end.

Definition trimEnd (s : jsstring) : jsstring := rev (trimStart (rev s)).

(** [s.trim()]. *)
Definition trim (s : jsstring) : jsstring := trimEnd (trimStart s).

(** [s] without the prefix [p], when it has it. *)
Fixpoint stripPrefix (p s : jsstring) : option jsstring :=
  match p with
  | [] => Some s
  | a :: p' =>
      match s with
      | c :: s' => if N.eqb a c then stripPrefix p' s' else None
      | [] => None
      end
  end.

(** [s.replace(/^<opening>\n?/, "")]: the opening at the start of the
    string and one line feed after it, if there is one. *)
Definition removeOpening (opening s : jsstring) : jsstring :=
  match stripPrefix opening s with
  | Some rest =>
      match rest with
      | c :: rest' => if N.eqb c 10 then rest' else rest
      | [] => []
      end
  | None => s
  end.

(** Three backticks. *)
Definition fence : jsstring := codeUnits "```".

(** [s.replace(/\n?```$/, "")]: three backticks at the very end of the
    string and one line feed before them, if there is one; the leftmost
    match of the pattern is the one that takes the line feed. *)
Definition removeClosing (s : jsstring) : jsstring :=
  rev (removeOpening fence (rev s)).

(** The query taken out of the content of the reply, [None] being the
    [undefined] of the optional chain; an empty result throws. *)
Definition extractSqlQuery (content : option jsstring) : outcome jsstring :=
  match content with
  | None => Threw "No SQL query generated"
  | Some content =>
      let sqlQuery :=
        removeClosing
          (removeOpening fence
             (removeOpening (codeUnits "```sql") (trim content))) in
      match sqlQuery with
      | [] => Threw "No SQL query generated"
      | _ => Returned sqlQuery
      end
  end.

(** ** The staging and merge of the other data managers *)

(** A row of [financials.quarterly_earnings]. *)
Module Earnings.
Record t : Type := mk {
  ticker : string;
  symbol : string;
  date : Z;
  actual : option Q;
  epsActual : option Q;
  epsEstimate : option Q;
  epsDifference : option Q;
  surprisePercent : option Q
}.
End Earnings.

(** A row of [internationalstocks.stock_data]. *)
Module StockData.
Record t : Type := mk {
  ticker : string;
  symbol : string;
  country : string;
  commonStockSharesOutstanding : Q;
  date : Z;
  name : option string
}.
End StockData.

Section MergePattern.

Context {Row : Type}.
(** The [ticker] and [date] of a row, and the [UPDATE SET] clause. *)
Variable rowKey : Row -> string * Z.
Variable updateRow : Row -> Row -> Row.

(** [T.ticker = S.ticker AND T.date = S.date]. *)
Definition onKey (t s : Row) : bool :=
  String.eqb (fst (rowKey t)) (fst (rowKey s)) &&
  (snd (rowKey t) =? snd (rowKey s)).

(** The [MERGE ... WHEN MATCHED THEN UPDATE SET ... WHEN NOT MATCHED THEN
    INSERT ...] statement the managers share, rejected when a target row
    matches more than one source row. *)
Definition mergeRows (target source : list Row) : list Row * outcome unit :=
  if existsb (fun t => Nat.ltb 1 (length (filter (onKey t) source))) target
  then (target, Threw mergeError)
  else (map (fun t =>
               match filter (onKey t) source with
               | s :: _ => updateRow t s
               | [] => t
               end)
            target ++
        filter (fun s => negb (existsb (fun t => onKey t s) target)) source,
        Returned tt).

(** The insert into a fresh staging table in sub-batches of 500, then the
    merge. *)
Definition stageAndMergeRows (mainTable rows : list Row)
    : list Row * outcome unit :=
  mergeRows mainTable
    (if Nat.eqb (length rows) 0 then []
     else insertLoop (length rows) 500 rows 0 []).

End MergePattern.

(** [EarningsDataManager]: [insertEarningsToTempTable], then
    [mergeTempTableToMainTable], whose [UPDATE SET] assigns five columns. *)
Definition earningsKey (r : Earnings.t) : string * Z :=
  (Earnings.ticker r, Earnings.date r).

Definition earningsUpdateSet (t s : Earnings.t) : Earnings.t :=
  Earnings.mk (Earnings.ticker t) (Earnings.symbol t) (Earnings.date t)
    (Earnings.actual s) (Earnings.epsActual s) (Earnings.epsEstimate s)
    (Earnings.epsDifference s) (Earnings.surprisePercent s).

Definition saveEarnings : list Earnings.t -> list Earnings.t ->
    list Earnings.t * outcome unit :=
  stageAndMergeRows earningsKey earningsUpdateSet.

(** [InternationalStockDataManager]: [insertInternationalStocksToTempTable],
    then [mergeTempTableToMainTable], whose [UPDATE SET] assigns three
    columns. *)
Definition stockDataKey (r : StockData.t) : string * Z :=
  (StockData.ticker r, StockData.date r).

Definition stockDataUpdateSet (t s : StockData.t) : StockData.t :=
  StockData.mk (StockData.ticker t) (StockData.symbol t)
    (StockData.country s) (StockData.commonStockSharesOutstanding s)
    (StockData.date t) (StockData.name s).

Definition saveStockData : list StockData.t -> list StockData.t ->
    list StockData.t * outcome unit :=
  stageAndMergeRows stockDataKey stockDataUpdateSet.

(** ** More sample data *)
Module Fixture.

(** The tickers of a run: [Y] is on both lists. *)
Definition universe : Universe :=
  {| usTickers := Returned ["X"; "A"; "Y"]%string;
     intlTickers := Returned ["Y"%string] |}.

(** A statement document: a null figure, a boolean, a note, and a field
    named [__proto__]. *)
Definition document : list (string * jsvalue) :=
  [("ticker", VString "AAPL"); ("date", VObject 0);
   ("netIncome", VNull); ("restated", VBool true);
   ("note", VString "n/a"); ("__proto__", VNumber (Some 7%Q));
   ("totalRevenue", VNumber (Some 100%Q))]%string.

(** A reading of numeric strings that knows none. *)
Definition noNumber : string -> option Q := fun _ => None.
Definition noObjectNumber : nat -> option Q := fun _ => None.

(** [SELECT 1], and a new line and two spaces. *)
Definition select1 : jsstring := codeUnits "SELECT 1".
Definition padding : jsstring := [10; 32; 32]%N.

End Fixture.

(** * Properties *)

(** ** Lists *)

Lemma lastOpt_nth_error {A : Type} (l : list A) :
  (if Nat.eqb (length l) 0 then None else nth_error l (length l - 1))
  = lastOpt l.
Proof.
  induction l as [|x l IH]; [reflexivity|].
  destruct l as [|y rest]; [reflexivity|].
  cbn [length Nat.eqb] in *.
  replace (S (S (length rest)) - 1)%nat with (S (length rest)) by lia.
  replace (S (length rest) - 1)%nat with (length rest) in IH by lia.
  cbn [nth_error]. rewrite IH.
  cbn [lastOpt]. destruct (lastOpt rest); reflexivity.
Qed.

Lemma lastOpt_app {A : Type} (l : list A) (x : A) :
  lastOpt (l ++ [x]) = Some x.
Proof.
  induction l as [|y l IH]; simpl; [reflexivity|]. now rewrite IH.
Qed.

Lemma lastOpt_None {A : Type} (l : list A) : lastOpt l = None -> l = [].
Proof.
  destruct l as [|x l]; [reflexivity|]. simpl.
  destruct (lastOpt l); discriminate.
Qed.

Lemma lastOpt_Some {A : Type} (l : list A) (x : A) :
  lastOpt l = Some x -> exists pre, l = pre ++ [x].
Proof.
  revert x. induction l as [|y l IH]; intros x H; [discriminate|].
  simpl in H. destruct (lastOpt l) as [z|] eqn:E.
  - injection H as ->. destruct (IH x eq_refl) as [pre ->].
    now exists (y :: pre).
  - injection H as ->. apply lastOpt_None in E. subst l. now exists [].
Qed.

Lemma filter_none {A : Type} (f : A -> bool) (l : list A) :
  (forall x, In x l -> f x = false) -> filter f l = [].
Proof.
  induction l as [|x l IH]; intros H; simpl; [reflexivity|].
  rewrite (H x (or_introl eq_refl)). apply IH. intros y Hy. apply H.
  now right.
Qed.

Section AsOf.

Context {A : Type} (dateOf : A -> Z).

Lemma ascending_strong (l : list A) :
  ascending dateOf l -> StronglySorted (dateLe dateOf) l.
Proof.
  apply Sorted_StronglySorted. intros a b c. unfold dateLe. lia.
Qed.

Lemma StronglySorted_filter_upTo (d : Z) (l : list A) :
  StronglySorted (dateLe dateOf) l ->
  StronglySorted (dateLe dateOf) (filter (upTo dateOf d) l).
Proof.
  induction 1 as [|x l Hs IH Hx]; simpl; [constructor|].
  destruct (upTo dateOf d x); [|assumption].
  constructor; [assumption|].
  rewrite Forall_forall in *. intros y Hy.
  apply filter_In in Hy. now apply Hx.
Qed.

Lemma StronglySorted_app_le (l1 l2 : list A) :
  StronglySorted (dateLe dateOf) (l1 ++ l2) ->
  forall x y, In x l1 -> In y l2 -> dateOf x <= dateOf y.
Proof.
  induction l1 as [|a l1 IH]; simpl; intros H x y Hx Hy; [destruct Hx|].
  inversion H as [|? ? Hs Ha]; subst. destruct Hx as [<-|Hx].
  - rewrite Forall_forall in Ha. apply Ha. apply in_or_app. now right.
  - now apply IH.
Qed.

(** "Filter, then take the last" is the as-of join on an ascending list. *)
Lemma filter_last_isAsOf (l : list A) (d : Z) :
  ascending dateOf l ->
  isAsOf dateOf l d (lastOpt (filter (upTo dateOf d) l)).
Proof.
  intros Hasc. apply ascending_strong in Hasc.
  destruct (lastOpt (filter (upTo dateOf d) l)) as [x|] eqn:E; simpl.
  - destruct (lastOpt_Some _ _ E) as [pre Hpre].
    assert (Hin : In x (filter (upTo dateOf d) l)).
    { rewrite Hpre. apply in_or_app. right. now left. }
    apply filter_In in Hin. destruct Hin as [Hin Hd].
    unfold upTo in Hd. apply Z.leb_le in Hd.
    repeat split; try assumption.
    intros y Hy Hyd.
    assert (Hyf : In y (pre ++ [x])).
    { rewrite <- Hpre. apply filter_In. split; [assumption|].
      unfold upTo. now apply Z.leb_le. }
    apply in_app_or in Hyf. destruct Hyf as [Hyf|[<-|[]]]; [|lia].
    pose proof (StronglySorted_filter_upTo d l Hasc) as Hsf.
    rewrite Hpre in Hsf.
    apply (StronglySorted_app_le pre [x] Hsf); [assumption|now left].
  - apply lastOpt_None in E. intros y Hy.
    destruct (Z.leb_spec (dateOf y) d) as [Hle|Hlt]; [|assumption].
    exfalso.
    assert (Hyf : In y (filter (upTo dateOf d) l)).
    { apply filter_In. split; [assumption|]. unfold upTo.
      now apply Z.leb_le. }
    rewrite E in Hyf. destruct Hyf.
Qed.

End AsOf.

(** ** The two as-of joins of [calculateHistoricalMetrics] *)

Lemma latestQuarter_lastOpt (allQuarters : list Quarter.t) (d : Z) :
  latestQuarter allQuarters d = lastOpt (availableQuarters allQuarters d).
Proof. unfold latestQuarter. cbv zeta. apply lastOpt_nth_error. Qed.

(** Whatever the order of the records, the forward scan returns a record
    dated at or before the price date, or the initial accumulator. *)
Lemma closestScan_cases (acc : option IntlStock.t) (l : list IntlStock.t)
    (d : Z) :
  closestScan acc l d = acc \/
  exists s, closestScan acc l d = Some s /\ In s l /\ IntlStock.date s <= d.
Proof.
  revert acc. induction l as [|s l IH]; intros acc; simpl; [now left|].
  destruct (Z.leb_spec (IntlStock.date s) d) as [Hle|Hlt]; [|now left].
  right. destruct (IH (Some s)) as [->|(s' & -> & Hin & Hd)].
  - exists s. auto.
  - exists s'. auto.
Qed.

(** On an ascending list the forward scan with early [break] finds the same
    record as "filter, then take the last". *)
Lemma closestScan_filter_last (acc : option IntlStock.t)
    (l : list IntlStock.t) (d : Z) :
  StronglySorted (fun a b => IntlStock.date a <= IntlStock.date b) l ->
  closestScan acc l d =
  match lastOpt (filter (fun s => IntlStock.date s <=? d) l) with
  | Some s => Some s
  | None => acc
  end.
Proof.
  intros Hs. revert acc.
  induction Hs as [|s l Hs IH Hall]; intros acc; simpl; [reflexivity|].
  destruct (Z.leb_spec (IntlStock.date s) d) as [Hle|Hlt].
  - rewrite IH. simpl.
    destruct (lastOpt (filter (fun s0 => IntlStock.date s0 <=? d) l));
      reflexivity.
  - replace (filter (fun s0 => IntlStock.date s0 <=? d) l) with
      (@nil IntlStock.t); [reflexivity|].
    symmetry. apply filter_none. intros y Hy.
    rewrite Forall_forall in Hall. specialize (Hall y Hy).
    apply Z.leb_gt. lia.
Qed.

Lemma findClosestSharesData_isAsOf (intlStockData : list IntlStock.t) (d : Z) :
  ascending IntlStock.date intlStockData ->
  isAsOf IntlStock.date intlStockData d
    (findClosestSharesData intlStockData d).
Proof.
  intros Hasc. unfold findClosestSharesData.
  rewrite closestScan_filter_last by now apply ascending_strong.
  pose proof (filter_last_isAsOf IntlStock.date intlStockData d Hasc) as H.
  destruct (lastOpt _); exact H.
Qed.

Lemma latestQuarter_isAsOf (allQuarters : list Quarter.t) (d : Z) :
  ascending Quarter.date allQuarters ->
  isAsOf Quarter.date allQuarters d (latestQuarter allQuarters d).
Proof.
  intros Hasc. rewrite latestQuarter_lastOpt.
  exact (filter_last_isAsOf Quarter.date allQuarters d Hasc).
Qed.

(** The rows of one US iteration, by cases on the as-of record. *)
Lemma usMetricsAt_inv (ticker : string) (now : Z)
    (allQuarters : list Quarter.t) (priceData : PriceData.t) (r : Metrics.t) :
  In r (usMetricsAt ticker now allQuarters priceData) ->
  exists latest shares,
    latestQuarter allQuarters (PriceData.date priceData) = Some latest /\
    Quarter.commonStockSharesOutstanding latest = Num shares /\
    ~ (shares == 0)%Q /\
    r = usRow ticker now priceData latest shares
          (ttmQuarters allQuarters (PriceData.date priceData)).
Proof.
  unfold usMetricsAt.
  destruct (latestQuarter _ _) as [latest|]; [|intros []].
  destruct (Quarter.commonStockSharesOutstanding latest) as [| |shares] eqn:E;
    [intros []|intros []|].
  simpl. destruct (Qeq_bool shares 0) eqn:Eb; simpl; [intros []|].
  intros [<-|[]]. exists latest, shares. repeat split; try assumption.
  intros Hz. apply Qeq_bool_iff in Hz. congruence.
Qed.

(** The rows of one international iteration. *)
Lemma intlMetricsAt_inv (ticker : string) (now : Z)
    (intlStockData : list IntlStock.t) (priceData : PriceData.t)
    (r : Metrics.t) :
  In r (intlMetricsAt ticker now intlStockData priceData) ->
  exists closest shares,
    findClosestSharesData intlStockData (PriceData.date priceData)
      = Some closest /\
    IntlStock.commonStockSharesOutstanding closest = Num shares /\
    ~ (shares == 0)%Q /\
    r = Metrics.mk ticker ticker (PriceData.date priceData)
          (PriceData.price priceData) (PriceData.volume priceData)
          (PriceData.price priceData * shares)%Q
          None None None None true now.
Proof.
  unfold intlMetricsAt.
  destruct (findClosestSharesData _ _) as [closest|]; [|intros []].
  destruct (IntlStock.commonStockSharesOutstanding closest)
    as [| |shares] eqn:E; [intros []|intros []|].
  simpl. destruct (Qeq_bool shares 0) eqn:Eb; simpl; [intros []|].
  intros [<-|[]]. exists closest, shares. repeat split; try assumption.
  intros Hz. apply Qeq_bool_iff in Hz. congruence.
Qed.

(** Every row of a derivation comes from one of its price observations, in
    the iteration of that observation. *)
Lemma forPriceDataPoints_In (rowsAt : Z -> PriceData.t -> list Metrics.t)
    (now : nat -> Z) (r : Metrics.t) :
  forall (priceDataPoints : list PriceData.t) (i : nat),
    In r (forPriceDataPoints rowsAt now i priceDataPoints) <->
    exists k priceData,
      nth_error priceDataPoints k = Some priceData /\
      In r (rowsAt (now (i + k)%nat) priceData).
Proof.
  induction priceDataPoints as [|p rest IH]; intros i; simpl.
  - split; [intros []|]. intros ([|k] & q & H & _); discriminate.
  - rewrite in_app_iff, IH. split.
    + intros [H|(k & q & Hk & H)].
      * exists 0%nat, p. rewrite Nat.add_0_r. now split.
      * exists (S k), q. rewrite Nat.add_succ_r. now split.
    + intros ([|k] & q & Hk & H).
      * injection Hk as <-. rewrite Nat.add_0_r in H. now left.
      * right. exists k, q. rewrite Nat.add_succ_r in H. now split.
Qed.

Lemma usMetrics_inv (ticker : string) (now : nat -> Z)
    (allQuarters : list Quarter.t) (priceDataPoints : list PriceData.t)
    (r : Metrics.t) :
  In r (usMetrics ticker now allQuarters priceDataPoints) <->
  exists i priceData,
    nth_error priceDataPoints i = Some priceData /\
    In r (usMetricsAt ticker (now i) allQuarters priceData).
Proof. unfold usMetrics. apply forPriceDataPoints_In. Qed.

Lemma intlMetrics_inv (ticker : string) (now : nat -> Z)
    (intlStockData : list IntlStock.t) (priceDataPoints : list PriceData.t)
    (r : Metrics.t) :
  In r (intlMetrics ticker now intlStockData priceDataPoints) <->
  exists i priceData,
    nth_error priceDataPoints i = Some priceData /\
    In r (intlMetricsAt ticker (now i) intlStockData priceData).
Proof. unfold intlMetrics. apply forPriceDataPoints_In. Qed.

(** C1 (as-of join correctness). On statement records (US) and
    shares-outstanding records (international) sorted ascending by effective
    date, the record selected for a price date [d] is a record with the
    largest effective date [<= d], by "filter, then take the last" on the US
    path and by the forward scan with early [break] on the international
    path; every row pushed for the price observation is built from that
    record; and when every effective date exceeds [d], or there are no
    records, nothing is selected and the price date contributes no row. *)
Theorem asof_join_correct :
  forall (ticker : string) (now : Z) (allQuarters : list Quarter.t)
         (intlStockData : list IntlStock.t) (priceData : PriceData.t),
    ascending Quarter.date allQuarters ->
    ascending IntlStock.date intlStockData ->
    let d := PriceData.date priceData in
    (* US path *)
    isAsOf Quarter.date allQuarters d (latestQuarter allQuarters d) /\
    (forall r, In r (usMetricsAt ticker now allQuarters priceData) ->
       exists latest shares,
         latestQuarter allQuarters d = Some latest /\
         Quarter.commonStockSharesOutstanding latest = Num shares /\
         r = usRow ticker now priceData latest shares
               (ttmQuarters allQuarters d)) /\
    ((forall q, In q allQuarters -> d < Quarter.date q) ->
       latestQuarter allQuarters d = None /\
       usMetricsAt ticker now allQuarters priceData = []) /\
    (* international path *)
    isAsOf IntlStock.date intlStockData d
      (findClosestSharesData intlStockData d) /\
    (forall r, In r (intlMetricsAt ticker now intlStockData priceData) ->
       exists closest shares,
         findClosestSharesData intlStockData d = Some closest /\
         IntlStock.commonStockSharesOutstanding closest = Num shares /\
         Metrics.marketCap r = (PriceData.price priceData * shares)%Q) /\
    ((forall s, In s intlStockData -> d < IntlStock.date s) ->
       findClosestSharesData intlStockData d = None /\
       intlMetricsAt ticker now intlStockData priceData = []).
Proof.
  intros ticker now allQuarters intlStockData priceData Hus Hintl d.
  pose proof (latestQuarter_isAsOf allQuarters d Hus) as HU.
  pose proof (findClosestSharesData_isAsOf intlStockData d Hintl) as HI.
  split; [exact HU|]. split.
  { intros r Hr. apply usMetricsAt_inv in Hr.
    destruct Hr as (latest & shares & H1 & H2 & _ & H3). eauto. }
  split.
  { intros Hall.
    assert (E : latestQuarter allQuarters d = None).
    { destruct (latestQuarter allQuarters d) as [q|]; [|reflexivity].
      destruct HU as (Hin & Hd & _). specialize (Hall q Hin). lia. }
    split; [exact E|]. unfold usMetricsAt. fold d. now rewrite E. }
  split; [exact HI|]. split.
  { intros r Hr. apply intlMetricsAt_inv in Hr.
    destruct Hr as (closest & shares & H1 & H2 & _ & ->). eauto. }
  intros Hall.
  assert (E : findClosestSharesData intlStockData d = None).
  { destruct (findClosestSharesData intlStockData d) as [s|]; [|reflexivity].
    destruct HI as (Hin & Hd & _). specialize (Hall s Hin). lia. }
  split; [exact E|]. unfold intlMetricsAt. fold d. now rewrite E.
Qed.

(** ** No look-ahead *)

Lemma availableQuarters_In (allQuarters : list Quarter.t) (d : Z)
    (q : Quarter.t) :
  In q (availableQuarters allQuarters d) <->
  In q allQuarters /\ Quarter.date q <= d.
Proof.
  unfold availableQuarters. rewrite filter_In, Z.leb_le. reflexivity.
Qed.

Lemma slice_last4_incl {A : Type} (arr : list A) (x : A) :
  In x (slice_last4 arr) -> In x arr.
Proof.
  unfold slice_last4. intros H.
  rewrite <- (firstn_skipn (length arr - 4) arr).
  apply in_or_app. now right.
Qed.

Lemma latestQuarter_available (allQuarters : list Quarter.t) (d : Z)
    (q : Quarter.t) :
  latestQuarter allQuarters d = Some q ->
  In q (availableQuarters allQuarters d).
Proof.
  rewrite latestQuarter_lastOpt. intros H.
  destruct (lastOpt_Some _ _ H) as [pre ->].
  apply in_or_app. right. now left.
Qed.

Lemma availableQuarters_idem (allQuarters : list Quarter.t) (d : Z) :
  availableQuarters (availableQuarters allQuarters d) d
  = availableQuarters allQuarters d.
Proof.
  unfold availableQuarters.
  induction allQuarters as [|q l IH]; simpl; [reflexivity|].
  destruct (Quarter.date q <=? d) eqn:E; simpl; [|assumption].
  now rewrite E, IH.
Qed.

(** C4 (no look-ahead). For a price observation dated [d]: every statement
    the US path keeps after its filter, hence the latest quarter and each of
    the TTM quarters whose fields enter the row, has effective date [<= d];
    the rows of the iteration are unchanged when the statements dated after
    [d] are removed from the input; and the record the international scan
    selects has effective date [<= d]. Neither path needs the input to be
    sorted for this. *)
Theorem no_look_ahead :
  forall (ticker : string) (now : Z) (allQuarters : list Quarter.t)
         (intlStockData : list IntlStock.t) (priceData : PriceData.t),
    let d := PriceData.date priceData in
    (forall r, In r (usMetricsAt ticker now allQuarters priceData) ->
       exists latest shares,
         r = usRow ticker now priceData latest shares
               (ttmQuarters allQuarters d) /\
         In latest allQuarters /\ Quarter.date latest <= d /\
         Quarter.commonStockSharesOutstanding latest = Num shares /\
         forall q, In q (ttmQuarters allQuarters d) ->
                   In q allQuarters /\ Quarter.date q <= d) /\
    usMetricsAt ticker now allQuarters priceData
      = usMetricsAt ticker now (availableQuarters allQuarters d) priceData /\
    (forall r, In r (intlMetricsAt ticker now intlStockData priceData) ->
       exists closest shares,
         Metrics.marketCap r = (PriceData.price priceData * shares)%Q /\
         IntlStock.commonStockSharesOutstanding closest = Num shares /\
         In closest intlStockData /\ IntlStock.date closest <= d) /\
    (forall s, findClosestSharesData intlStockData d = Some s ->
       In s intlStockData /\ IntlStock.date s <= d).
Proof.
  intros ticker now allQuarters intlStockData priceData d.
  assert (Hscan : forall s, findClosestSharesData intlStockData d = Some s ->
                            In s intlStockData /\ IntlStock.date s <= d).
  { intros s Hs. unfold findClosestSharesData in Hs.
    destruct (closestScan_cases None intlStockData d)
      as [E|(s' & E & Hin & Hd)]; rewrite E in Hs; [discriminate|].
    injection Hs as <-. auto. }
  split.
  { intros r Hr. apply usMetricsAt_inv in Hr.
    destruct Hr as (latest & shares & H1 & H2 & _ & H3).
    exists latest, shares. fold d in H1, H3.
    apply latestQuarter_available, availableQuarters_In in H1.
    destruct H1 as [Hin Hd]. repeat split; try assumption.
    - apply slice_last4_incl, availableQuarters_In in H. tauto.
    - apply slice_last4_incl, availableQuarters_In in H. tauto. }
  split.
  { unfold usMetricsAt, ttmQuarters. fold d.
    rewrite !latestQuarter_lastOpt, availableQuarters_idem. reflexivity. }
  split; [|exact Hscan].
  intros r Hr. apply intlMetricsAt_inv in Hr.
  destruct Hr as (closest & shares & H1 & H2 & _ & ->).
  exists closest, shares. destruct (Hscan closest H1). auto.
Qed.

(** ** The shares-outstanding gate *)

Lemma derived_date_us (ticker : string) (now : Z)
    (allQuarters : list Quarter.t) (priceData : PriceData.t) (r : Metrics.t) :
  In r (usMetricsAt ticker now allQuarters priceData) ->
  Metrics.date r = PriceData.date priceData.
Proof.
  intros H. apply usMetricsAt_inv in H.
  destruct H as (? & ? & _ & _ & _ & ->). reflexivity.
Qed.

Lemma derived_date_intl (ticker : string) (now : Z)
    (intlStockData : list IntlStock.t) (priceData : PriceData.t)
    (r : Metrics.t) :
  In r (intlMetricsAt ticker now intlStockData priceData) ->
  Metrics.date r = PriceData.date priceData.
Proof.
  intros H. apply intlMetricsAt_inv in H.
  destruct H as (? & ? & _ & _ & _ & ->). reflexivity.
Qed.

(** C9 (shares-outstanding gate). When the statement selected for a price
    date [d] has a missing or zero [commonStockSharesOutstanding], the
    derivation of the security has no row dated [d], whatever the earlier
    statements carry; the same holds on the international path for the
    selected shares record. *)
Theorem shares_gate :
  forall (ticker : string) (now : nat -> Z) (allQuarters : list Quarter.t)
         (intlStockData : list IntlStock.t)
         (priceDataPoints : list PriceData.t) (d : Z),
    (forall latest,
       latestQuarter allQuarters d = Some latest ->
       truthy (Quarter.commonStockSharesOutstanding latest) = false ->
       forall r, In r (usMetrics ticker now allQuarters priceDataPoints) ->
                 Metrics.date r <> d) /\
    (forall closest,
       findClosestSharesData intlStockData d = Some closest ->
       truthy (IntlStock.commonStockSharesOutstanding closest) = false ->
       forall r, In r (intlMetrics ticker now intlStockData priceDataPoints) ->
                 Metrics.date r <> d).
Proof.
  intros ticker now allQuarters intlStockData priceDataPoints d. split.
  - intros latest Hl Hf r Hr Hd.
    apply usMetrics_inv in Hr. destruct Hr as (i & p & _ & Hr).
    pose proof (derived_date_us _ _ _ _ _ Hr) as Ed.
    apply usMetricsAt_inv in Hr.
    destruct Hr as (latest' & shares & H1 & H2 & Hnz & _).
    rewrite <- Ed, Hd, Hl in H1. injection H1 as <-.
    rewrite H2 in Hf. simpl in Hf. apply negb_false_iff in Hf.
    apply Qeq_bool_iff in Hf. contradiction.
  - intros closest Hl Hf r Hr Hd.
    apply intlMetrics_inv in Hr. destruct Hr as (i & p & _ & Hr).
    pose proof (derived_date_intl _ _ _ _ _ Hr) as Ed.
    apply intlMetricsAt_inv in Hr.
    destruct Hr as (closest' & shares & H1 & H2 & Hnz & _).
    rewrite <- Ed, Hd, Hl in H1. injection H1 as <-.
    rewrite H2 in Hf. simpl in Hf. apply negb_false_iff in Hf.
    apply Qeq_bool_iff in Hf. contradiction.
Qed.

(** ** JavaScript values *)

Lemma Qgtb0_true (q : Q) : Qgtb0 q = true <-> (0 < q)%Q.
Proof.
  unfold Qgtb0. rewrite Qlt_alt.
  destruct (0 ?= q)%Q; split; congruence.
Qed.

Lemma Qgtb0_false (q : Q) : Qgtb0 q = false <-> (q <= 0)%Q.
Proof.
  rewrite <- not_true_iff_false, Qgtb0_true. split.
  - apply Qnot_lt_le.
  - apply Qle_not_lt.
Qed.

Lemma truthy_presentNonZero (v : jsnum) :
  truthy v = true <-> exists q, presentNonZero v q.
Proof.
  unfold presentNonZero. destruct v as [| |q]; simpl.
  - split; [discriminate|]. intros (q & H & _). discriminate.
  - split; [discriminate|]. intros (q & H & _). discriminate.
  - rewrite negb_true_iff. split.
    + intros H. exists q. split; [reflexivity|].
      intros Hz. apply Qeq_bool_iff in Hz. congruence.
    + intros (q' & [= <-] & Hnz).
      destruct (Qeq_bool q 0) eqn:E; [|reflexivity].
      apply Qeq_bool_iff in E. contradiction.
Qed.

Lemma truthy_missingOrZero (v : jsnum) :
  truthy v = false <-> missingOrZero v.
Proof.
  unfold missingOrZero. destruct v as [| |q]; simpl.
  - split; auto.
  - split; auto.
  - rewrite negb_false_iff, Qeq_bool_iff. split.
    + intros H. right. right. now exists q.
    + intros [H|[H|(q' & [= <-] & H)]]; [discriminate|discriminate|assumption].
Qed.

Lemma or_num_presentNonZero (v : jsnum) (q d : Q) :
  presentNonZero v q -> or_num v d = q.
Proof.
  intros [-> Hnz]. simpl. destruct (Qeq_bool q 0) eqn:E; [|reflexivity].
  apply Qeq_bool_iff in E. contradiction.
Qed.

Lemma or_num_missingOrZero (v : jsnum) (d : Q) :
  missingOrZero v -> or_num v d = d.
Proof.
  intros [->|[->|(q & -> & Hz)]]; simpl; try reflexivity.
  apply Qeq_bool_iff in Hz. now rewrite Hz.
Qed.

Lemma or_num_valueOr0 (v : jsnum) : (or_num v 0 == valueOr0 v)%Q.
Proof.
  destruct v as [| |q]; simpl; try reflexivity.
  destruct (Qeq_bool q 0) eqn:E; [|reflexivity].
  apply Qeq_bool_iff in E. now rewrite E.
Qed.

(** ** Foreign-listed rows *)

(** C7 (foreign-listed rows). When the shares record selected for a price
    observation carries a non-zero [commonStockSharesOutstanding], the
    international path pushes exactly one row for the observation, with
    [marketCap = price * shares] and with [peRatioTTM], [psRatioTTM],
    [pbRatioTTM] and [enterpriseValue] all [null]; and no row of an
    international derivation ever carries one of these four fields. *)
Theorem foreign_rows :
  forall (ticker : string) (now : Z) (intlStockData : list IntlStock.t)
         (priceData : PriceData.t) (closest : IntlStock.t) (shares : Q),
    findClosestSharesData intlStockData (PriceData.date priceData)
      = Some closest ->
    presentNonZero (IntlStock.commonStockSharesOutstanding closest) shares ->
    intlMetricsAt ticker now intlStockData priceData
      = [ Metrics.mk ticker ticker (PriceData.date priceData)
            (PriceData.price priceData) (PriceData.volume priceData)
            (PriceData.price priceData * shares)%Q
            None None None None true now ] /\
    forall (readings : nat -> Z) priceDataPoints r,
      In r (intlMetrics ticker readings intlStockData priceDataPoints) ->
      Metrics.peRatioTTM r = None /\ Metrics.psRatioTTM r = None /\
      Metrics.pbRatioTTM r = None /\ Metrics.enterpriseValue r = None /\
      Metrics.isInternational r = true.
Proof.
  intros ticker now intlStockData priceData closest shares Hc [Hs Hnz].
  split.
  - unfold intlMetricsAt. rewrite Hc, Hs. simpl.
    destruct (Qeq_bool shares 0) eqn:E; [|reflexivity].
    apply Qeq_bool_iff in E. contradiction.
  - intros readings priceDataPoints r Hr.
    apply intlMetrics_inv in Hr. destruct Hr as (i & p & _ & Hr).
    apply intlMetricsAt_inv in Hr.
    destruct Hr as (? & ? & _ & _ & _ & ->). simpl. auto.
Qed.

(** ** Ratios of a US row *)

Lemma ratio_pos (marketCap den : Q) :
  (0 < den)%Q -> ratio marketCap den = Some (marketCap / den)%Q.
Proof. intros H. unfold ratio. now rewrite (proj2 (Qgtb0_true den) H). Qed.

Lemma ratio_nonpos (marketCap den : Q) :
  (den <= 0)%Q -> ratio marketCap den = None.
Proof. intros H. unfold ratio. now rewrite (proj2 (Qgtb0_false den) H). Qed.

Lemma ratio_Some (marketCap den z : Q) :
  ratio marketCap den = Some z -> (0 < den)%Q /\ z = (marketCap / den)%Q.
Proof.
  unfold ratio. destruct (Qgtb0 den) eqn:E; [|discriminate].
  intros [= <-]. split; [now apply Qgtb0_true|reflexivity].
Qed.

(** C5 (ratio absence). In every row of the US path, with [ttm] the TTM
    quarters and [latest] the selected statement of the row's price date:
    [peRatioTTM] is [marketCap / ttmNetIncome] when [ttmNetIncome > 0] and
    [null] when [ttmNetIncome <= 0]; [psRatioTTM] likewise from
    [ttmTotalRevenue]; [pbRatioTTM] is [marketCap / totalStockholderEquity]
    when that figure of [latest] is a number [> 0], and [null] when it is
    missing ([undefined] or [null]) or [<= 0]; so a ratio that is populated
    has a strictly positive denominator, and none is [0] in place of an
    absent value. *)
Theorem ratio_absence :
  forall (ticker : string) (now : Z) (allQuarters : list Quarter.t)
         (priceData : PriceData.t) (r : Metrics.t),
    In r (usMetricsAt ticker now allQuarters priceData) ->
    exists latest,
      latestQuarter allQuarters (PriceData.date priceData) = Some latest /\
      let ttm := ttmQuarters allQuarters (PriceData.date priceData) in
      let marketCap := Metrics.marketCap r in
      let equity := Quarter.totalStockholderEquity latest in
      (* price to earnings *)
      ((0 < ttmNetIncome ttm)%Q ->
         Metrics.peRatioTTM r = Some (marketCap / ttmNetIncome ttm)%Q) /\
      ((ttmNetIncome ttm <= 0)%Q -> Metrics.peRatioTTM r = None) /\
      (* price to sales *)
      ((0 < ttmTotalRevenue ttm)%Q ->
         Metrics.psRatioTTM r = Some (marketCap / ttmTotalRevenue ttm)%Q) /\
      ((ttmTotalRevenue ttm <= 0)%Q -> Metrics.psRatioTTM r = None) /\
      (* price to book *)
      (forall e, equity = Num e -> (0 < e)%Q ->
         Metrics.pbRatioTTM r = Some (marketCap / e)%Q) /\
      (forall e, equity = Num e -> (e <= 0)%Q ->
         Metrics.pbRatioTTM r = None) /\
      (equity = Undefined \/ equity = Null -> Metrics.pbRatioTTM r = None) /\
      (* populated only over a strictly positive denominator *)
      (forall z, Metrics.peRatioTTM r = Some z -> (0 < ttmNetIncome ttm)%Q) /\
      (forall z, Metrics.psRatioTTM r = Some z ->
         (0 < ttmTotalRevenue ttm)%Q) /\
      (forall z, Metrics.pbRatioTTM r = Some z ->
         exists e, equity = Num e /\ (0 < e)%Q).
Proof.
  intros ticker now allQuarters priceData r Hr.
  apply usMetricsAt_inv in Hr.
  destruct Hr as (latest & shares & Hl & _ & _ & ->).
  exists latest. split; [exact Hl|]. cbn -[ttmNetIncome ttmTotalRevenue].
  repeat split.
  - apply ratio_pos.
  - apply ratio_nonpos.
  - apply ratio_pos.
  - apply ratio_nonpos.
  - intros e He Hpos. unfold pbRatio. rewrite He. now apply ratio_pos.
  - intros e He Hneg. unfold pbRatio. rewrite He. now apply ratio_nonpos.
  - intros [He|He]; unfold pbRatio; now rewrite He.
  - intros z Hz. now apply ratio_Some in Hz.
  - intros z Hz. now apply ratio_Some in Hz.
  - intros z Hz. unfold pbRatio in Hz.
    destruct (Quarter.totalStockholderEquity latest) as [| |e];
      [discriminate|discriminate|].
    exists e. split; [reflexivity|]. now apply ratio_Some in Hz.
Qed.

(** ** Enterprise value *)

Lemma anyDebtOrCashField_true (latest : Quarter.t) :
  anyDebtOrCashField latest = true <->
  Quarter.longTermDebt latest <> Undefined \/
  Quarter.shortTermDebt latest <> Undefined \/
  Quarter.shortLongTermDebt latest <> Undefined \/
  Quarter.cashAndShortTermInvestments latest <> Undefined \/
  Quarter.cash latest <> Undefined.
Proof.
  unfold anyDebtOrCashField.
  destruct (Quarter.longTermDebt latest), (Quarter.shortTermDebt latest),
    (Quarter.shortLongTermDebt latest),
    (Quarter.cashAndShortTermInvestments latest), (Quarter.cash latest);
    simpl; split; intros H; try reflexivity; try discriminate;
    try (repeat (try (left; discriminate); right); discriminate);
    repeat destruct H as [H|H]; congruence.
Qed.

Lemma anyDebtOrCashField_false (latest : Quarter.t) :
  anyDebtOrCashField latest = false <->
  Quarter.longTermDebt latest = Undefined /\
  Quarter.shortTermDebt latest = Undefined /\
  Quarter.shortLongTermDebt latest = Undefined /\
  Quarter.cashAndShortTermInvestments latest = Undefined /\
  Quarter.cash latest = Undefined.
Proof.
  unfold anyDebtOrCashField.
  destruct (Quarter.longTermDebt latest), (Quarter.shortTermDebt latest),
    (Quarter.shortLongTermDebt latest),
    (Quarter.cashAndShortTermInvestments latest), (Quarter.cash latest);
    simpl; split; intros H; try discriminate; try tauto;
    repeat match goal with H : _ /\ _ |- _ => destruct H end; discriminate.
Qed.

Lemma totalDebt_valueOr0 (latest : Quarter.t) :
  (totalDebt latest ==
   valueOr0 (Quarter.longTermDebt latest) +
   valueOr0 (Quarter.shortTermDebt latest) +
   valueOr0 (Quarter.shortLongTermDebt latest))%Q.
Proof. unfold totalDebt. now rewrite !or_num_valueOr0. Qed.

(** C6 (enterprise-value trigger and defaulting). In every row of the US
    path, with [latest] the selected statement: when at least one of
    [longTermDebt], [shortTermDebt], [shortLongTermDebt],
    [cashAndShortTermInvestments], [cash] is present on [latest] (is not
    [undefined]), [enterpriseValue] is populated and equals [marketCap] plus
    the three debt figures (one without a number counting [0]) minus the
    cash term, which is [cashAndShortTermInvestments] when that is present
    and not zero, else [cash] when that is present and not zero, else [0];
    when none of the five is present, [enterpriseValue] is [null], not
    [marketCap]; so it is populated exactly when one of the five is
    present. *)
Theorem enterprise_value_trigger :
  forall (ticker : string) (now : Z) (allQuarters : list Quarter.t)
         (priceData : PriceData.t) (r : Metrics.t),
    In r (usMetricsAt ticker now allQuarters priceData) ->
    exists latest,
      latestQuarter allQuarters (PriceData.date priceData) = Some latest /\
      let debt :=
        (valueOr0 (Quarter.longTermDebt latest) +
         valueOr0 (Quarter.shortTermDebt latest) +
         valueOr0 (Quarter.shortLongTermDebt latest))%Q in
      let investments := Quarter.cashAndShortTermInvestments latest in
      ((Quarter.longTermDebt latest <> Undefined \/
        Quarter.shortTermDebt latest <> Undefined \/
        Quarter.shortLongTermDebt latest <> Undefined \/
        Quarter.cashAndShortTermInvestments latest <> Undefined \/
        Quarter.cash latest <> Undefined) ->
       exists ev,
         Metrics.enterpriseValue r = Some ev /\
         (forall c, presentNonZero investments c ->
            (ev == Metrics.marketCap r + debt - c)%Q) /\
         (forall c, missingOrZero investments ->
            presentNonZero (Quarter.cash latest) c ->
            (ev == Metrics.marketCap r + debt - c)%Q) /\
         (missingOrZero investments -> missingOrZero (Quarter.cash latest) ->
            (ev == Metrics.marketCap r + debt)%Q)) /\
      ((Quarter.longTermDebt latest = Undefined /\
        Quarter.shortTermDebt latest = Undefined /\
        Quarter.shortLongTermDebt latest = Undefined /\
        Quarter.cashAndShortTermInvestments latest = Undefined /\
        Quarter.cash latest = Undefined) ->
       Metrics.enterpriseValue r = None) /\
      (Metrics.enterpriseValue r <> None ->
       Quarter.longTermDebt latest <> Undefined \/
       Quarter.shortTermDebt latest <> Undefined \/
       Quarter.shortLongTermDebt latest <> Undefined \/
       Quarter.cashAndShortTermInvestments latest <> Undefined \/
       Quarter.cash latest <> Undefined).
Proof.
  intros ticker now allQuarters priceData r Hr.
  apply usMetricsAt_inv in Hr.
  destruct Hr as (latest & shares & Hl & _ & _ & ->).
  exists latest. split; [exact Hl|]. cbn [usRow Metrics.enterpriseValue
    Metrics.marketCap]. unfold enterpriseValue. split; [|split].
  - intros H. apply anyDebtOrCashField_true in H. rewrite H.
    eexists. split; [reflexivity|].
    unfold cashTerm. split; [|split].
    + intros c Hc. rewrite (or_num_presentNonZero _ c _ Hc).
      now rewrite totalDebt_valueOr0.
    + intros c Hi Hc. rewrite (or_num_missingOrZero _ _ Hi).
      rewrite (or_num_presentNonZero _ c _ Hc).
      now rewrite totalDebt_valueOr0.
    + intros Hi Hc. rewrite (or_num_missingOrZero _ _ Hi).
      rewrite (or_num_missingOrZero _ _ Hc), totalDebt_valueOr0.
      unfold Qminus. now rewrite Qplus_0_r.
  - intros H. apply anyDebtOrCashField_false in H. now rewrite H.
  - intros H. apply anyDebtOrCashField_true.
    destruct (anyDebtOrCashField latest); [reflexivity|]. now elim H.
Qed.

(** C10 (cash fallback of the enterprise value). The cash term is
    [cashAndShortTermInvestments] when that figure is present and not zero,
    otherwise [cash] when that is present and not zero, otherwise [0]; so a
    statement whose [cashAndShortTermInvestments] is present and zero and
    whose [cash] is positive has the positive [cash] subtracted in its
    enterprise value. *)
Theorem cash_fallback :
  forall (latest : Quarter.t),
    (forall c, presentNonZero (Quarter.cashAndShortTermInvestments latest) c ->
       cashTerm latest = c) /\
    (forall c, missingOrZero (Quarter.cashAndShortTermInvestments latest) ->
       presentNonZero (Quarter.cash latest) c ->
       cashTerm latest = c) /\
    (missingOrZero (Quarter.cashAndShortTermInvestments latest) ->
     missingOrZero (Quarter.cash latest) ->
     cashTerm latest = 0%Q) /\
    (forall z c marketCap,
       Quarter.cashAndShortTermInvestments latest = Num z -> (z == 0)%Q ->
       Quarter.cash latest = Num c -> (0 < c)%Q ->
       enterpriseValue marketCap latest
       = Some (marketCap + totalDebt latest - c)%Q).
Proof.
  intros latest. unfold cashTerm. repeat split.
  - intros c H. now apply or_num_presentNonZero.
  - intros c H1 H2. rewrite (or_num_missingOrZero _ _ H1).
    now apply or_num_presentNonZero.
  - intros H1 H2. rewrite (or_num_missingOrZero _ _ H1).
    now apply or_num_missingOrZero.
  - intros z c marketCap Hz Hz0 Hc Hpos.
    unfold enterpriseValue, cashTerm.
    replace (anyDebtOrCashField latest) with true.
    2:{ symmetry. apply anyDebtOrCashField_true. right. right. right.
        right. congruence. }
    rewrite (or_num_missingOrZero (Quarter.cashAndShortTermInvestments latest)).
    2:{ right. right. now exists z. }
    rewrite (or_num_presentNonZero (Quarter.cash latest) c).
    + reflexivity.
    + split; [assumption|]. intros E. rewrite E in Hpos.
      now apply Qlt_irrefl in Hpos.
Qed.

(** ** Trailing-twelve-month scaling *)

Lemma fold_left_sumOr0 (figure : Quarter.t -> jsnum)
    (quarters : list Quarter.t) (sum : Q) :
  (fold_left (fun sum q => sum + or_num (figure q) 0) quarters sum
   == sum + sumOr0 figure quarters)%Q.
Proof.
  revert sum. induction quarters as [|q l IH]; intros sum; simpl.
  - now rewrite Qplus_0_r.
  - rewrite IH, or_num_valueOr0. now rewrite Qplus_assoc.
Qed.

Lemma sumNetIncome_sumOr0 (ttm : list Quarter.t) :
  (sumNetIncome ttm == sumOr0 Quarter.netIncome ttm)%Q.
Proof.
  unfold sumNetIncome. rewrite fold_left_sumOr0. apply Qplus_0_l.
Qed.

Lemma sumTotalRevenue_sumOr0 (ttm : list Quarter.t) :
  (sumTotalRevenue ttm == sumOr0 Quarter.totalRevenue ttm)%Q.
Proof.
  unfold sumTotalRevenue. rewrite fold_left_sumOr0. apply Qplus_0_l.
Qed.

Lemma scaleFactor_pos (n : nat) :
  (1 <= n)%nat -> scaleFactor n = (4 / inject_Z (Z.of_nat n))%Q.
Proof.
  intros H. unfold scaleFactor.
  destruct (Nat.ltb_spec 0 n); [reflexivity|lia].
Qed.

Lemma slice_last4_length {A : Type} (arr : list A) :
  length (slice_last4 arr) = Nat.min 4 (length arr).
Proof. unfold slice_last4. rewrite length_skipn. lia. Qed.

Lemma slice_last4_suffix {A : Type} (arr : list A) :
  exists older, arr = older ++ slice_last4 arr.
Proof.
  exists (firstn (length arr - 4) arr). unfold slice_last4.
  symmetry. apply firstn_skipn.
Qed.

(** C3 (TTM scaling). When a statement is selected for the price date [d]
    (the condition under which the US path goes on to a row), the TTM
    quarters are the last [min 4 available] of the statements dated at or
    before [d] (the most recent ones when the statements are sorted
    ascending), there is at least one, and
    [ttmNetIncome = (4 / count) * Σ netIncome] over them, a quarter without
    [netIncome] adding [0] and still counting; [ttmTotalRevenue] is the same
    from [totalRevenue]. With four quarters [ttmNetIncome] is the plain sum,
    with one quarter it is four times that quarter's income. These are the
    figures whose ratios the row carries. *)
Theorem ttm_scaling :
  forall (ticker : string) (now : Z) (allQuarters : list Quarter.t)
         (priceData : PriceData.t) (latest : Quarter.t),
    latestQuarter allQuarters (PriceData.date priceData) = Some latest ->
    let d := PriceData.date priceData in
    let available := availableQuarters allQuarters d in
    let ttm := ttmQuarters allQuarters d in
    let count := length ttm in
    (exists older, available = older ++ ttm) /\
    (ascending Quarter.date allQuarters ->
     forall older, available = older ++ ttm ->
     forall o q, In o older -> In q ttm -> Quarter.date o <= Quarter.date q) /\
    count = Nat.min 4 (length available) /\
    (1 <= count)%nat /\
    (ttmNetIncome ttm ==
       4 / inject_Z (Z.of_nat count) * sumOr0 Quarter.netIncome ttm)%Q /\
    (ttmTotalRevenue ttm ==
       4 / inject_Z (Z.of_nat count) * sumOr0 Quarter.totalRevenue ttm)%Q /\
    (count = 4%nat ->
       (ttmNetIncome ttm == sumOr0 Quarter.netIncome ttm)%Q /\
       (ttmTotalRevenue ttm == sumOr0 Quarter.totalRevenue ttm)%Q) /\
    (forall q, ttm = [q] ->
       (ttmNetIncome ttm == 4 * valueOr0 (Quarter.netIncome q))%Q /\
       (ttmTotalRevenue ttm == 4 * valueOr0 (Quarter.totalRevenue q))%Q) /\
    (forall r, In r (usMetricsAt ticker now allQuarters priceData) ->
       Metrics.peRatioTTM r = ratio (Metrics.marketCap r) (ttmNetIncome ttm) /\
       Metrics.psRatioTTM r
       = ratio (Metrics.marketCap r) (ttmTotalRevenue ttm)).
Proof.
  intros ticker now allQuarters priceData latest Hl d available ttm count.
  assert (Hcount : count = Nat.min 4 (length available))
    by apply slice_last4_length.
  assert (Hpos : (1 <= count)%nat).
  { apply latestQuarter_available in Hl. fold d available in Hl.
    destruct available; [destruct Hl|]. rewrite Hcount. simpl. lia. }
  assert (HNI : (ttmNetIncome ttm ==
            4 / inject_Z (Z.of_nat count) * sumOr0 Quarter.netIncome ttm)%Q).
  { unfold ttmNetIncome. fold count. rewrite (scaleFactor_pos _ Hpos).
    rewrite sumNetIncome_sumOr0. apply Qmult_comm. }
  assert (HTR : (ttmTotalRevenue ttm ==
            4 / inject_Z (Z.of_nat count) * sumOr0 Quarter.totalRevenue ttm)%Q).
  { unfold ttmTotalRevenue. fold count. rewrite (scaleFactor_pos _ Hpos).
    rewrite sumTotalRevenue_sumOr0. apply Qmult_comm. }
  split; [apply slice_last4_suffix|]. split.
  { intros Hasc older Hav. apply (StronglySorted_app_le Quarter.date).
    rewrite <- Hav.
    apply (StronglySorted_filter_upTo Quarter.date d allQuarters).
    now apply ascending_strong. }
  split; [exact Hcount|]. split; [exact Hpos|].
  split; [exact HNI|]. split; [exact HTR|]. split; [|split].
  - intros H4. rewrite HNI, HTR, H4.
    change (4 / inject_Z (Z.of_nat 4))%Q with (4 / 4)%Q.
    split; field.
  - intros q Hq. rewrite HNI, HTR. unfold count. rewrite Hq. simpl.
    change (4 / inject_Z 1)%Q with (4 / 1)%Q. split; field.
  - intros r Hr. apply usMetricsAt_inv in Hr.
    destruct Hr as (latest' & shares & _ & _ & _ & ->). split; reflexivity.
Qed.

(** ** The staging table and the merge *)

Lemma insertLoop_all {A : Type} (batchSize : nat) (rows : list A) :
  (0 < batchSize)%nat ->
  forall fuel i table,
    (length rows - i <= fuel)%nat ->
    insertLoop fuel batchSize rows i table = table ++ skipn i rows.
Proof.
  intros Hb. induction fuel as [|fuel IH]; intros i table Hf; simpl.
  - rewrite skipn_all2 by lia. now rewrite app_nil_r.
  - destruct (Nat.ltb_spec i (length rows)) as [Hi|Hi].
    + rewrite IH by lia. rewrite <- app_assoc. f_equal.
      rewrite (Nat.add_comm i batchSize), <- skipn_skipn.
      apply firstn_skipn.
    + rewrite skipn_all2 by lia. now rewrite app_nil_r.
Qed.

(** The sub-batches of 500 put every row in the staging table, once and in
    order. *)
Lemma insertPriceMetricsToTempTable_all (metrics tempTable : list Metrics.t) :
  insertPriceMetricsToTempTable metrics tempTable = tempTable ++ metrics.
Proof.
  unfold insertPriceMetricsToTempTable.
  destruct metrics as [|m metrics]; [now rewrite app_nil_r|].
  cbn [length Nat.eqb].
  rewrite (insertLoop_all 500 (m :: metrics)); [reflexivity|lia|simpl; lia].
Qed.

Lemma sameKey_keyOf (t s : Metrics.t) :
  sameKey t s = true <-> keyOf t = keyOf s.
Proof.
  unfold sameKey, keyOf. rewrite andb_true_iff, String.eqb_eq, Z.eqb_eq.
  split; [intros [-> ->]; reflexivity|intros [= -> ->]; auto].
Qed.

Lemma sameKey_ext (t t' s : Metrics.t) :
  keyOf t = keyOf t' -> sameKey t s = sameKey t' s.
Proof.
  unfold sameKey, keyOf. intros [= -> ->]. reflexivity.
Qed.

Lemma sameKey_refl (s : Metrics.t) : sameKey s s = true.
Proof. now apply sameKey_keyOf. Qed.

Lemma updateSet_key (t s : Metrics.t) : keyOf (updateSet t s) = keyOf t.
Proof. reflexivity. Qed.

Lemma updateSet_again (t s : Metrics.t) :
  updateSet (updateSet t s) s = updateSet t s.
Proof. reflexivity. Qed.

Lemma updateSet_self (s : Metrics.t) : updateSet s s = s.
Proof. now destruct s. Qed.

Lemma whenMatched_key (source : list Metrics.t) (t : Metrics.t) :
  keyOf (whenMatched source t) = keyOf t.
Proof. unfold whenMatched. destruct (matching source t); reflexivity. Qed.

Lemma matching_ext (source : list Metrics.t) (t t' : Metrics.t) :
  keyOf t = keyOf t' -> matching source t = matching source t'.
Proof.
  intros H. unfold matching. apply filter_ext. intros s.
  now apply sameKey_ext.
Qed.

Lemma whenMatched_again (source : list Metrics.t) (t : Metrics.t) :
  whenMatched source (whenMatched source t) = whenMatched source t.
Proof.
  unfold whenMatched at 1.
  rewrite (matching_ext source _ t (whenMatched_key source t)).
  unfold whenMatched. destruct (matching source t); reflexivity.
Qed.

Section UniqueKeys.

Variable source : list Metrics.t.
Hypothesis source_keys : NoDup (map keyOf source).

Lemma matching_unique (s : Metrics.t) :
  In s source -> matching source s = [s].
Proof using source_keys.
  unfold matching. revert source_keys.
  induction source as [|a l IH]; intros Hnd Hin; [destruct Hin|].
  simpl in Hnd. inversion Hnd as [|? ? Ha Hl]; subst.
  destruct Hin as [->|Hin]; simpl.
  - rewrite sameKey_refl. f_equal. apply filter_none. intros y Hy.
    destruct (sameKey s y) eqn:E; [|reflexivity].
    apply sameKey_keyOf in E. exfalso. apply Ha. rewrite E.
    now apply in_map.
  - destruct (sameKey s a) eqn:E.
    + apply sameKey_keyOf in E. exfalso. apply Ha. rewrite <- E.
      now apply in_map.
    + now apply IH.
Qed.

Lemma matching_at_most_one (t : Metrics.t) :
  (length (matching source t) <= 1)%nat.
Proof using source_keys.
  destruct (matching source t) as [|s rest] eqn:E; [simpl; lia|].
  assert (Hs : In s source /\ sameKey t s = true).
  { apply filter_In. unfold matching in E. rewrite E. now left. }
  destruct Hs as [Hin Hk]. apply sameKey_keyOf in Hk.
  rewrite (matching_ext source t s Hk), (matching_unique s Hin) in E.
  injection E as <-. simpl. lia.
Qed.

Lemma mergeQuery_accepts (target : list Metrics.t) :
  mergeQuery target source
  = (map (whenMatched source) target ++ whenNotMatched target source,
     Returned tt).
Proof using source_keys.
  unfold mergeQuery.
  replace (existsb _ target) with false; [reflexivity|].
  symmetry. apply not_true_iff_false. intros H.
  apply existsb_exists in H. destruct H as (t & _ & H).
  apply Nat.ltb_lt in H. pose proof (matching_at_most_one t). lia.
Qed.

(** After a merge, a second merge of the same source finds every source
    row matched and every matched row already holding the source values. *)
Lemma merged_fixpoint (target : list Metrics.t) :
  let merged :=
    map (whenMatched source) target ++ whenNotMatched target source in
  map (whenMatched source) merged = merged /\
  whenNotMatched merged source = [].
Proof using source_keys.
  intros merged. split.
  - unfold merged. rewrite map_app, map_map. f_equal.
    + apply map_ext. intros t. apply whenMatched_again.
    + rewrite <- (map_id (whenNotMatched target source)) at 2.
      apply map_ext_in. intros s Hs.
      apply filter_In in Hs. destruct Hs as [Hs _].
      unfold whenMatched. rewrite (matching_unique s Hs).
      apply updateSet_self.
  - apply filter_none. intros s Hs. apply negb_false_iff.
    apply existsb_exists.
    destruct (existsb (fun t => sameKey t s) target) eqn:E.
    + apply existsb_exists in E. destruct E as (t & Ht & Hk).
      exists (whenMatched source t). split.
      * unfold merged. apply in_or_app. left. now apply in_map.
      * rewrite <- Hk. apply sameKey_ext, whenMatched_key.
    + exists s. split; [|apply sameKey_refl].
      unfold merged. apply in_or_app. right.
      apply filter_In. split; [assumption|]. now rewrite E.
Qed.

End UniqueKeys.

(** C2 (merge idempotence). For every state [T] of the durable table and
    every batch [B] with at most one row per (ticker, date), staging [B] and
    merging it succeeds, and staging and merging the same [B] again into the
    resulting table succeeds and leaves that table as it is. *)
Theorem merge_idempotent :
  forall (T B : list Metrics.t),
    NoDup (map keyOf B) ->
    exists T1,
      stageAndMerge T B = (T1, Returned tt) /\
      stageAndMerge T1 B = (T1, Returned tt).
Proof.
  intros T B Hnd.
  exists (map (whenMatched B) T ++ whenNotMatched T B).
  unfold stageAndMerge, mergeTempTableToMainTable.
  rewrite insertPriceMetricsToTempTable_all. cbn [app].
  rewrite !(mergeQuery_accepts B Hnd).
  split; [reflexivity|].
  destruct (merged_fixpoint B Hnd T) as [-> ->].
  now rewrite app_nil_r.
Qed.

(** ** Batches *)

Lemma allMetrics_from (results : list (list Metrics.t))
    (acc : list Metrics.t) :
  fold_left (fun acc tickerMetrics => acc ++ tickerMetrics) results acc
  = acc ++ concat results.
Proof.
  revert acc. induction results as [|x l IH]; intros acc; simpl.
  - now rewrite app_nil_r.
  - rewrite IH. now rewrite app_assoc.
Qed.

Lemma allMetrics_concat (results : list (list Metrics.t)) :
  allMetrics results = concat results.
Proof. unfold allMetrics. now rewrite allMetrics_from. Qed.

Lemma allMetrics_app (xs ys : list (list Metrics.t)) :
  allMetrics (xs ++ ys) = allMetrics xs ++ allMetrics ys.
Proof. rewrite !allMetrics_concat. apply concat_app. Qed.

Lemma saveMetrics_nothing (services : Services) (stores : Stores) :
  saveMetrics services stores [] = (stores, Returned tt).
Proof. reflexivity. Qed.

Section Batch.

Variable env : Env.
Variable services : Services.
Variable intlTickerSet : list string.
Variables startDate endDate : string.


Lemma batchResults_successfulRows (batch : list string) :
  allMetrics (batchResults env intlTickerSet startDate endDate batch)
  = successfulRows (map (attempt env intlTickerSet startDate endDate) batch).
Proof using Type.
  rewrite allMetrics_concat. unfold batchResults.
  induction batch as [|ticker batch IH]; [reflexivity|].
  cbn [map concat successfulRows]. rewrite IH.
  unfold calculateHistoricalMetrics, attempt.
  destruct (calculateHistoricalMetrics_try _ _ _ _ _ _); reflexivity.
Qed.

Lemma processBatch_saves (stores : Stores) (batch : list string) :
  processBatch env services intlTickerSet startDate endDate stores batch
  = saveMetrics services stores
      (allMetrics (batchResults env intlTickerSet startDate endDate batch)).
Proof using Type.
  unfold processBatch. cbv zeta.
  destruct (allMetrics _) as [|m rest]; reflexivity.
Qed.

End Batch.

(** C8 (batch isolation). When the derivation of a security [failing] of a
    batch throws, the [catch] of that derivation turns it into an empty row
    list; the rows collected for the batch are those of the securities
    before it followed by those of the securities after it, each as if
    [failing] were not in the batch, that is, the rows of the derivations
    that did not throw; and the save step of the batch is [saveMetrics] on
    exactly these rows. *)
Theorem batch_isolation :
  forall (env : Env) (services : Services) (intlTickerSet : list string)
         (startDate endDate : string) (stores : Stores)
         (before after : list string) (failing : string) (e : string),
    attempt env intlTickerSet startDate endDate failing = Threw e ->
    let batch := before ++ failing :: after in
    let rowsOf := fun b =>
      allMetrics (batchResults env intlTickerSet startDate endDate b) in
    calculateHistoricalMetrics env failing
      (existsb (String.eqb failing) intlTickerSet) startDate endDate "US"
    = [] /\
    rowsOf batch = rowsOf before ++ rowsOf after /\
    rowsOf batch
    = successfulRows (map (attempt env intlTickerSet startDate endDate) batch)
    /\
    processBatch env services intlTickerSet startDate endDate stores batch
    = saveMetrics services stores (rowsOf before ++ rowsOf after).
Proof.
  intros env services intlTickerSet startDate endDate stores before after
    failing e Hthrow batch rowsOf.
  assert (Hfail : calculateHistoricalMetrics env failing
            (existsb (String.eqb failing) intlTickerSet) startDate endDate "US"
            = []).
  { unfold calculateHistoricalMetrics. unfold attempt in Hthrow.
    now rewrite Hthrow. }
  assert (Hrows : rowsOf batch = rowsOf before ++ rowsOf after).
  { unfold rowsOf, batch, batchResults.
    rewrite map_app, allMetrics_app. f_equal.
    cbn [map]. rewrite Hfail.
    change ([] :: ?l) with ([@nil Metrics.t] ++ l).
    now rewrite allMetrics_app. }
  split; [exact Hfail|]. split; [exact Hrows|]. split.
  - apply batchResults_successfulRows.
  - rewrite processBatch_saves. fold (rowsOf batch). now rewrite Hrows.
Qed.

(** ** The sample data, evaluated *)

Lemma ascending_sample_quarters : ascending Quarter.date Sample.allQuarters.
Proof.
  unfold ascending, Sample.allQuarters.
  repeat (apply Sorted_cons || apply Sorted_nil ||
          apply HdRel_cons || apply HdRel_nil);
    unfold dateLe; simpl; lia.
Defined.

Lemma ascending_sample_intl : ascending IntlStock.date Sample.intlStockData.
Proof.
  unfold ascending, Sample.intlStockData.
  apply Sorted_cons; [apply Sorted_nil|apply HdRel_nil].
Defined.

Lemma sample_row_emitted :
  usMetricsAt "X" 0 Sample.allQuarters Sample.priceData = [Sample.row].
Proof. reflexivity. Defined.

(** The partial-quarter example of the specification: three quarters scale
    by 4/3 to a TTM income of 440, the market cap is 500, the P/E 500/440,
    and the enterprise value subtracts [cash] since
    [cashAndShortTermInvestments] is zero. *)
Example partial_quarter_example :
  (ttmNetIncome (ttmQuarters Sample.allQuarters 350) == 440)%Q /\
  (Metrics.marketCap Sample.row == 500)%Q /\
  (exists pe, Metrics.peRatioTTM Sample.row = Some pe /\ (pe == 500 / 440)%Q) /\
  Metrics.psRatioTTM Sample.row <> None /\
  (exists ev, Metrics.enterpriseValue Sample.row = Some ev /\ (ev == 510)%Q).
Proof.
  split; [reflexivity|]. split; [reflexivity|]. split.
  - eexists. split; reflexivity.
  - split; [discriminate|]. eexists. split; reflexivity.
Qed.

(** A matched row takes the nine assigned columns from the batch and keeps
    its own [symbol]; an unmatched row of the table is untouched; an
    unmatched row of the batch is appended. *)
Example merge_example :
  stageAndMerge Sample.mainTable Sample.batch
  = ([ Sample.stored "X" "X.OLD" 350 50%Q; Sample.stored "Z" "Z" 350 7%Q;
       Sample.stored "X" "X" 351 51%Q ], Returned tt).
Proof. reflexivity. Qed.

(** A batch with two rows of one (ticker, date) is merged the first time it
    meets no such row in the table, and rejected the second time. *)
Example merge_duplicate_keys :
  let twice :=
    [Sample.stored "X" "X" 350 50%Q; Sample.stored "X" "X" 350 51%Q] in
  stageAndMerge [] twice = (twice, Returned tt) /\
  snd (stageAndMerge twice twice) <> Returned tt.
Proof. split; [reflexivity|discriminate]. Qed.

Lemma asof_join_correct_witness :
  ascending Quarter.date Sample.allQuarters /\
  ascending IntlStock.date Sample.intlStockData /\
  isAsOf Quarter.date Sample.allQuarters 350
    (latestQuarter Sample.allQuarters 350) /\
  latestQuarter Sample.allQuarters 350 = Some Sample.q3.
Proof.
  split; [exact ascending_sample_quarters|].
  split; [exact ascending_sample_intl|].
  split; [|reflexivity].
  exact (proj1 (asof_join_correct "X" 0 Sample.allQuarters
                  Sample.intlStockData Sample.priceData
                  ascending_sample_quarters ascending_sample_intl)).
Defined.

Lemma sample_batch_keys : NoDup (map keyOf Sample.batch).
Proof.
  repeat constructor; simpl; intuition discriminate.
Defined.

Lemma merge_idempotent_witness :
  NoDup (map keyOf Sample.batch) /\
  exists T1,
    stageAndMerge Sample.mainTable Sample.batch = (T1, Returned tt) /\
    stageAndMerge T1 Sample.batch = (T1, Returned tt).
Proof.
  split; [exact sample_batch_keys|].
  exact (merge_idempotent Sample.mainTable Sample.batch sample_batch_keys).
Defined.

Lemma ttm_scaling_witness :
  latestQuarter Sample.allQuarters (PriceData.date Sample.priceData)
    = Some Sample.q3 /\
  length (ttmQuarters Sample.allQuarters 350) = 3%nat /\
  (ttmNetIncome (ttmQuarters Sample.allQuarters 350) ==
     4 / inject_Z (Z.of_nat 3) *
     sumOr0 Quarter.netIncome (ttmQuarters Sample.allQuarters 350))%Q.
Proof.
  split; [reflexivity|]. split; [reflexivity|].
  exact (proj1 (proj2 (proj2 (proj2 (proj2
    (ttm_scaling "X" 0 Sample.allQuarters Sample.priceData Sample.q3
       eq_refl)))))).
Defined.

Lemma ratio_absence_witness :
  In Sample.row (usMetricsAt "X" 0 Sample.allQuarters Sample.priceData) /\
  exists latest,
    latestQuarter Sample.allQuarters 350 = Some latest /\
    ((0 < ttmNetIncome (ttmQuarters Sample.allQuarters 350))%Q ->
     Metrics.peRatioTTM Sample.row
     = Some (Metrics.marketCap Sample.row /
             ttmNetIncome (ttmQuarters Sample.allQuarters 350))%Q).
Proof.
  assert (Hin : In Sample.row
                  (usMetricsAt "X" 0 Sample.allQuarters Sample.priceData))
    by (left; reflexivity).
  split; [exact Hin|].
  destruct (ratio_absence "X" 0 Sample.allQuarters Sample.priceData
              Sample.row Hin) as (latest & Hl & Hpe & _).
  exists latest. split; [exact Hl|exact Hpe].
Defined.

(** The statement [q3] of the sample has a long-term debt of 40, zero
    [cashAndShortTermInvestments] and a [cash] of 30: the enterprise value
    of the row priced against it is 500 + 40 - 30; the statement [q2] has
    none of the five fields, and the row priced against it has no
    enterprise value. *)
Lemma enterprise_value_trigger_witness :
  (In Sample.row (usMetricsAt "X" 0 Sample.allQuarters Sample.priceData) /\
   exists ev,
     Metrics.enterpriseValue Sample.row = Some ev /\
     (ev == 500 + (40 + 0 + 0) - 30)%Q) /\
  (exists r,
     In r (usMetricsAt "X" 0 Sample.allQuarters
             (PriceData.mk 50%Q 7000%Q 250)) /\
     Metrics.enterpriseValue r = None).
Proof.
  split.
  - assert (Hin : In Sample.row
                    (usMetricsAt "X" 0 Sample.allQuarters Sample.priceData))
      by (left; reflexivity).
    split; [exact Hin|].
    destruct (enterprise_value_trigger "X" 0 Sample.allQuarters
                Sample.priceData Sample.row Hin)
      as (latest & Hl & Hpresent & _).
    assert (E : Sample.q3 = latest).
    { assert (E : Some Sample.q3 = Some latest) by exact Hl.
      now injection E. }
    destruct E.
    assert (Hdebt : Quarter.longTermDebt Sample.q3 <> Undefined)
      by (cbn; discriminate).
    pose proof (Hpresent (or_introl Hdebt)) as Hev.
    destruct Hev as (ev & Hev & _ & Hcash & _).
    exists ev. split; [exact Hev|].
    apply (Hcash 30%Q).
    + right. right. exists 0%Q. split; reflexivity.
    + split; [reflexivity|discriminate].
  - exists (usRow "X" 0 (PriceData.mk 50%Q 7000%Q 250) Sample.q2 10%Q
              [Sample.q1; Sample.q2]).
    assert (Hin : In (usRow "X" 0 (PriceData.mk 50%Q 7000%Q 250) Sample.q2
                        10%Q [Sample.q1; Sample.q2])
                     (usMetricsAt "X" 0 Sample.allQuarters
                        (PriceData.mk 50%Q 7000%Q 250)))
      by (left; reflexivity).
    split; [exact Hin|].
    destruct (enterprise_value_trigger "X" 0 Sample.allQuarters
                (PriceData.mk 50%Q 7000%Q 250) _ Hin)
      as (latest & Hl & _ & Habsent & _).
    assert (E : Sample.q2 = latest).
    { assert (E : Some Sample.q2 = Some latest) by exact Hl.
      now injection E. }
    destruct E. apply Habsent. repeat split.
Defined.

Lemma sample_shares_nonzero :
  presentNonZero
    (IntlStock.commonStockSharesOutstanding
       (IntlStock.mk Sample.jan1 (Num 1000000%Q)))
    1000000%Q.
Proof. split; [reflexivity|discriminate]. Defined.

(** The foreign-security example of the specification: 1,000,000 shares as
    of 2023-01-01 and a close of 12.50 on 2023-03-15 give a market cap of
    12,500,000 and none of the four statement-based fields. *)
Lemma foreign_rows_witness :
  findClosestSharesData Sample.intlStockData
    (PriceData.date Sample.intlPrice)
    = Some (IntlStock.mk Sample.jan1 (Num 1000000%Q)) /\
  exists r,
    intlMetricsAt "Y" 0 Sample.intlStockData Sample.intlPrice = [r] /\
    (Metrics.marketCap r == 12500000)%Q /\
    Metrics.peRatioTTM r = None /\ Metrics.psRatioTTM r = None /\
    Metrics.pbRatioTTM r = None /\ Metrics.enterpriseValue r = None.
Proof.
  split; [reflexivity|].
  eexists. split.
  - exact (proj1 (foreign_rows "Y" 0 Sample.intlStockData Sample.intlPrice
                    (IntlStock.mk Sample.jan1 (Num 1000000%Q)) 1000000%Q
                    eq_refl sample_shares_nonzero)).
  - repeat split.
Defined.

Lemma batch_isolation_witness :
  attempt Sample.env ["Y"%string] "1996-01-01" "2026-01-01" "A"
    = Threw "connection lost" /\
  processBatch Sample.env Sample.services ["Y"%string]
    "1996-01-01" "2026-01-01"
    Sample.emptyStores (["X"%string] ++ "A"%string :: ["Y"%string])
  = saveMetrics Sample.services Sample.emptyStores
      (allMetrics (batchResults Sample.env ["Y"%string]
                     "1996-01-01" "2026-01-01" ["X"%string]) ++
       allMetrics (batchResults Sample.env ["Y"%string]
                     "1996-01-01" "2026-01-01" ["Y"%string])).
Proof.
  split; [reflexivity|].
  exact (proj2 (proj2 (proj2
    (batch_isolation Sample.env Sample.services ["Y"%string]
       "1996-01-01" "2026-01-01"
       Sample.emptyStores ["X"%string] ["Y"%string] "A" "connection lost"
       eq_refl)))).
Defined.

(** A batch around the failing [A]: the two rows of [X] and the row of
    [Y] reach both stores; [A], whose statement query rejects, and [P],
    whose price request fails, contribute none. *)
Example sample_batch_run :
  let (stores, r) :=
    processBatch Sample.env Sample.services ["Y"%string]
      "1996-01-01" "2026-01-01"
      Sample.emptyStores ["X"; "A"; "P"; "Y"]%string in
  r = Returned tt /\
  map Metrics.ticker (bigQuery stores) = ["X"; "X"; "Y"]%string /\
  map Metrics.ticker (mongo stores) = ["X"; "X"; "Y"]%string.
Proof. vm_compute. repeat split. Qed.

Lemma shares_gate_witness :
  latestQuarter Sample.gated 350
    = Some (Sample.quarter 200 (Num 0%Q) (Num 120%Q)) /\
  forall r, In r (usMetrics "X" (fun _ => 0) Sample.gated
                    [Sample.priceData]) ->
            Metrics.date r <> 350.
Proof.
  split; [reflexivity|].
  exact (proj1 (shares_gate "X" (fun _ => 0) Sample.gated []
                  [Sample.priceData] 350)
           (Sample.quarter 200 (Num 0%Q) (Num 120%Q)) eq_refl eq_refl).
Defined.

(** Twelve tickers make two batches; the failure of [A] in the first one
    stops neither that batch nor the loop, and [Y] of the second batch is
    saved after [X] of the first. *)
Example sample_hydration :
  let allTickers :=
    ["X"; "A"; "P"; "B"; "C"; "D"; "E"; "F"; "G"; "H"; "Y"; "I"]%string in
  let (stores, r) :=
    batchLoop (length allTickers) Sample.env (fun _ => Sample.services)
      ["Y"%string] "1996-01-01" "2026-01-01" allTickers 0
      Sample.emptyStores in
  r = Returned tt /\
  map Metrics.ticker (bigQuery stores) = ["X"; "X"; "Y"]%string /\
  map Metrics.ticker (mongo stores) = ["X"; "X"; "Y"]%string.
Proof. vm_compute. repeat split. Qed.

(** * Further properties of the derivation *)

Lemma subseq_nil_l {A : Type} (l : list A) : subseq [] l.
Proof. induction l; constructor; assumption. Qed.

Lemma subseq_In {A : Type} (l1 l2 : list A) (x : A) :
  subseq l1 l2 -> In x l1 -> In x l2.
Proof.
  induction 1 as [|y l1 l2 _ IH|y l1 l2 _ IH]; simpl; intros Hx; auto.
  destruct Hx as [->|Hx]; auto.
Qed.

Lemma subseq_map {A B : Type} (f : A -> B) (l1 l2 : list A) :
  subseq l1 l2 -> subseq (map f l1) (map f l2).
Proof. induction 1; simpl; constructor; assumption. Qed.

Lemma subseq_NoDup {A : Type} (l1 l2 : list A) :
  subseq l1 l2 -> NoDup l2 -> NoDup l1.
Proof.
  induction 1 as [|y l1 l2 Hs IH|y l1 l2 Hs IH]; intros Hnd.
  - constructor.
  - inversion Hnd; subst. now apply IH.
  - inversion Hnd as [|? ? Hy Hl]; subst. constructor; [|now apply IH].
    intros Hin. apply Hy. now apply (subseq_In l1 l2).
Qed.

Lemma subseq_length {A : Type} (l1 l2 : list A) :
  subseq l1 l2 -> (length l1 <= length l2)%nat.
Proof. induction 1; simpl; lia. Qed.

(** A loop that pushes at most one row per observation, the row recording
    the observation, yields the observations it kept, in order. *)
Lemma forPriceDataPoints_subseq
    (rowsAt : Z -> PriceData.t -> list Metrics.t) (now : nat -> Z) :
  (forall reading p,
     rowsAt reading p = [] \/
     exists r, rowsAt reading p = [r] /\ observation r = p) ->
  forall (l : list PriceData.t) (i : nat),
    subseq (map observation (forPriceDataPoints rowsAt now i l)) l.
Proof.
  intros Hf. induction l as [|p l IH]; intros i; simpl; [constructor|].
  destruct (Hf (now i) p) as [->|(r & -> & Hr)]; simpl.
  - apply subseq_skip. apply IH.
  - rewrite Hr. apply subseq_keep. apply IH.
Qed.

Lemma usMetricsAt_shape (ticker : string) (now : Z)
    (allQuarters : list Quarter.t) (p : PriceData.t) :
  usMetricsAt ticker now allQuarters p = [] \/
  exists r, usMetricsAt ticker now allQuarters p = [r] /\ observation r = p.
Proof.
  unfold usMetricsAt.
  destruct (latestQuarter _ _) as [latest|]; [|now left].
  destruct (Quarter.commonStockSharesOutstanding latest) as [| |shares];
    [now left|now left|].
  destruct (truthy (Num shares)); [|now left].
  right. eexists. split; [reflexivity|]. now destruct p.
Qed.

Lemma intlMetricsAt_shape (ticker : string) (now : Z)
    (intlStockData : list IntlStock.t) (p : PriceData.t) :
  intlMetricsAt ticker now intlStockData p = [] \/
  exists r, intlMetricsAt ticker now intlStockData p = [r] /\
            observation r = p.
Proof.
  unfold intlMetricsAt.
  destruct (findClosestSharesData _ _) as [closest|]; [|now left].
  destruct (IntlStock.commonStockSharesOutstanding closest) as [| |shares];
    [now left|now left|].
  destruct (truthy (Num shares)); [|now left].
  right. eexists. split; [reflexivity|]. now destruct p.
Qed.

(** The rows of a derivation, by cases on the path that produced them. *)
Lemma calculateHistoricalMetrics_cases (env : Env) (ticker : string)
    (isInternational : bool) (from to exchange : string) :
  let prices := getHistoricalPriceData env ticker from to exchange in
  let rows :=
    calculateHistoricalMetrics env ticker isInternational from to exchange in
  rows = [] \/
  (isInternational = true /\
   exists intlStockData,
     InternationalStock_find env ticker = Returned intlStockData /\
     rows = intlMetrics ticker (clock env ticker) intlStockData prices) \/
  (isInternational = false /\
   exists allQuarters,
     QuarterlyFinancialsModel_find env ticker = Returned allQuarters /\
     rows = usMetrics ticker (clock env ticker) allQuarters prices).
Proof.
  intros prices rows. unfold rows, calculateHistoricalMetrics,
    calculateHistoricalMetrics_try. fold prices.
  destruct (Nat.eqb (length prices) 0); [now left|].
  destruct isInternational.
  - destruct (InternationalStock_find env ticker) as [data|e]; [|now left].
    destruct (Nat.eqb (length data) 0); [now left|].
    right. left. split; [reflexivity|]. now exists data.
  - destruct (QuarterlyFinancialsModel_find env ticker) as [data|e];
      [|now left].
    destruct (Nat.eqb (length data) 0); [now left|].
    right. right. split; [reflexivity|]. now exists data.
Qed.

(** X1 (rows are never fabricated). Whatever the collaborators answer, the
    rows of a derivation record, in order, some of the price observations
    that [getHistoricalPriceData] returned: each row has the date, price and
    volume of one observation, no observation gives two rows, and the order
    of the observations is kept. *)
Theorem rows_from_observations :
  forall (env : Env) (ticker : string) (isInternational : bool)
         (from to exchange : string),
    subseq
      (map observation
         (calculateHistoricalMetrics env ticker isInternational
            from to exchange))
      (getHistoricalPriceData env ticker from to exchange).
Proof.
  intros env ticker isInternational from to exchange.
  destruct (calculateHistoricalMetrics_cases env ticker isInternational
              from to exchange)
    as [->|[(_ & data & _ & ->)|(_ & data & _ & ->)]].
  - apply subseq_nil_l.
  - apply forPriceDataPoints_subseq. intros reading p.
    apply intlMetricsAt_shape.
  - apply forPriceDataPoints_subseq. intros reading p.
    apply usMetricsAt_shape.
Qed.

Lemma usMetricsAt_stamp (ticker : string) (now : Z)
    (allQuarters : list Quarter.t) (p : PriceData.t) (r : Metrics.t) :
  In r (usMetricsAt ticker now allQuarters p) ->
  Metrics.ticker r = ticker /\ Metrics.symbol r = ticker /\
  Metrics.isInternational r = false /\ observation r = p /\
  Metrics.lastUpdated r = now.
Proof.
  intros H. apply usMetricsAt_inv in H.
  destruct H as (? & ? & _ & _ & _ & ->). now destruct p.
Qed.

Lemma intlMetricsAt_stamp (ticker : string) (now : Z)
    (intlStockData : list IntlStock.t) (p : PriceData.t) (r : Metrics.t) :
  In r (intlMetricsAt ticker now intlStockData p) ->
  Metrics.ticker r = ticker /\ Metrics.symbol r = ticker /\
  Metrics.isInternational r = true /\ observation r = p /\
  Metrics.lastUpdated r = now.
Proof.
  intros H. apply intlMetricsAt_inv in H.
  destruct H as (? & ? & _ & _ & _ & ->). now destruct p.
Qed.

(** The readings of a clock that does not run backwards stamp the rows in
    ascending order. *)
Lemma forPriceDataPoints_stamps
    (rowsAt : Z -> PriceData.t -> list Metrics.t) (now : nat -> Z) :
  (forall reading p,
     rowsAt reading p = [] \/
     exists r, rowsAt reading p = [r] /\ observation r = p) ->
  (forall reading p r,
     In r (rowsAt reading p) -> Metrics.lastUpdated r = reading) ->
  (forall i j, (i <= j)%nat -> now i <= now j) ->
  forall (l : list PriceData.t) (i : nat),
    StronglySorted Z.le
      (map Metrics.lastUpdated (forPriceDataPoints rowsAt now i l)) /\
    Forall (fun stamp => now i <= stamp)
      (map Metrics.lastUpdated (forPriceDataPoints rowsAt now i l)).
Proof.
  intros Hshape Hstamp Hmono.
  induction l as [|p l IH]; intros i; simpl; [split; constructor|].
  destruct (IH (S i)) as [Hs Hall].
  assert (Hall' : Forall (fun stamp => now i <= stamp)
            (map Metrics.lastUpdated
               (forPriceDataPoints rowsAt now (S i) l))).
  { eapply Forall_impl; [|exact Hall]. intros stamp Hle. cbv beta in Hle.
    pose proof (Hmono i (S i) ltac:(lia)). lia. }
  destruct (Hshape (now i) p) as [E|(r & E & _)].
  - rewrite E. simpl. now split.
  - pose proof (Hstamp (now i) p r) as Hr. rewrite E in Hr.
    specialize (Hr (or_introl eq_refl)). rewrite E. simpl. rewrite Hr.
    split; constructor; try assumption. lia.
Qed.

(** The clock decides nothing of a row but its [lastUpdated]. *)
Lemma forPriceDataPoints_unstamped
    (rowsAt : Z -> PriceData.t -> list Metrics.t) (now1 now2 : nat -> Z) :
  (forall reading1 reading2 p,
     map unstamped (rowsAt reading1 p) = map unstamped (rowsAt reading2 p)) ->
  forall (l : list PriceData.t) (i : nat),
    map unstamped (forPriceDataPoints rowsAt now1 i l)
    = map unstamped (forPriceDataPoints rowsAt now2 i l).
Proof.
  intros H. induction l as [|p l IH]; intros i; simpl; [reflexivity|].
  now rewrite !map_app, (H (now1 i) (now2 i) p), IH.
Qed.

Lemma usMetricsAt_unstamped (ticker : string) (reading1 reading2 : Z)
    (allQuarters : list Quarter.t) (p : PriceData.t) :
  map unstamped (usMetricsAt ticker reading1 allQuarters p)
  = map unstamped (usMetricsAt ticker reading2 allQuarters p).
Proof.
  unfold usMetricsAt.
  destruct (latestQuarter _ _) as [latest|]; [|reflexivity].
  destruct (Quarter.commonStockSharesOutstanding latest) as [| |shares];
    [reflexivity|reflexivity|].
  destruct (truthy (Num shares)); reflexivity.
Qed.

Lemma intlMetricsAt_unstamped (ticker : string) (reading1 reading2 : Z)
    (intlStockData : list IntlStock.t) (p : PriceData.t) :
  map unstamped (intlMetricsAt ticker reading1 intlStockData p)
  = map unstamped (intlMetricsAt ticker reading2 intlStockData p).
Proof.
  unfold intlMetricsAt.
  destruct (findClosestSharesData _ _) as [closest|]; [|reflexivity].
  destruct (IntlStock.commonStockSharesOutstanding closest) as [| |shares];
    [reflexivity|reflexivity|].
  destruct (truthy (Num shares)); reflexivity.
Qed.

Lemma rows_unstamped (env : Env) (readings : string -> nat -> Z)
    (ticker : string) (isInternational : bool) (from to exchange : string) :
  map unstamped
    (calculateHistoricalMetrics (withClock env readings) ticker
       isInternational from to exchange)
  = map unstamped
      (calculateHistoricalMetrics env ticker isInternational
         from to exchange).
Proof.
  unfold calculateHistoricalMetrics, calculateHistoricalMetrics_try.
  change (getHistoricalPriceData (withClock env readings) ticker from to
            exchange)
    with (getHistoricalPriceData env ticker from to exchange).
  destruct (Nat.eqb _ 0); [reflexivity|].
  destruct isInternational; cbn [withClock InternationalStock_find
    QuarterlyFinancialsModel_find clock].
  - destruct (InternationalStock_find env ticker) as [data|e];
      [|reflexivity].
    destruct (Nat.eqb (length data) 0); [reflexivity|].
    apply forPriceDataPoints_unstamped. intros reading1 reading2 p.
    apply intlMetricsAt_unstamped.
  - destruct (QuarterlyFinancialsModel_find env ticker) as [data|e];
      [|reflexivity].
    destruct (Nat.eqb (length data) 0); [reflexivity|].
    apply forPriceDataPoints_unstamped. intros reading1 reading2 p.
    apply usMetricsAt_unstamped.
Qed.

(** X2 (what every row is stamped with). Every row of a derivation carries
    the requested ticker both as [ticker] and as [symbol] and the
    [isInternational] flag the derivation was called with; its
    [lastUpdated] is the reading of the clock in the iteration of the price
    observation it records, so that the rows of one derivation need not
    share a timestamp; when the clock does not run backwards the
    timestamps ascend along the rows; and run at another time, the
    derivation gives the same rows but for [lastUpdated]. *)
Theorem rows_stamped :
  forall (env : Env) (ticker : string) (isInternational : bool)
         (from to exchange : string),
    let prices := getHistoricalPriceData env ticker from to exchange in
    let rows :=
      calculateHistoricalMetrics env ticker isInternational
        from to exchange in
    (forall r, In r rows ->
       Metrics.ticker r = ticker /\ Metrics.symbol r = ticker /\
       Metrics.isInternational r = isInternational /\
       exists i, nth_error prices i = Some (observation r) /\
                 Metrics.lastUpdated r = clock env ticker i) /\
    ((forall i j, (i <= j)%nat -> clock env ticker i <= clock env ticker j) ->
     StronglySorted Z.le (map Metrics.lastUpdated rows)) /\
    (forall readings,
       map unstamped
         (calculateHistoricalMetrics (withClock env readings) ticker
            isInternational from to exchange)
       = map unstamped rows).
Proof.
  intros env ticker isInternational from to exchange prices rows.
  split; [|split].
  - intros r Hr.
    destruct (calculateHistoricalMetrics_cases env ticker isInternational
                from to exchange)
      as [E|[(-> & data & _ & E)|(-> & data & _ & E)]];
      fold rows in E; fold prices in E; rewrite E in Hr.
    + destruct Hr.
    + apply intlMetrics_inv in Hr. destruct Hr as (i & p & Hp & Hr).
      apply intlMetricsAt_stamp in Hr.
      destruct Hr as (H1 & H2 & H3 & H4 & H5).
      repeat split; try assumption. exists i. now rewrite H4.
    + apply usMetrics_inv in Hr. destruct Hr as (i & p & Hp & Hr).
      apply usMetricsAt_stamp in Hr.
      destruct Hr as (H1 & H2 & H3 & H4 & H5).
      repeat split; try assumption. exists i. now rewrite H4.
  - intros Hmono.
    destruct (calculateHistoricalMetrics_cases env ticker isInternational
                from to exchange)
      as [E|[(_ & data & _ & E)|(_ & data & _ & E)]];
      fold rows in E; rewrite E.
    + constructor.
    + apply forPriceDataPoints_stamps; try assumption.
      * intros reading p. apply intlMetricsAt_shape.
      * intros reading p r Hr. now apply intlMetricsAt_stamp in Hr.
    + apply forPriceDataPoints_stamps; try assumption.
      * intros reading p. apply usMetricsAt_shape.
      * intros reading p r Hr. now apply usMetricsAt_stamp in Hr.
  - intros readings. apply rows_unstamped.
Qed.

Lemma rows_ticker (env : Env) (ticker : string) (isInternational : bool)
    (from to exchange : string) (r : Metrics.t) :
  In r (calculateHistoricalMetrics env ticker isInternational
          from to exchange) ->
  Metrics.ticker r = ticker.
Proof.
  intros Hr.
  destruct (calculateHistoricalMetrics_cases env ticker isInternational
              from to exchange)
    as [E|[(_ & data & _ & E)|(_ & data & _ & E)]];
    rewrite E in Hr.
  - destruct Hr.
  - apply intlMetrics_inv in Hr. destruct Hr as (i & p & _ & Hr).
    apply intlMetricsAt_inv in Hr. now destruct Hr as (? & ? & _ & _ & _ & ->).
  - apply usMetrics_inv in Hr. destruct Hr as (i & p & _ & Hr).
    apply usMetricsAt_inv in Hr. now destruct Hr as (? & ? & _ & _ & _ & ->).
Qed.

Lemma rows_dates_subseq (env : Env) (ticker : string)
    (isInternational : bool) (from to exchange : string) :
  subseq
    (map Metrics.date
       (calculateHistoricalMetrics env ticker isInternational
          from to exchange))
    (map PriceData.date (getHistoricalPriceData env ticker from to exchange)).
Proof.
  change Metrics.date with (fun r => PriceData.date (observation r)).
  rewrite <- (map_map observation PriceData.date). apply subseq_map.
  destruct (calculateHistoricalMetrics_cases env ticker isInternational
              from to exchange)
    as [->|[(_ & data & _ & ->)|(_ & data & _ & ->)]].
  - apply subseq_nil_l.
  - apply forPriceDataPoints_subseq. intros reading p.
    apply intlMetricsAt_shape.
  - apply forPriceDataPoints_subseq. intros reading p.
    apply usMetricsAt_shape.
Qed.

Lemma rows_keys (env : Env) (ticker : string) (isInternational : bool)
    (from to exchange : string) :
  map keyOf
    (calculateHistoricalMetrics env ticker isInternational from to exchange)
  = map (fun d => (ticker, d))
      (map Metrics.date
         (calculateHistoricalMetrics env ticker isInternational
            from to exchange)).
Proof.
  rewrite map_map. apply map_ext_in. intros r Hr.
  apply rows_ticker in Hr. unfold keyOf. now rewrite Hr.
Qed.

Lemma NoDup_map_pair {A B : Type} (a : A) (l : list B) :
  NoDup l -> NoDup (map (fun b => (a, b)) l).
Proof.
  induction 1 as [|b l Hb Hl IH]; simpl; constructor; [|assumption].
  intros Hin. apply in_map_iff in Hin. destruct Hin as (b' & [= ->] & Hin).
  contradiction.
Qed.

Lemma map_flat_map {A B C : Type} (f : B -> C) (g : A -> list B)
    (l : list A) :
  map f (flat_map g l) = flat_map (fun x => map f (g x)) l.
Proof.
  induction l as [|a l IH]; simpl; [reflexivity|].
  now rewrite map_app, IH.
Qed.

Lemma NoDup_flat_map {A B : Type} (g : A -> list B) (l : list A) :
  NoDup l ->
  (forall x, In x l -> NoDup (g x)) ->
  (forall x y b, In x l -> In y l -> In b (g x) -> In b (g y) -> x = y) ->
  NoDup (flat_map g l).
Proof.
  induction 1 as [|a l Ha Hl IH]; intros Hg Hdisj; simpl; [constructor|].
  apply NoDup_app.
  - apply Hg. now left.
  - apply IH.
    + intros x Hx. apply Hg. now right.
    + intros x y b Hx Hy. apply Hdisj; now right.
  - intros b Hb Hb'. apply in_flat_map in Hb'. destruct Hb' as (y & Hy & Hby).
    assert (a = y) by (apply (Hdisj a y b); auto; [now left|now right]).
    subst y. contradiction.
Qed.

Lemma concat_map_flat_map {A B : Type} (g : A -> list B) (l : list A) :
  concat (map g l) = flat_map g l.
Proof. induction l as [|a l IH]; simpl; [reflexivity|]. now rewrite IH. Qed.

(** The keys of the rows collected for a batch of distinct tickers whose
    observations have distinct dates are distinct. *)
Lemma batch_rows_keys (env : Env) (intlTickerSet : list string)
    (startDate endDate : string) (batch : list string) :
  NoDup batch ->
  (forall ticker,
     In ticker batch ->
     NoDup (map PriceData.date
              (getHistoricalPriceData env ticker startDate endDate "US"))) ->
  NoDup (map keyOf
           (allMetrics
              (batchResults env intlTickerSet startDate endDate batch))).
Proof.
  intros Hb Hdates.
  rewrite allMetrics_concat. unfold batchResults.
  rewrite concat_map_flat_map, map_flat_map.
  apply NoDup_flat_map; [assumption| |].
  - intros ticker Hin. rewrite rows_keys.
    apply NoDup_map_pair.
    eapply subseq_NoDup; [|apply (Hdates ticker Hin)].
    apply rows_dates_subseq.
  - intros x y k _ _ Hx Hy.
    apply in_map_iff in Hx. destruct Hx as (r1 & <- & Hr1).
    apply in_map_iff in Hy. destruct Hy as (r2 & E & Hr2).
    apply rows_ticker in Hr1. apply rows_ticker in Hr2.
    unfold keyOf in E. injection E as E _. congruence.
Qed.

(** ** Which statements a row depends on *)

Lemma filter_all {A : Type} (f : A -> bool) (l : list A) :
  (forall x, In x l -> f x = true) -> filter f l = l.
Proof.
  induction l as [|x l IH]; intros H; simpl; [reflexivity|].
  rewrite (H x (or_introl eq_refl)). f_equal. apply IH.
  intros y Hy. apply H. now right.
Qed.

Lemma lastOpt_skipn {A : Type} (n : nat) (l : list A) :
  (n < length l)%nat -> lastOpt (skipn n l) = lastOpt l.
Proof.
  revert l. induction n as [|n IH]; intros l Hn; [reflexivity|].
  destruct l as [|x l]; [simpl in Hn; lia|].
  simpl in Hn. cbn [skipn]. rewrite IH by lia. cbn [lastOpt].
  destruct (lastOpt l) as [y|] eqn:E; [reflexivity|].
  apply lastOpt_None in E. subst l. simpl in Hn. lia.
Qed.

Lemma slice_last4_lastOpt {A : Type} (arr : list A) :
  lastOpt (slice_last4 arr) = lastOpt arr.
Proof.
  unfold slice_last4. destruct arr as [|x arr]; [reflexivity|].
  apply lastOpt_skipn. simpl. lia.
Qed.

Lemma slice_last4_idem {A : Type} (arr : list A) :
  slice_last4 (slice_last4 arr) = slice_last4 arr.
Proof.
  unfold slice_last4 at 1. rewrite slice_last4_length.
  replace (Nat.min 4 (length arr) - 4)%nat with 0%nat by lia. reflexivity.
Qed.

Lemma availableQuarters_ttm (allQuarters : list Quarter.t) (d : Z) :
  availableQuarters (ttmQuarters allQuarters d) d = ttmQuarters allQuarters d.
Proof.
  unfold availableQuarters at 1. apply filter_all. intros q Hq.
  apply slice_last4_incl, availableQuarters_In in Hq.
  apply Z.leb_le. tauto.
Qed.

(** X3 (the last four statements suffice). The rows of a US iteration are
    those the iteration computes when it is given, instead of all the
    statements of the security, only the TTM quarters of the price date: no
    statement older than the last four dated at or before the price date,
    and none dated after it, has any influence on the row. *)
Theorem last_four_suffice :
  forall (ticker : string) (now : Z) (allQuarters : list Quarter.t)
         (priceData : PriceData.t),
    usMetricsAt ticker now allQuarters priceData
    = usMetricsAt ticker now
        (ttmQuarters allQuarters (PriceData.date priceData)) priceData.
Proof.
  intros ticker now allQuarters priceData.
  set (d := PriceData.date priceData).
  assert (Hl : latestQuarter (ttmQuarters allQuarters d) d
               = latestQuarter allQuarters d).
  { rewrite !latestQuarter_lastOpt, availableQuarters_ttm.
    apply slice_last4_lastOpt. }
  assert (Ht : ttmQuarters (ttmQuarters allQuarters d) d
               = ttmQuarters allQuarters d).
  { unfold ttmQuarters at 1. rewrite availableQuarters_ttm.
    apply slice_last4_idem. }
  unfold usMetricsAt. fold d. now rewrite Hl, Ht.
Qed.

(** ** The forward scan on any input *)

Lemma closestScan_takeWhile (acc : option IntlStock.t)
    (l : list IntlStock.t) (d : Z) :
  closestScan acc l d =
  match lastOpt (takeWhile (upTo IntlStock.date d) l) with
  | Some s => Some s
  | None => acc
  end.
Proof.
  revert acc. induction l as [|s l IH]; intros acc; simpl; [reflexivity|].
  unfold upTo at 1. destruct (IntlStock.date s <=? d); [|reflexivity].
  rewrite IH. simpl.
  destruct (lastOpt (takeWhile (upTo IntlStock.date d) l)); reflexivity.
Qed.

(** X4 (the scan stops at the first later record). Whatever the order of
    the shares records, the international scan returns the last record of
    the longest prefix of records dated at or before the price date: a
    record that would qualify but comes after a record dated later than the
    price date is never reached. *)
Theorem scan_stops_at_first_later_record :
  forall (intlStockData : list IntlStock.t) (d : Z),
    findClosestSharesData intlStockData d
    = lastOpt (takeWhile (upTo IntlStock.date d) intlStockData) /\
    (forall before later after,
       intlStockData = before ++ later :: after ->
       d < IntlStock.date later ->
       findClosestSharesData intlStockData d
       = findClosestSharesData before d).
Proof.
  intros intlStockData d.
  assert (H : forall l, findClosestSharesData l d
                        = lastOpt (takeWhile (upTo IntlStock.date d) l)).
  { intros l. unfold findClosestSharesData. rewrite closestScan_takeWhile.
    now destruct (lastOpt _). }
  split; [apply H|].
  intros before later after -> Hlater. rewrite !H. f_equal.
  induction before as [|b before IH]; simpl.
  - unfold upTo. now rewrite (proj2 (Z.leb_gt _ _) Hlater).
  - destruct (upTo IntlStock.date d b); [now rewrite IH|reflexivity].
Qed.

(** ** The as-of join over time *)

(** X5 (the join moves forward in time). On statements sorted ascending,
    once a statement is selected for a price date, a statement is selected
    for every later price date, and its effective date is not earlier; the
    same holds for the shares records of the international path. *)
Theorem asof_monotone :
  forall (allQuarters : list Quarter.t) (intlStockData : list IntlStock.t)
         (d1 d2 : Z),
    ascending Quarter.date allQuarters ->
    ascending IntlStock.date intlStockData ->
    d1 <= d2 ->
    (forall q1, latestQuarter allQuarters d1 = Some q1 ->
       exists q2, latestQuarter allQuarters d2 = Some q2 /\
                  Quarter.date q1 <= Quarter.date q2) /\
    (forall s1, findClosestSharesData intlStockData d1 = Some s1 ->
       exists s2, findClosestSharesData intlStockData d2 = Some s2 /\
                  IntlStock.date s1 <= IntlStock.date s2).
Proof.
  intros allQuarters intlStockData d1 d2 Hq Hi Hd. split.
  - intros q1 H1.
    pose proof (latestQuarter_isAsOf allQuarters d1 Hq) as A1.
    pose proof (latestQuarter_isAsOf allQuarters d2 Hq) as A2.
    rewrite H1 in A1. destruct A1 as (Hin & Hle & _).
    destruct (latestQuarter allQuarters d2) as [q2|].
    + exists q2. split; [reflexivity|].
      destruct A2 as (_ & _ & Hmax). apply Hmax; [assumption|lia].
    + specialize (A2 q1 Hin). lia.
  - intros s1 H1.
    pose proof (findClosestSharesData_isAsOf intlStockData d1 Hi) as A1.
    pose proof (findClosestSharesData_isAsOf intlStockData d2 Hi) as A2.
    rewrite H1 in A1. destruct A1 as (Hin & Hle & _).
    destruct (findClosestSharesData intlStockData d2) as [s2|].
    + exists s2. split; [reflexivity|].
      destruct A2 as (_ & _ & Hmax). apply Hmax; [assumption|lia].
    + specialize (A2 s1 Hin). lia.
Qed.

(** ** When a ratio is populated *)

Lemma Qmult_pos_r (s c : Q) : (0 < c)%Q -> ((0 < s * c)%Q <-> (0 < s)%Q).
Proof.
  intros Hc. rewrite <- (Qmult_lt_r 0 s c Hc). now rewrite Qmult_0_l.
Qed.

Lemma scaleFactor_gt0 (n : nat) : (1 <= n)%nat -> (0 < scaleFactor n)%Q.
Proof.
  intros Hn. rewrite (scaleFactor_pos n Hn).
  apply Qlt_shift_div_l.
  - change 0%Q with (inject_Z 0). rewrite <- Zlt_Qlt. lia.
  - rewrite Qmult_0_l. reflexivity.
Qed.

(** X6 (scaling never decides whether a ratio exists). In a row of the US
    path, [peRatioTTM] is populated exactly when the net income summed over
    the TTM quarters, a quarter without the figure counting [0], is
    positive, and [psRatioTTM] exactly when the summed revenue is: scaling a
    partial year up to four quarters changes the value of a ratio, never its
    presence. *)
Theorem ratio_presence :
  forall (ticker : string) (now : Z) (allQuarters : list Quarter.t)
         (priceData : PriceData.t) (r : Metrics.t),
    In r (usMetricsAt ticker now allQuarters priceData) ->
    let ttm := ttmQuarters allQuarters (PriceData.date priceData) in
    (Metrics.peRatioTTM r <> None <-> (0 < sumOr0 Quarter.netIncome ttm)%Q) /\
    (Metrics.psRatioTTM r <> None <->
     (0 < sumOr0 Quarter.totalRevenue ttm)%Q).
Proof.
  intros ticker now allQuarters priceData r Hr ttm.
  apply usMetricsAt_inv in Hr.
  destruct Hr as (latest & shares & Hl & _ & _ & ->).
  assert (Hn : (1 <= length ttm)%nat).
  { apply latestQuarter_available in Hl. unfold ttm, ttmQuarters.
    rewrite slice_last4_length.
    destruct (availableQuarters _ _); [destruct Hl|simpl; lia]. }
  pose proof (scaleFactor_gt0 _ Hn) as Hs.
  cbn [usRow Metrics.peRatioTTM Metrics.psRatioTTM]. fold ttm.
  unfold ratio. split.
  - rewrite <- sumNetIncome_sumOr0,
      <- (Qmult_pos_r (sumNetIncome ttm) _ Hs), <- Qgtb0_true.
    fold (ttmNetIncome ttm).
    destruct (Qgtb0 (ttmNetIncome ttm)); split; congruence.
  - rewrite <- sumTotalRevenue_sumOr0,
      <- (Qmult_pos_r (sumTotalRevenue ttm) _ Hs), <- Qgtb0_true.
    fold (ttmTotalRevenue ttm).
    destruct (Qgtb0 (ttmTotalRevenue ttm)); split; congruence.
Qed.

(** ** A failed price request *)

(** X7 (no prices, no rows, no exception). When the request to the
    market-data provider rejects, or resolves with no bars, the derivation
    returns no rows and does not throw, on either path and whatever the
    statement and shares stores would have answered: they are not
    consulted. *)
Theorem no_prices_no_rows :
  forall (env : Env) (ticker : string) (isInternational : bool)
         (from to exchange : string),
    (eodhdClient_getHistoricalPriceData env ticker exchange from to
     = Returned [] \/
     exists e, eodhdClient_getHistoricalPriceData env ticker exchange from to
               = Threw e) ->
    getHistoricalPriceData env ticker from to exchange = [] /\
    calculateHistoricalMetrics_try env ticker isInternational
      from to exchange = Returned [] /\
    calculateHistoricalMetrics env ticker isInternational
      from to exchange = [].
Proof.
  intros env ticker isInternational from to exchange H.
  assert (E : getHistoricalPriceData env ticker from to exchange = []).
  { unfold getHistoricalPriceData. destruct H as [->|(e & ->)]; reflexivity. }
  unfold calculateHistoricalMetrics, calculateHistoricalMetrics_try.
  rewrite E. repeat split.
Qed.

(** * The operational collection *)

Lemma findOne_sameKey (collection : list Metrics.t) (m : Metrics.t) :
  findOne collection (Metrics.ticker m) (Metrics.date m)
  = find (fun doc => sameKey doc m) collection.
Proof. reflexivity. Qed.

Lemma findOne_other (m : Metrics.t) (ticker : string) (date : Z) :
  keyOf m <> (ticker, date) ->
  String.eqb (Metrics.ticker m) ticker && (Metrics.date m =? date) = false.
Proof.
  intros H. apply not_true_iff_false. intros E.
  apply andb_true_iff in E. destruct E as [E1 E2].
  apply String.eqb_eq in E1. apply Z.eqb_eq in E2.
  apply H. unfold keyOf. now rewrite E1, E2.
Qed.

Lemma findOne_updateOneUpsert_same (collection : list Metrics.t)
    (m : Metrics.t) :
  findOne (updateOneUpsert collection m) (Metrics.ticker m) (Metrics.date m)
  = Some m.
Proof.
  rewrite findOne_sameKey.
  induction collection as [|doc rest IH]; simpl.
  - now rewrite sameKey_refl.
  - destruct (sameKey doc m) eqn:E; simpl.
    + now rewrite sameKey_refl.
    + now rewrite E.
Qed.

Lemma findOne_updateOneUpsert_other (collection : list Metrics.t)
    (m : Metrics.t) (ticker : string) (date : Z) :
  keyOf m <> (ticker, date) ->
  findOne (updateOneUpsert collection m) ticker date
  = findOne collection ticker date.
Proof.
  intros Hk. unfold findOne.
  induction collection as [|doc rest IH]; simpl.
  - now rewrite (findOne_other m ticker date Hk).
  - destruct (sameKey doc m) eqn:E; simpl.
    + rewrite (findOne_other m ticker date Hk).
      apply sameKey_keyOf in E.
      rewrite (findOne_other doc ticker date); [reflexivity|congruence].
    + now rewrite IH.
Qed.

Lemma findOne_app (l1 l2 : list Metrics.t) (ticker : string) (date : Z) :
  findOne (l1 ++ l2) ticker date
  = match findOne l1 ticker date with
    | Some m => Some m
    | None => findOne l2 ticker date
    end.
Proof.
  unfold findOne. induction l1 as [|x l1 IH]; simpl; [reflexivity|].
  destruct (_ && _); [reflexivity|assumption].
Qed.

Lemma findOne_key (collection : list Metrics.t) (ticker : string) (date : Z)
    (m : Metrics.t) :
  findOne collection ticker date = Some m ->
  In m collection /\ keyOf m = (ticker, date).
Proof.
  intros H. apply find_some in H. destruct H as [Hin E].
  apply andb_true_iff in E. destruct E as [E1 E2].
  apply String.eqb_eq in E1. apply Z.eqb_eq in E2.
  split; [assumption|]. unfold keyOf. now rewrite E1, E2.
Qed.

Lemma key_cases (m : Metrics.t) (ticker : string) (date : Z) :
  keyOf m = (ticker, date) \/ keyOf m <> (ticker, date).
Proof.
  unfold keyOf.
  destruct (String.eqb_spec (Metrics.ticker m) ticker) as [->|Ht];
    destruct (Z.eq_dec (Metrics.date m) date) as [->|Hd];
    try (right; congruence). now left.
Qed.

(** What a lookup finds after a [bulkWrite]: the last row of the batch with
    that key, else what was there before. *)
Lemma findOne_bulkWrite (collection metrics : list Metrics.t)
    (ticker : string) (date : Z) :
  findOne (bulkWrite collection metrics) ticker date
  = match findOne (rev metrics) ticker date with
    | Some m => Some m
    | None => findOne collection ticker date
    end.
Proof.
  unfold bulkWrite. revert collection.
  induction metrics as [|m metrics IH]; intros collection; simpl;
    [reflexivity|].
  rewrite IH, findOne_app.
  destruct (findOne (rev metrics) ticker date) as [x|]; [reflexivity|].
  destruct (key_cases m ticker date) as [E|E].
  - injection E as <- <-. rewrite findOne_updateOneUpsert_same.
    unfold findOne. simpl. now rewrite String.eqb_refl, Z.eqb_refl.
  - rewrite (findOne_updateOneUpsert_other _ _ _ _ E).
    unfold findOne at 1. simpl. now rewrite (findOne_other m ticker date E).
Qed.

(** X8 (read your writes, last write wins). After [bulkWrite], the lookup
    of a (ticker, date) returns the last row of the batch with that key
    when the batch has one, and otherwise the document the lookup returned
    before: the upserts touch no other key. *)
Theorem bulkWrite_lookup :
  forall (collection metrics : list Metrics.t) (ticker : string) (date : Z),
    (forall m, findOne (rev metrics) ticker date = Some m ->
       findOne (bulkWrite collection metrics) ticker date = Some m) /\
    ((forall m, In m metrics -> keyOf m <> (ticker, date)) ->
       findOne (bulkWrite collection metrics) ticker date
       = findOne collection ticker date).
Proof.
  intros collection metrics ticker date. rewrite findOne_bulkWrite. split.
  - now intros m ->.
  - intros Hnone.
    destruct (findOne (rev metrics) ticker date) as [m|] eqn:E;
      [|reflexivity].
    apply findOne_key in E. destruct E as [Hin Hk].
    apply in_rev in Hin. now destruct (Hnone m Hin).
Qed.

Lemma updateOneUpsert_keys (collection : list Metrics.t) (m : Metrics.t) :
  map keyOf (updateOneUpsert collection m)
  = if existsb (fun doc => sameKey doc m) collection
    then map keyOf collection
    else map keyOf collection ++ [keyOf m].
Proof.
  induction collection as [|doc rest IH]; simpl; [reflexivity|].
  destruct (sameKey doc m) eqn:E; simpl.
  - apply sameKey_keyOf in E. now rewrite E.
  - rewrite IH. now destruct (existsb _ rest).
Qed.

Lemma existsb_sameKey_In (collection : list Metrics.t) (m : Metrics.t) :
  existsb (fun doc => sameKey doc m) collection = true <->
  In (keyOf m) (map keyOf collection).
Proof.
  rewrite existsb_exists, in_map_iff. split.
  - intros (doc & Hin & E). apply sameKey_keyOf in E. now exists doc.
  - intros (doc & E & Hin). exists doc. split; [assumption|].
    now apply sameKey_keyOf.
Qed.

Lemma updateOneUpsert_NoDup (collection : list Metrics.t) (m : Metrics.t) :
  NoDup (map keyOf collection) ->
  NoDup (map keyOf (updateOneUpsert collection m)).
Proof.
  intros Hnd. rewrite updateOneUpsert_keys.
  destruct (existsb _ collection) eqn:E; [assumption|].
  apply NoDup_app; [assumption|repeat constructor; intros []|].
  intros k Hk [<-|[]].
  apply existsb_sameKey_In in Hk. congruence.
Qed.

Lemma updateOneUpsert_keeps_keys (collection : list Metrics.t)
    (m : Metrics.t) (k : string * Z) :
  In k (map keyOf collection) ->
  In k (map keyOf (updateOneUpsert collection m)).
Proof.
  intros Hk. rewrite updateOneUpsert_keys.
  destruct (existsb _ collection); [assumption|].
  apply in_or_app. now left.
Qed.

(** X9 (the unique index is kept, nothing is deleted). [bulkWrite] takes a
    collection with at most one document per (ticker, date) to a collection
    with at most one document per (ticker, date); every key of the
    collection and every key of the batch is a key of the result, and the
    result has no other key. *)
Theorem bulkWrite_unique_index :
  forall (collection metrics : list Metrics.t),
    NoDup (map keyOf collection) ->
    NoDup (map keyOf (bulkWrite collection metrics)) /\
    (forall k, In k (map keyOf (bulkWrite collection metrics)) <->
               In k (map keyOf collection) \/ In k (map keyOf metrics)).
Proof.
  intros collection metrics. unfold bulkWrite. revert collection.
  induction metrics as [|m metrics IH]; intros collection Hnd; simpl.
  - split; [assumption|]. intros k. tauto.
  - destruct (IH (updateOneUpsert collection m)
                (updateOneUpsert_NoDup _ _ Hnd)) as [H1 H2].
    split; [assumption|]. intros k. rewrite H2, updateOneUpsert_keys.
    destruct (existsb (fun doc => sameKey doc m) collection) eqn:E.
    + apply existsb_sameKey_In in E. split; [tauto|].
      intros [H|[<-|H]]; auto.
    + rewrite in_app_iff. simpl. tauto.
Qed.

Lemma updateOneUpsert_present (collection : list Metrics.t) (m : Metrics.t) :
  findOne collection (Metrics.ticker m) (Metrics.date m) = Some m ->
  updateOneUpsert collection m = collection.
Proof.
  rewrite findOne_sameKey.
  induction collection as [|doc rest IH]; simpl; [discriminate|].
  destruct (sameKey doc m); [now intros [= ->]|].
  intros H. now rewrite IH.
Qed.

Lemma bulkWrite_present (collection metrics : list Metrics.t) :
  (forall m, In m metrics ->
     findOne collection (Metrics.ticker m) (Metrics.date m) = Some m) ->
  bulkWrite collection metrics = collection.
Proof.
  unfold bulkWrite. induction metrics as [|m metrics IH]; intros H; simpl;
    [reflexivity|].
  rewrite updateOneUpsert_present by (apply H; now left).
  apply IH. intros x Hx. apply H. now right.
Qed.

Lemma findOne_unique (l : list Metrics.t) (m : Metrics.t) :
  NoDup (map keyOf l) -> In m l ->
  findOne l (Metrics.ticker m) (Metrics.date m) = Some m.
Proof.
  intros Hnd Hin. rewrite findOne_sameKey.
  pose proof (matching_unique l Hnd m Hin) as H. unfold matching in H.
  induction l as [|x l IH]; [destruct Hin|].
  simpl in *. destruct (sameKey x m) eqn:E1.
  - rewrite (sameKey_ext m x x) in H.
    + rewrite sameKey_refl in H. now injection H as ->.
    + symmetry. now apply sameKey_keyOf.
  - destruct (sameKey m x) eqn:E2.
    + apply sameKey_keyOf in E2. symmetry in E2.
      apply sameKey_keyOf in E2. congruence.
    + inversion Hnd; subst. destruct Hin as [->|Hin].
      * now rewrite sameKey_refl in E1.
      * now apply IH.
Qed.

Lemma bulkWrite_again (collection metrics : list Metrics.t) :
  NoDup (map keyOf metrics) ->
  bulkWrite (bulkWrite collection metrics) metrics
  = bulkWrite collection metrics.
Proof.
  intros Hnd. apply bulkWrite_present. intros m Hm.
  rewrite findOne_bulkWrite, (findOne_unique (rev metrics) m).
  - reflexivity.
  - rewrite map_rev. now apply NoDup_rev.
  - now apply in_rev in Hm.
Qed.

(** X10 (the upsert is idempotent). Writing a batch with at most one row
    per (ticker, date) a second time leaves the collection exactly as the
    first write left it, whatever the collection held before. *)
Theorem bulkWrite_idempotent :
  forall (collection metrics : list Metrics.t),
    NoDup (map keyOf metrics) ->
    bulkWrite (bulkWrite collection metrics) metrics
    = bulkWrite collection metrics /\
    forall m, In m metrics ->
      findOne (bulkWrite collection metrics)
        (Metrics.ticker m) (Metrics.date m) = Some m.
Proof.
  intros collection metrics Hnd.
  assert (H : forall m, In m metrics ->
            findOne (bulkWrite collection metrics)
              (Metrics.ticker m) (Metrics.date m) = Some m).
  { intros m Hm.
    rewrite findOne_bulkWrite, (findOne_unique (rev metrics) m).
    - reflexivity.
    - rewrite map_rev. now apply NoDup_rev.
    - now apply in_rev in Hm. }
  split; [|exact H]. now apply bulkWrite_present.
Qed.

(** * The analytical table *)

Lemma stageAndMerge_accepts (mainTable metrics : list Metrics.t) :
  NoDup (map keyOf metrics) ->
  stageAndMerge mainTable metrics
  = (map (whenMatched metrics) mainTable ++ whenNotMatched mainTable metrics,
     Returned tt).
Proof.
  intros Hnd. unfold stageAndMerge, mergeTempTableToMainTable.
  rewrite insertPriceMetricsToTempTable_all. cbn [app].
  now apply mergeQuery_accepts.
Qed.

Lemma stageAndMerge_again (mainTable metrics : list Metrics.t) :
  NoDup (map keyOf metrics) ->
  stageAndMerge (fst (stageAndMerge mainTable metrics)) metrics
  = stageAndMerge mainTable metrics.
Proof.
  intros Hnd. rewrite (stageAndMerge_accepts mainTable metrics Hnd).
  cbn [fst]. rewrite (stageAndMerge_accepts _ metrics Hnd).
  destruct (merged_fixpoint metrics Hnd mainTable) as [-> ->].
  now rewrite app_nil_r.
Qed.

Lemma whenMatched_keys (source target : list Metrics.t) :
  map keyOf (map (whenMatched source) target) = map keyOf target.
Proof.
  rewrite map_map. apply map_ext. intros t. apply whenMatched_key.
Qed.

Lemma whenMatched_symbol (source : list Metrics.t) (t : Metrics.t) :
  Metrics.symbol (whenMatched source t) = Metrics.symbol t.
Proof. unfold whenMatched. destruct (matching source t); reflexivity. Qed.

Lemma whenNotMatched_In (target source : list Metrics.t) (s : Metrics.t) :
  In s (whenNotMatched target source) <->
  In s source /\ ~ In (keyOf s) (map keyOf target).
Proof.
  unfold whenNotMatched. rewrite filter_In, negb_true_iff.
  rewrite <- not_true_iff_false, existsb_sameKey_In. reflexivity.
Qed.

Lemma filter_keys_unique (keep : Metrics.t -> bool) (rows : list Metrics.t) :
  NoDup (map keyOf rows) -> NoDup (map keyOf (filter keep rows)).
Proof.
  intros Hnd. induction rows as [|r rows IH]; simpl; [constructor|].
  inversion Hnd as [|? ? Hr Hrows]; subst.
  destruct (keep r); simpl; [|now apply IH].
  constructor; [|now apply IH].
  intros Hin. apply Hr. apply in_map_iff in Hin.
  destruct Hin as (y & E & Hy). apply filter_In in Hy.
  apply in_map_iff. exists y. tauto.
Qed.

(** X11 (at most one row per key after a merge). When the durable table
    and the batch each have at most one row per (ticker, date), the merge
    succeeds and the table still has at most one row per (ticker, date);
    its keys are those it had and those of the batch, no others. *)
Theorem merge_keeps_keys_unique :
  forall (T B : list Metrics.t),
    NoDup (map keyOf T) ->
    NoDup (map keyOf B) ->
    exists T1,
      stageAndMerge T B = (T1, Returned tt) /\
      NoDup (map keyOf T1) /\
      (forall k, In k (map keyOf T1) <->
                 In k (map keyOf T) \/ In k (map keyOf B)).
Proof.
  intros T B HT HB. eexists. split; [now apply stageAndMerge_accepts|].
  rewrite map_app, whenMatched_keys. split.
  - apply NoDup_app; [assumption| |].
    + unfold whenNotMatched. now apply filter_keys_unique.
    + intros k Hk Hk'. apply in_map_iff in Hk'.
      destruct Hk' as (s & <- & Hs). apply whenNotMatched_In in Hs. tauto.
  - intros k. rewrite in_app_iff. split.
    + intros [H|H]; [now left|]. right.
      apply in_map_iff in H. destruct H as (s & <- & Hs).
      apply whenNotMatched_In in Hs. apply in_map. tauto.
    + intros [H|H]; [now left|].
      apply in_map_iff in H. destruct H as (s & <- & Hs).
      destruct (existsb (fun t => sameKey t s) T) eqn:E.
      * left. now apply existsb_sameKey_In.
      * right. apply in_map. apply whenNotMatched_In.
        split; [assumption|]. intros Hin.
        apply existsb_sameKey_In in Hin. congruence.
Qed.

Lemma NoDup_map_inj {A B : Type} (f : A -> B) (l : list A) (x y : A) :
  NoDup (map f l) -> In x l -> In y l -> f x = f y -> x = y.
Proof.
  induction l as [|a l IH]; simpl; intros Hnd Hx Hy E; [destruct Hx|].
  inversion Hnd as [|? ? Ha Hl]; subst.
  destruct Hx as [->|Hx], Hy as [->|Hy]; auto.
  - exfalso. apply Ha. rewrite E. now apply in_map.
  - exfalso. apply Ha. rewrite <- E. now apply in_map.
Qed.

Lemma whenMatched_unmatched (source : list Metrics.t) (t : Metrics.t) :
  ~ In (keyOf t) (map keyOf source) -> whenMatched source t = t.
Proof.
  intros H. unfold whenMatched, matching.
  rewrite filter_none; [reflexivity|]. intros s Hs.
  apply not_true_iff_false. intros E. apply sameKey_keyOf in E.
  apply H. rewrite E. now apply in_map.
Qed.

Lemma whenMatched_matched (source : list Metrics.t) (t s : Metrics.t) :
  NoDup (map keyOf source) -> In s source -> keyOf t = keyOf s ->
  whenMatched source t = updateSet t s.
Proof.
  intros Hnd Hs E. unfold whenMatched.
  now rewrite (matching_ext source t s E), (matching_unique source Hnd s Hs).
Qed.

Lemma merged_has_key (T B : list Metrics.t) (s : Metrics.t) :
  In s B ->
  exists r, In r (map (whenMatched B) T ++ whenNotMatched T B) /\
            keyOf r = keyOf s.
Proof.
  intros Hs. destruct (existsb (fun t => sameKey t s) T) eqn:E.
  - apply existsb_exists in E. destruct E as (t & Ht & E).
    apply sameKey_keyOf in E. exists (whenMatched B t). split.
    + apply in_or_app. left. now apply in_map.
    + now rewrite whenMatched_key.
  - exists s. split; [|reflexivity]. apply in_or_app. right.
    apply whenNotMatched_In. split; [assumption|]. intros Hin.
    apply existsb_sameKey_In in Hin. congruence.
Qed.

Lemma merged_assigned (T B : list Metrics.t) (s r : Metrics.t) :
  NoDup (map keyOf B) -> In s B ->
  In r (map (whenMatched B) T ++ whenNotMatched T B) ->
  keyOf r = keyOf s -> assigned r = assigned s.
Proof.
  intros HB Hs Hr E. apply in_app_or in Hr. destruct Hr as [Hr|Hr].
  - apply in_map_iff in Hr. destruct Hr as (t & <- & Ht).
    rewrite whenMatched_key in E.
    now rewrite (whenMatched_matched B t s HB Hs E).
  - apply whenNotMatched_In in Hr. destruct Hr as [Hr _].
    now rewrite (NoDup_map_inj keyOf B r s HB Hr Hs E).
Qed.

(** X12 (what a merge does to the rows). For a batch with at most one row
    per (ticker, date), the merge succeeds; the rows the table had stay
    where they were with their key and their [symbol]; a row of the table
    whose key is not in the batch is unchanged; every row of the batch can
    be read back, in that the table has a row with its key and every row
    with its key holds its nine assigned columns; and the table grows by
    the rows of the batch whose key it did not have. *)
Theorem merge_effect :
  forall (T B : list Metrics.t),
    NoDup (map keyOf B) ->
    exists T1,
      stageAndMerge T B = (T1, Returned tt) /\
      map (fun r => (keyOf r, Metrics.symbol r)) (firstn (length T) T1)
      = map (fun r => (keyOf r, Metrics.symbol r)) T /\
      (forall i t, nth_error T i = Some t ->
         ~ In (keyOf t) (map keyOf B) -> nth_error T1 i = Some t) /\
      (forall s, In s B ->
         (exists r, In r T1 /\ keyOf r = keyOf s) /\
         (forall r, In r T1 -> keyOf r = keyOf s ->
            assigned r = assigned s)) /\
      length T1 = (length T + length (whenNotMatched T B))%nat.
Proof.
  intros T B HB. eexists. split; [now apply stageAndMerge_accepts|].
  split; [|split; [|split]].
  - rewrite firstn_app, length_map, Nat.sub_diag, firstn_O, app_nil_r.
    rewrite firstn_all2 by (rewrite length_map; lia).
    rewrite map_map. apply map_ext. intros t.
    now rewrite whenMatched_key, whenMatched_symbol.
  - intros i t Hi Hk.
    rewrite nth_error_app1
      by (rewrite length_map; apply nth_error_Some; congruence).
    rewrite nth_error_map, Hi. cbn [option_map].
    now rewrite whenMatched_unmatched.
  - intros s Hs. split.
    + now apply merged_has_key.
    + intros r Hr E. now apply (merged_assigned T B s r).
  - now rewrite length_app, length_map.
Qed.

Lemma whenNotMatched_ext (T T' B : list Metrics.t) :
  (forall s, In s B ->
     (In (keyOf s) (map keyOf T) <-> In (keyOf s) (map keyOf T'))) ->
  whenNotMatched T B = whenNotMatched T' B.
Proof.
  intros H. unfold whenNotMatched. apply filter_ext_in. intros s Hs.
  f_equal. apply eq_true_iff_eq. rewrite !existsb_sameKey_In. now apply H.
Qed.

Lemma disjoint_keys (B1 B2 : list Metrics.t) :
  NoDup (map keyOf (B1 ++ B2)) ->
  forall s1 s2, In s1 B1 -> In s2 B2 -> keyOf s1 <> keyOf s2.
Proof.
  intros Hnd s1 s2 Hs1 Hs2 E.
  assert (s1 = s2).
  { apply (NoDup_map_inj keyOf (B1 ++ B2)); auto; apply in_or_app; auto. }
  subst s2. rewrite map_app in Hnd.
  apply in_split in Hs1. destruct Hs1 as (a & b & ->).
  rewrite map_app in Hnd. simpl in Hnd.
  rewrite <- app_assoc in Hnd. simpl in Hnd.
  apply NoDup_remove_2 in Hnd. apply Hnd.
  rewrite !in_app_iff. right. right. now apply in_map.
Qed.

(** The table after two merges with disjoint keys is the table after the
    merge of the two batches put together. *)
Lemma merged_app (T B1 B2 : list Metrics.t) :
  NoDup (map keyOf (B1 ++ B2)) ->
  let T1 := map (whenMatched B1) T ++ whenNotMatched T B1 in
  map (whenMatched B2) T1 ++ whenNotMatched T1 B2
  = map (whenMatched (B1 ++ B2)) T ++ whenNotMatched T (B1 ++ B2).
Proof.
  intros Hnd T1. unfold T1.
  assert (H1 : NoDup (map keyOf B1))
    by (rewrite map_app in Hnd; now apply NoDup_app_remove_r in Hnd).
  pose proof (disjoint_keys B1 B2 Hnd) as Hdisj.
  replace (whenNotMatched T (B1 ++ B2))
    with (whenNotMatched T B1 ++ whenNotMatched T B2)
    by (unfold whenNotMatched; now rewrite filter_app).
  rewrite map_app, map_map, <- app_assoc. f_equal; [|f_equal].
  - apply map_ext. intros t.
    destruct (existsb (fun s => sameKey t s) B1) eqn:E.
    + apply existsb_exists in E. destruct E as (s & Hs & E).
      apply sameKey_keyOf in E.
      rewrite (whenMatched_matched B1 t s H1 Hs E).
      rewrite (whenMatched_matched (B1 ++ B2) t s Hnd
                 (in_or_app _ _ _ (or_introl Hs)) E).
      apply whenMatched_unmatched. rewrite updateSet_key, E.
      intros Hin. apply in_map_iff in Hin. destruct Hin as (s2 & E2 & Hs2).
      now apply (Hdisj s s2 Hs Hs2).
    + assert (Hno : ~ In (keyOf t) (map keyOf B1)).
      { intros Hin. apply in_map_iff in Hin. destruct Hin as (s & Es & Hs).
        apply not_true_iff_false in E. apply E. apply existsb_exists.
        exists s. split; [assumption|]. now apply sameKey_keyOf. }
      rewrite (whenMatched_unmatched B1 t Hno).
      unfold whenMatched, matching. rewrite filter_app.
      rewrite (filter_none (sameKey t) B1); [reflexivity|].
      intros s Hs. apply not_true_iff_false. intros Es.
      apply sameKey_keyOf in Es. apply Hno. rewrite Es. now apply in_map.
  - rewrite <- (map_id (whenNotMatched T B1)) at 2.
    apply map_ext_in. intros s Hs.
    apply whenMatched_unmatched. apply whenNotMatched_In in Hs.
    destruct Hs as [Hs _]. intros Hin.
    apply in_map_iff in Hin. destruct Hin as (s2 & E2 & Hs2).
    now apply (Hdisj s s2 Hs Hs2).
  - apply (whenNotMatched_ext _ T B2). intros s Hs.
    rewrite map_app, whenMatched_keys, in_app_iff. split; [|tauto].
    intros [H|H]; [assumption|]. exfalso.
    apply in_map_iff in H. destruct H as (s1 & E & Hs1).
    apply whenNotMatched_In in Hs1. destruct Hs1 as [Hs1 _].
    now apply (Hdisj s1 s Hs1 Hs).
Qed.

(** X13 (loading in two batches is loading at once). When two batches
    share no (ticker, date) and neither repeats one, merging the first and
    then the second gives the same table as merging the two together. *)
Theorem merge_in_two_batches :
  forall (T B1 B2 : list Metrics.t),
    NoDup (map keyOf (B1 ++ B2)) ->
    exists T1 T2,
      stageAndMerge T B1 = (T1, Returned tt) /\
      stageAndMerge T1 B2 = (T2, Returned tt) /\
      stageAndMerge T (B1 ++ B2) = (T2, Returned tt).
Proof.
  intros T B1 B2 Hnd.
  assert (H1 : NoDup (map keyOf B1))
    by (rewrite map_app in Hnd; now apply NoDup_app_remove_r in Hnd).
  assert (H2 : NoDup (map keyOf B2))
    by (rewrite map_app in Hnd; now apply NoDup_app_remove_l in Hnd).
  exists (map (whenMatched B1) T ++ whenNotMatched T B1).
  eexists. split; [now apply stageAndMerge_accepts|].
  split; [now apply stageAndMerge_accepts|].
  rewrite (stageAndMerge_accepts T (B1 ++ B2) Hnd). f_equal. symmetry.
  now apply merged_app.
Qed.

(** * Saving a batch *)

Lemma insertLoop_await_returned {A : Type} (insert : nat -> outcome unit)
    (batchSize : nat) (rows : list A) :
  forall fuel i table table',
    insertLoop_await insert fuel batchSize rows i table
    = (table', Returned tt) ->
    table' = insertLoop fuel batchSize rows i table.
Proof.
  induction fuel as [|fuel IH]; intros i table table' H; simpl in *.
  - now injection H as <-.
  - destruct (Nat.ltb i (length rows)); [|now injection H as <-].
    destruct (insert i) as [u|e]; [|discriminate]. now apply IH.
Qed.

Lemma insertLoop_await_accepted {A : Type} (insert : nat -> outcome unit)
    (batchSize : nat) (rows : list A) :
  (forall i, insert i = Returned tt) ->
  forall fuel i table,
    insertLoop_await insert fuel batchSize rows i table
    = (insertLoop fuel batchSize rows i table, Returned tt).
Proof.
  intros Hok. induction fuel as [|fuel IH]; intros i table; simpl;
    [reflexivity|].
  destruct (Nat.ltb i (length rows)); [|reflexivity].
  rewrite Hok. apply IH.
Qed.


(** When every insert is accepted the staging table holds the rows. *)
Lemma staging_returned (services : Services) (metrics temp : list Metrics.t) :
  insertPriceMetricsToTempTable_await services metrics [] = (temp, Returned tt)
  -> temp = insertPriceMetricsToTempTable metrics [].
Proof.
  unfold insertPriceMetricsToTempTable_await, insertPriceMetricsToTempTable.
  destruct (Nat.eqb (length metrics) 0); [now intros [= <-]|].
  apply insertLoop_await_returned.
Qed.

Lemma staging_accepted (services : Services) (metrics : list Metrics.t) :
  (forall i, table_insert services i = Returned tt) ->
  insertPriceMetricsToTempTable_await services metrics []
  = (insertPriceMetricsToTempTable metrics [], Returned tt).
Proof.
  intros Hok.
  unfold insertPriceMetricsToTempTable_await, insertPriceMetricsToTempTable.
  destruct (Nat.eqb (length metrics) 0); [reflexivity|].
  now apply insertLoop_await_accepted.
Qed.

Lemma stageAndMerge_nothing (mainTable : list Metrics.t) :
  stageAndMerge mainTable [] = (mainTable, Returned tt).
Proof.
  rewrite stageAndMerge_accepts by constructor.
  unfold whenNotMatched. cbn [filter]. rewrite app_nil_r. f_equal.
  rewrite <- (map_id mainTable) at 2. apply map_ext. reflexivity.
Qed.

Lemma savedStores_nothing (stores : Stores) : savedStores stores [] = stores.
Proof.
  unfold savedStores. rewrite stageAndMerge_nothing. now destruct stores.
Qed.

(** A save that returns normally has written and merged all the rows. *)
Lemma saveMetrics_returned (services : Services) (stores stores' : Stores)
    (metrics : list Metrics.t) :
  saveMetrics services stores metrics = (stores', Returned tt) ->
  stores' = savedStores stores metrics.
Proof.
  unfold saveMetrics. destruct (Nat.eqb (length metrics) 0) eqn:E0.
  - intros [= <-]. destruct metrics; [|discriminate].
    symmetry. apply savedStores_nothing.
  - unfold PriceMetricsModel_bulkWrite, mergeTempTableToMainTable_await.
    destruct (bulkWrite_rejection services) as [[n e]|]; [discriminate|].
    destruct (createPriceMetricsTable services) as [u|e]; [|discriminate].
    destruct (insertPriceMetricsToTempTable_await services metrics [])
      as [temp [u'|e]] eqn:Et; [|discriminate].
    destruct u'. apply staging_returned in Et.
    destruct (query_rejection services) as [e|]; [discriminate|].
    destruct (mergeTempTableToMainTable (bigQuery stores) temp)
      as [merged r] eqn:Em.
    intros [= <- ->]. unfold savedStores, stageAndMerge.
    rewrite <- Et, Em. reflexivity.
Qed.

(** Services that accept every call save rows with distinct keys. *)
Lemma saveMetrics_accepted (services : Services) (stores : Stores)
    (metrics : list Metrics.t) :
  accepted services ->
  NoDup (map keyOf metrics) ->
  saveMetrics services stores metrics
  = (savedStores stores metrics, Returned tt).
Proof.
  intros (Hb & Hc & Hi & Hq) Hnd. unfold saveMetrics.
  destruct (Nat.eqb (length metrics) 0) eqn:E0.
  - destruct metrics; [|discriminate]. now rewrite savedStores_nothing.
  - unfold PriceMetricsModel_bulkWrite, mergeTempTableToMainTable_await.
    rewrite Hb, Hc, (staging_accepted services metrics Hi), Hq.
    unfold savedStores.
    change (mergeTempTableToMainTable (bigQuery stores)
              (insertPriceMetricsToTempTable metrics []))
      with (stageAndMerge (bigQuery stores) metrics).
    now rewrite (stageAndMerge_accepts _ metrics Hnd).
Qed.


(** A save that throws leaves the analytical table as it was, and the
    operational collection with the first rows of the batch written: as
    many as the bulk write applied when it is the bulk write that rejected,
    all of them otherwise. *)
Lemma saveMetrics_threw (services : Services) (stores stores' : Stores)
    (metrics : list Metrics.t) (e : string) :
  saveMetrics services stores metrics = (stores', Threw e) ->
  bigQuery stores' = bigQuery stores /\
  (forall n e0, bulkWrite_rejection services = Some (n, e0) ->
     e = e0 /\ mongo stores' = bulkWrite (mongo stores) (firstn n metrics)) /\
  (bulkWrite_rejection services = None ->
   mongo stores' = bulkWrite (mongo stores) metrics).
Proof.
  unfold saveMetrics. destruct (Nat.eqb (length metrics) 0); [discriminate|].
  unfold PriceMetricsModel_bulkWrite, mergeTempTableToMainTable_await.
  destruct (bulkWrite_rejection services) as [[n e0]|].
  { intros [= <- <-]. cbn [mongo bigQuery]. split; [reflexivity|].
    split; [|discriminate]. now intros n' e' [= <- <-]. }
  destruct (createPriceMetricsTable services) as [u|e0].
  2:{ intros [= <- <-]. cbn [mongo bigQuery]. split; [reflexivity|].
      split; [discriminate|reflexivity]. }
  destruct (insertPriceMetricsToTempTable_await services metrics [])
    as [temp [u'|e0]].
  2:{ intros [= <- <-]. cbn [mongo bigQuery]. split; [reflexivity|].
      split; [discriminate|reflexivity]. }
  destruct (query_rejection services) as [e0|].
  { intros [= <- <-]. cbn [mongo bigQuery]. split; [reflexivity|].
    split; [discriminate|reflexivity]. }
  unfold mergeTempTableToMainTable, mergeQuery.
  destruct (existsb _ (bigQuery stores)); [|discriminate].
  intros [= <- <-]. cbn [mongo bigQuery]. split; [reflexivity|].
  split; [discriminate|reflexivity].
Qed.

Lemma savedStores_again (stores : Stores) (metrics : list Metrics.t) :
  NoDup (map keyOf metrics) ->
  savedStores (savedStores stores metrics) metrics
  = savedStores stores metrics.
Proof.
  intros Hnd. unfold savedStores. cbn [mongo bigQuery].
  now rewrite bulkWrite_again, stageAndMerge_again.
Qed.

(** ** A batch run again at a later time *)

Lemma unstamped_keys (rows : list Metrics.t) :
  map keyOf (map unstamped rows) = map keyOf rows.
Proof. rewrite map_map. apply map_ext. reflexivity. Qed.

Lemma updateOneUpsert_unstamped (collection : list Metrics.t)
    (m : Metrics.t) :
  map unstamped (updateOneUpsert collection m)
  = updateOneUpsert (map unstamped collection) (unstamped m).
Proof.
  induction collection as [|doc rest IH]; simpl; [reflexivity|].
  change (sameKey (unstamped doc) (unstamped m)) with (sameKey doc m).
  destruct (sameKey doc m); simpl; [reflexivity|]. now rewrite IH.
Qed.

Lemma bulkWrite_unstamped (collection metrics : list Metrics.t) :
  map unstamped (bulkWrite collection metrics)
  = bulkWrite (map unstamped collection) (map unstamped metrics).
Proof.
  unfold bulkWrite. revert collection.
  induction metrics as [|m metrics IH]; intros collection; simpl;
    [reflexivity|].
  now rewrite IH, updateOneUpsert_unstamped.
Qed.

Lemma matching_unstamped (source : list Metrics.t) (t : Metrics.t) :
  matching (map unstamped source) (unstamped t)
  = map unstamped (matching source t).
Proof.
  unfold matching. induction source as [|s source IH]; simpl; [reflexivity|].
  change (sameKey (unstamped t) (unstamped s)) with (sameKey t s).
  destruct (sameKey t s); simpl; now rewrite IH.
Qed.

Lemma whenMatched_unstamped (source : list Metrics.t) (t : Metrics.t) :
  whenMatched (map unstamped source) (unstamped t)
  = unstamped (whenMatched source t).
Proof.
  unfold whenMatched. rewrite matching_unstamped.
  destruct (matching source t); reflexivity.
Qed.

Lemma matched_unstamped (target : list Metrics.t) (s : Metrics.t) :
  existsb (fun t => sameKey t (unstamped s)) (map unstamped target)
  = existsb (fun t => sameKey t s) target.
Proof.
  induction target as [|t target IH]; simpl; [reflexivity|].
  now rewrite IH.
Qed.

Lemma whenNotMatched_unstamped (target source : list Metrics.t) :
  whenNotMatched (map unstamped target) (map unstamped source)
  = map unstamped (whenNotMatched target source).
Proof.
  unfold whenNotMatched.
  induction source as [|s source IH]; simpl; [reflexivity|].
  rewrite matched_unstamped.
  destruct (existsb _ target); simpl; now rewrite IH.
Qed.

(** Saving commutes with forgetting the timestamps. *)
Lemma savedStores_unstamped (stores : Stores) (metrics : list Metrics.t) :
  NoDup (map keyOf metrics) ->
  map unstamped (mongo (savedStores stores metrics))
  = mongo (savedStores
             {| mongo := map unstamped (mongo stores);
                bigQuery := map unstamped (bigQuery stores) |}
             (map unstamped metrics)) /\
  map unstamped (bigQuery (savedStores stores metrics))
  = bigQuery (savedStores
                {| mongo := map unstamped (mongo stores);
                   bigQuery := map unstamped (bigQuery stores) |}
                (map unstamped metrics)).
Proof.
  intros Hnd. unfold savedStores. cbn [mongo bigQuery].
  split; [apply bulkWrite_unstamped|].
  rewrite (stageAndMerge_accepts _ metrics Hnd).
  rewrite stageAndMerge_accepts by now rewrite unstamped_keys.
  cbn [fst]. rewrite map_app, !map_map, whenNotMatched_unstamped.
  f_equal. apply map_ext. intros t. symmetry. apply whenMatched_unstamped.
Qed.

Lemma forPriceDataPoints_ext (rowsAt : Z -> PriceData.t -> list Metrics.t)
    (now1 now2 : nat -> Z) :
  (forall i, now1 i = now2 i) ->
  forall (l : list PriceData.t) (i : nat),
    forPriceDataPoints rowsAt now1 i l = forPriceDataPoints rowsAt now2 i l.
Proof.
  intros H. induction l as [|p l IH]; intros i; simpl; [reflexivity|].
  now rewrite H, IH.
Qed.

Lemma rows_same_clock (env : Env) (readings : string -> nat -> Z)
    (ticker : string) (isInternational : bool) (from to exchange : string) :
  (forall i, readings ticker i = clock env ticker i) ->
  calculateHistoricalMetrics (withClock env readings) ticker
    isInternational from to exchange
  = calculateHistoricalMetrics env ticker isInternational from to exchange.
Proof.
  intros H. unfold calculateHistoricalMetrics, calculateHistoricalMetrics_try.
  change (getHistoricalPriceData (withClock env readings) ticker from to
            exchange)
    with (getHistoricalPriceData env ticker from to exchange).
  destruct (Nat.eqb _ 0); [reflexivity|].
  destruct isInternational; cbn [withClock InternationalStock_find
    QuarterlyFinancialsModel_find clock].
  - destruct (InternationalStock_find env ticker) as [data|e];
      [|reflexivity].
    destruct (Nat.eqb (length data) 0); [reflexivity|].
    now apply forPriceDataPoints_ext.
  - destruct (QuarterlyFinancialsModel_find env ticker) as [data|e];
      [|reflexivity].
    destruct (Nat.eqb (length data) 0); [reflexivity|].
    now apply forPriceDataPoints_ext.
Qed.

Lemma batch_rows_unstamped (env : Env) (readings : string -> nat -> Z)
    (intlTickerSet : list string) (startDate endDate : string)
    (batch : list string) :
  map unstamped
    (allMetrics
       (batchResults (withClock env readings) intlTickerSet
          startDate endDate batch))
  = map unstamped
      (allMetrics (batchResults env intlTickerSet startDate endDate batch)).
Proof.
  rewrite !allMetrics_concat. unfold batchResults.
  induction batch as [|ticker batch IH]; [reflexivity|].
  cbn [map concat]. now rewrite !map_app, IH, rows_unstamped.
Qed.

Lemma batch_rows_same_clock (env : Env) (readings : string -> nat -> Z)
    (intlTickerSet : list string) (startDate endDate : string)
    (batch : list string) :
  (forall ticker i, In ticker batch -> readings ticker i = clock env ticker i)
  ->
  batchResults (withClock env readings) intlTickerSet startDate endDate batch
  = batchResults env intlTickerSet startDate endDate batch.
Proof.
  intros H. unfold batchResults. apply map_ext_in. intros ticker Hin.
  apply rows_same_clock. intros i. now apply H.
Qed.

(** X14 (a batch run again changes the timestamps only). For a batch of
    distinct tickers whose price observations have distinct dates, when the
    batch was processed and saved and is then processed and saved again at
    a later time, against the same answers of the collaborators but other
    readings of the clock, the operational collection and the analytical
    table hold the same rows as after the first run but for [lastUpdated],
    which is that of the second run; with the same readings the second run
    changes none of the fields of [IPriceMetrics]. *)
Theorem batch_rerun :
  forall (env : Env) (readings : string -> nat -> Z)
         (services1 services2 : Services) (intlTickerSet : list string)
         (startDate endDate : string) (stores stores1 stores2 : Stores)
         (batch : list string),
    NoDup batch ->
    (forall ticker,
       In ticker batch ->
       NoDup (map PriceData.date
                (getHistoricalPriceData env ticker startDate endDate "US"))) ->
    processBatch env services1 intlTickerSet startDate endDate stores batch
    = (stores1, Returned tt) ->
    processBatch (withClock env readings) services2 intlTickerSet
      startDate endDate stores1 batch
    = (stores2, Returned tt) ->
    map unstamped (mongo stores2) = map unstamped (mongo stores1) /\
    map unstamped (bigQuery stores2) = map unstamped (bigQuery stores1) /\
    (forall r,
       In r (allMetrics
               (batchResults (withClock env readings) intlTickerSet
                  startDate endDate batch)) ->
       findOne (mongo stores2) (Metrics.ticker r) (Metrics.date r) = Some r) /\
    ((forall ticker i,
        In ticker batch -> readings ticker i = clock env ticker i) ->
     stores2 = stores1).
Proof.
  intros env readings services1 services2 intlTickerSet startDate endDate
    stores stores1 stores2 batch Hb Hd H1 H2.
  rewrite processBatch_saves in H1, H2.
  apply saveMetrics_returned in H1. apply saveMetrics_returned in H2.
  set (rows1 := allMetrics
                  (batchResults env intlTickerSet startDate endDate batch))
    in *.
  set (rows2 := allMetrics
                  (batchResults (withClock env readings) intlTickerSet
                     startDate endDate batch)) in *.
  assert (Hu : map unstamped rows2 = map unstamped rows1)
    by apply batch_rows_unstamped.
  assert (Hk1 : NoDup (map keyOf rows1)) by now apply batch_rows_keys.
  assert (Hk2 : NoDup (map keyOf rows2)).
  { rewrite <- unstamped_keys, Hu, unstamped_keys. exact Hk1. }
  assert (Hk : NoDup (map keyOf (map unstamped rows1)))
    by now rewrite unstamped_keys.
  destruct (savedStores_unstamped stores rows1 Hk1) as [Hm1 Hq1].
  destruct (savedStores_unstamped stores1 rows2 Hk2) as [Hm2 Hq2].
  rewrite <- H2 in Hm2, Hq2. rewrite <- H1 in Hm1, Hq1.
  rewrite Hu in Hm2, Hq2.
  pose proof (savedStores_again
                {| mongo := map unstamped (mongo stores);
                   bigQuery := map unstamped (bigQuery stores) |}
                (map unstamped rows1) Hk) as Hagain.
  assert (Hst : {| mongo := map unstamped (mongo stores1);
                   bigQuery := map unstamped (bigQuery stores1) |}
                = savedStores
                    {| mongo := map unstamped (mongo stores);
                       bigQuery := map unstamped (bigQuery stores) |}
                    (map unstamped rows1)).
  { rewrite Hm1, Hq1. now destruct (savedStores _ (map unstamped rows1)). }
  rewrite Hst, Hagain in Hm2, Hq2.
  split; [now rewrite Hm2, Hm1|]. split; [now rewrite Hq2, Hq1|]. split.
  - intros r Hr. rewrite H2. unfold savedStores. cbn [mongo].
    rewrite findOne_bulkWrite, (findOne_unique (rev rows2) r).
    + reflexivity.
    + rewrite map_rev. now apply NoDup_rev.
    + now apply in_rev in Hr.
  - intros Hsame.
    assert (E : rows2 = rows1).
    { unfold rows2, rows1. now rewrite batch_rows_same_clock. }
    rewrite H2, E, H1. now apply savedStores_again.
Qed.


(** * Loops over slices *)

Section Slices.

Context {A : Type}.
Variable size : nat.
Hypothesis size_pos : (0 < size)%nat.

Lemma sliceLoop_concat (arr : list A) :
  forall fuel i,
    (length arr - i <= fuel)%nat ->
    concat (sliceLoop fuel size arr i) = skipn i arr.
Proof using size_pos.
  induction fuel as [|fuel IH]; intros i Hf; simpl.
  - now rewrite skipn_all2 by lia.
  - destruct (Nat.ltb_spec i (length arr)) as [Hi|Hi].
    + cbn [concat]. rewrite IH by lia.
      rewrite (Nat.add_comm i size), <- skipn_skipn.
      apply firstn_skipn.
    + now rewrite skipn_all2 by lia.
Qed.

Lemma sliceLoop_sizes (arr : list A) :
  forall fuel i,
    Forall (fun b => (1 <= length b <= size)%nat)
      (sliceLoop fuel size arr i).
Proof using size_pos.
  induction fuel as [|fuel IH]; intros i; simpl; [constructor|].
  destruct (Nat.ltb_spec i (length arr)) as [Hi|Hi]; [|constructor].
  constructor; [|apply IH].
  rewrite length_firstn, length_skipn. lia.
Qed.

Lemma sliceLoop_count (arr : list A) :
  forall fuel i,
    (length arr - i <= fuel)%nat ->
    let calls := length (sliceLoop fuel size arr i) in
    (length arr - i <= calls * size)%nat /\
    (calls * size < length arr - i + size)%nat.
Proof using size_pos.
  induction fuel as [|fuel IH]; intros i Hf; simpl.
  - lia.
  - destruct (Nat.ltb_spec i (length arr)) as [Hi|Hi]; simpl; [|lia].
    destruct (IH (i + size)%nat ltac:(lia)) as [H1 H2].
    destruct (length (sliceLoop fuel size arr (i + size))) as [|k];
      simpl in *; lia.
Qed.

Lemma insertLoop_slices (rows : list A) :
  forall fuel i table,
    insertLoop fuel size rows i table
    = fold_left (fun t batch => t ++ batch) (sliceLoop fuel size rows i)
        table.
Proof using Type.
  induction fuel as [|fuel IH]; intros i table; simpl; [reflexivity|].
  destruct (Nat.ltb i (length rows)); [|reflexivity].
  simpl. apply IH.
Qed.

End Slices.

(** X16 (the sub-batches of the staging insert). The [table.insert] calls
    of [insertPriceMetricsToTempTable] receive consecutive slices of the
    rows: each call has between 1 and 500 rows, the slices put end to end
    are the rows, once each and in order, and the number of calls is the
    number of rows divided by 500, rounded up; for no rows there is no
    call. *)
Theorem staging_sub_batches :
  forall (metrics tempTable : list Metrics.t),
    let calls := sliceLoop (length metrics) 500 metrics 0 in
    insertPriceMetricsToTempTable metrics tempTable
    = fold_left (fun t batch => t ++ batch) calls tempTable /\
    concat calls = metrics /\
    Forall (fun batch => (1 <= length batch <= 500)%nat) calls /\
    (length metrics <= length calls * 500 < length metrics + 500)%nat.
Proof.
  intros metrics tempTable calls.
  assert (H500 : (0 < 500)%nat) by lia.
  split; [|split; [|split]].
  - unfold insertPriceMetricsToTempTable.
    destruct metrics as [|m metrics]; [reflexivity|].
    cbn [length Nat.eqb]. apply insertLoop_slices.
  - unfold calls. now rewrite (sliceLoop_concat 500 H500) by lia.
  - apply (sliceLoop_sizes 500 H500).
  - pose proof (sliceLoop_count 500 H500 metrics (length metrics) 0
                  ltac:(lia)) as H.
    cbv zeta in H. fold calls in H. lia.
Qed.

(** * The hydration run *)

Lemma batchLoop_slices (env : Env) (services : nat -> Services)
    (intlTickerSet : list string) (startDate endDate : string)
    (allTickers : list string) :
  forall fuel i stores,
    batchLoop fuel env services intlTickerSet startDate endDate allTickers i
      stores
    = saveBatches env services intlTickerSet startDate endDate i
        (sliceLoop fuel 10 allTickers i) stores.
Proof.
  induction fuel as [|fuel IH]; intros i stores; simpl; [reflexivity|].
  destruct (Nat.ltb i (length allTickers)); [|reflexivity].
  cbn [saveBatches].
  destruct (processBatch env (services i) intlTickerSet startDate endDate
              stores _)
    as [stores' [u|e]]; [apply IH|reflexivity].
Qed.

Lemma bulkWrite_app (collection r1 r2 : list Metrics.t) :
  bulkWrite (bulkWrite collection r1) r2 = bulkWrite collection (r1 ++ r2).
Proof. unfold bulkWrite. now rewrite fold_left_app. Qed.

(** Saving two sets of rows with disjoint keys one after the other is
    saving them together. *)
Lemma savedStores_app (stores : Stores) (r1 r2 : list Metrics.t) :
  NoDup (map keyOf (r1 ++ r2)) ->
  savedStores (savedStores stores r1) r2 = savedStores stores (r1 ++ r2).
Proof.
  intros Hnd.
  assert (H1 : NoDup (map keyOf r1))
    by (rewrite map_app in Hnd; now apply NoDup_app_remove_r in Hnd).
  assert (H2 : NoDup (map keyOf r2))
    by (rewrite map_app in Hnd; now apply NoDup_app_remove_l in Hnd).
  unfold savedStores. cbn [mongo bigQuery]. rewrite bulkWrite_app.
  rewrite (stageAndMerge_accepts (bigQuery stores) r1 H1). cbn [fst].
  rewrite (stageAndMerge_accepts _ r2 H2),
    (stageAndMerge_accepts _ (r1 ++ r2) Hnd). cbn [fst].
  now rewrite (merged_app (bigQuery stores) r1 r2 Hnd).
Qed.

Lemma batchRows_app (env : Env) (intlTickerSet : list string)
    (startDate endDate : string) (b1 b2 : list string) :
  allMetrics (batchResults env intlTickerSet startDate endDate (b1 ++ b2))
  = allMetrics (batchResults env intlTickerSet startDate endDate b1) ++
    allMetrics (batchResults env intlTickerSet startDate endDate b2).
Proof. unfold batchResults. now rewrite map_app, allMetrics_app. Qed.

(** Batches that were all saved leave the stores as one save of all their
    rows would. *)
Lemma saveBatches_returned (env : Env) (services : nat -> Services)
    (intlTickerSet : list string) (startDate endDate : string) :
  forall (batches : list (list string)) (i : nat) (stores stores' : Stores),
    NoDup (map keyOf
             (allMetrics
                (batchResults env intlTickerSet startDate endDate
                   (concat batches)))) ->
    saveBatches env services intlTickerSet startDate endDate i batches stores
    = (stores', Returned tt) ->
    stores'
    = savedStores stores
        (allMetrics
           (batchResults env intlTickerSet startDate endDate
              (concat batches))).
Proof.
  induction batches as [|batch rest IH]; intros i stores stores' Hnd H.
  - injection H as <-. symmetry. apply savedStores_nothing.
  - cbn [concat] in *. rewrite batchRows_app in *.
    cbn [saveBatches] in H. rewrite processBatch_saves in H.
    destruct (saveMetrics (services i) stores _) as [st [[]|e]] eqn:E;
      [|discriminate].
    apply saveMetrics_returned in E. subst st.
    rewrite <- savedStores_app by assumption.
    apply (IH (i + 10)%nat); [|exact H].
    rewrite map_app in Hnd. now apply NoDup_app_remove_l in Hnd.
Qed.

Lemma saveBatches_accepted (env : Env) (services : nat -> Services)
    (intlTickerSet : list string) (startDate endDate : string) :
  (forall i, accepted (services i)) ->
  forall (batches : list (list string)) (i : nat) (stores : Stores),
    NoDup (map keyOf
             (allMetrics
                (batchResults env intlTickerSet startDate endDate
                   (concat batches)))) ->
    snd (saveBatches env services intlTickerSet startDate endDate i batches
           stores)
    = Returned tt.
Proof.
  intros Hacc. induction batches as [|batch rest IH]; intros i stores Hnd;
    [reflexivity|].
  cbn [concat] in Hnd. rewrite batchRows_app, map_app in Hnd.
  cbn [saveBatches]. rewrite processBatch_saves.
  rewrite (saveMetrics_accepted (services i) stores _ (Hacc i))
    by now apply NoDup_app_remove_r in Hnd.
  apply IH. now apply NoDup_app_remove_l in Hnd.
Qed.

Lemma dedupe_In (arr seen : list string) (x : string) :
  In x (dedupe seen arr) <-> In x arr /\ ~ In x seen.
Proof.
  revert seen. induction arr as [|a arr IH]; intros seen; simpl; [tauto|].
  destruct (existsb (String.eqb a) seen) eqn:E.
  - rewrite IH. apply existsb_exists in E. destruct E as (y & Hy & E).
    apply String.eqb_eq in E. subst y. split; [tauto|].
    intros [[->|H] Hs]; [contradiction|tauto].
  - assert (Ha : ~ In a seen).
    { intros Hin. apply not_true_iff_false in E. apply E.
      apply existsb_exists. exists a. split; [assumption|].
      apply String.eqb_refl. }
    simpl. rewrite IH. simpl. split.
    + intros [->|[H1 H2]]; [tauto|]. tauto.
    + intros [[->|H1] H2]; [now left|].
      destruct (string_dec a x) as [->|Hne]; [now left|]. right. tauto.
Qed.

Lemma dedupe_NoDup (arr seen : list string) : NoDup (dedupe seen arr).
Proof.
  revert seen. induction arr as [|a arr IH]; intros seen; simpl;
    [constructor|].
  destruct (existsb (String.eqb a) seen); [apply IH|].
  constructor; [|apply IH]. rewrite dedupe_In. simpl. tauto.
Qed.

Lemma dedupe_subseq (arr seen : list string) : subseq (dedupe seen arr) arr.
Proof.
  revert seen. induction arr as [|a arr IH]; intros seen; simpl;
    [constructor|].
  destruct (existsb (String.eqb a) seen); constructor; apply IH.
Qed.

Lemma firstIndex_In (x : string) (l : list string) :
  In x l <-> exists i, firstIndex x l = Some i.
Proof.
  induction l as [|y l IH]; simpl.
  - split; [intros []|intros [i H]; discriminate].
  - destruct (String.eqb_spec x y) as [->|Hne].
    + split; [intros _; now exists 0%nat|now left].
    + rewrite IH. split.
      * intros [E|[i ->]]; [congruence|]. now exists (S i).
      * intros [i H]. right.
        destruct (firstIndex x l) as [k|]; [now exists k|discriminate].
Qed.

Lemma not_seen (a : string) (seen : list string) :
  existsb (String.eqb a) seen = false <-> ~ In a seen.
Proof.
  rewrite <- not_true_iff_false, existsb_exists. split.
  - intros H Hin. apply H. exists a. split; [assumption|].
    apply String.eqb_refl.
  - intros H (y & Hy & E). apply String.eqb_eq in E. now subst y.
Qed.

(** The set keeps its elements in the order in which they first came. *)
Lemma dedupe_order (arr : list string) :
  forall (seen : list string) (x y : string) (i j : nat),
    ~ In x seen -> ~ In y seen ->
    firstIndex x arr = Some i -> firstIndex y arr = Some j -> (i < j)%nat ->
    exists i' j',
      firstIndex x (dedupe seen arr) = Some i' /\
      firstIndex y (dedupe seen arr) = Some j' /\ (i' < j')%nat.
Proof.
  induction arr as [|a arr IH]; intros seen x y i j Hx Hy Hi Hj Hlt;
    [discriminate|].
  simpl in Hi, Hj.
  destruct (String.eqb_spec y a) as [->|Hya].
  { injection Hj as <-. lia. }
  destruct (firstIndex y arr) as [j0|] eqn:Ej; [|discriminate].
  injection Hj as <-.
  destruct (String.eqb_spec x a) as [->|Hxa].
  - injection Hi as <-. simpl.
    rewrite (proj2 (not_seen a seen) Hx). simpl.
    rewrite String.eqb_refl.
    destruct (String.eqb_spec y a) as [E|_]; [contradiction|].
    assert (Hin : In y (dedupe (a :: seen) arr)).
    { apply dedupe_In. split.
      - apply firstIndex_In. now exists j0.
      - simpl. intros [E|E]; [congruence|contradiction]. }
    apply firstIndex_In in Hin. destruct Hin as [k ->].
    exists 0%nat, (S k). repeat split. lia.
  - destruct (firstIndex x arr) as [i0|] eqn:Ei; [|discriminate].
    injection Hi as <-. simpl.
    destruct (existsb (String.eqb a) seen) eqn:Es.
    + apply (IH seen x y i0 j0); auto. lia.
    + destruct (IH (a :: seen) x y i0 j0) as (i' & j' & H1 & H2 & H3);
        auto; try lia.
      * simpl. intros [E|E]; [congruence|contradiction].
      * simpl. intros [E|E]; [congruence|contradiction].
      * exists (S i'), (S j'). simpl.
        destruct (String.eqb_spec x a) as [E|_]; [contradiction|].
        destruct (String.eqb_spec y a) as [E|_]; [contradiction|].
        rewrite H1, H2. repeat split. lia.
Qed.

(** X17 (every ticker once, in the order of first appearance). The tickers
    a run goes through are those of the two [distinct] queries, each
    exactly once; they come in the order in which they first appear in the
    US list followed by the international list: of two tickers, the one
    whose first appearance is earlier is processed earlier; a ticker that
    is on the international list is derived as international even when it
    is on the US list too, and only such a ticker is. *)
Theorem tickers_once :
  forall (env : Env) (us intl : list string) (startDate endDate : string),
    let allTickers := dedupe [] (us ++ intl) in
    NoDup allTickers /\
    (forall t, In t allTickers <-> In t us \/ In t intl) /\
    subseq allTickers (us ++ intl) /\
    (forall x y i j,
       firstIndex x (us ++ intl) = Some i ->
       firstIndex y (us ++ intl) = Some j ->
       (i < j)%nat ->
       exists i' j',
         firstIndex x allTickers = Some i' /\
         firstIndex y allTickers = Some j' /\ (i' < j')%nat) /\
    batchResults env intl startDate endDate allTickers
    = map (fun t =>
             calculateHistoricalMetrics env t
               (if in_dec string_dec t intl then true else false)
               startDate endDate "US")
          allTickers.
Proof.
  intros env us intl startDate endDate allTickers.
  split; [apply dedupe_NoDup|]. split; [|split; [|split]].
  - intros t. unfold allTickers. rewrite dedupe_In, in_app_iff. simpl. tauto.
  - apply dedupe_subseq.
  - intros x y i j Hi Hj Hlt.
    apply (dedupe_order (us ++ intl) [] x y i j); auto.
  - unfold batchResults. apply map_ext. intros t. f_equal.
    destruct (in_dec string_dec t intl) as [Hin|Hout].
    + apply existsb_exists. exists t. split; [assumption|].
      apply String.eqb_refl.
    + apply not_true_iff_false. intros E. apply existsb_exists in E.
      destruct E as (y & Hy & E). apply String.eqb_eq in E. now subst y.
Qed.

(** X18 (a run in batches of ten is one save). When both [distinct]
    queries resolve and the price observations of every ticker have
    distinct dates: a run during which no call of a service rejects does
    not throw; and a run that does not throw leaves the two stores exactly
    as one bulk write and one merge of the rows of all the tickers would:
    the division into batches bounds what is in flight, not what is
    stored. *)
Theorem hydration_is_one_save :
  forall (env : Env) (services : nat -> Services) (universe : Universe)
         (us intl : list string) (startDate endDate : string)
         (stores : Stores),
    usTickers universe = Returned us ->
    intlTickers universe = Returned intl ->
    (forall ticker,
       In ticker us \/ In ticker intl ->
       NoDup (map PriceData.date
                (getHistoricalPriceData env ticker startDate endDate "US"))) ->
    let rows :=
      allMetrics
        (batchResults env intl startDate endDate (dedupe [] (us ++ intl))) in
    let run :=
      hydrateAllData env services universe startDate endDate stores in
    ((forall i, accepted (services i)) -> snd run = Returned tt) /\
    (snd run = Returned tt ->
     mongo (fst run) = bulkWrite (mongo stores) rows /\
     stageAndMerge (bigQuery stores) rows
     = (bigQuery (fst run), Returned tt)).
Proof.
  intros env services universe us intl startDate endDate stores Hus Hintl Hd
    rows run.
  set (allTickers := dedupe [] (us ++ intl)) in *.
  assert (Hnd : NoDup (map keyOf rows)).
  { apply batch_rows_keys; [apply dedupe_NoDup|].
    intros t Ht. apply Hd. apply dedupe_In in Ht.
    rewrite in_app_iff in Ht. tauto. }
  assert (Hc : concat (sliceLoop (length allTickers) 10 allTickers 0)
               = allTickers)
    by (rewrite sliceLoop_concat by lia; reflexivity).
  assert (E : run
              = saveBatches env services intl startDate endDate 0
                  (sliceLoop (length allTickers) 10 allTickers 0) stores).
  { unfold run, hydrateAllData. rewrite Hus, Hintl. fold allTickers.
    cbv zeta. apply batchLoop_slices. }
  split.
  - intros Hacc. rewrite E. apply saveBatches_accepted; [assumption|].
    now rewrite Hc.
  - intros Hret. rewrite E in *.
    destruct (saveBatches env services intl startDate endDate 0 _ stores)
      as [stores' r] eqn:Es.
    cbn [fst snd] in *. subst r.
    apply saveBatches_returned in Es; [|now rewrite Hc].
    rewrite Hc in Es. fold rows in Es. subst stores'.
    unfold savedStores. cbn [mongo bigQuery]. split; [reflexivity|].
    now rewrite (stageAndMerge_accepts _ rows Hnd).
Qed.

(** * Creating a table *)

Lemma createTable_while_fuel (svc : TableService) (hasSchema : bool) :
  forall fuel extra exists_ iterations log,
    (3 <= fuel + iterations)%nat ->
    createTable_while (fuel + extra) svc hasSchema exists_ iterations log
    = createTable_while fuel svc hasSchema exists_ iterations log.
Proof.
  induction fuel as [|fuel IH]; intros extra exists_ iterations log Hf.
  - simpl. destruct extra as [|extra]; [reflexivity|]. simpl.
    replace (Nat.ltb iterations 3) with false
      by (symmetry; apply Nat.ltb_ge; lia).
    now rewrite andb_false_r.
  - simpl. destruct (negb exists_ && Nat.ltb iterations 3); [|reflexivity].
    destruct (if Nat.eqb iterations 0 && hasSchema
              then table_create svc else Returned tt); [|reflexivity].
    destruct (table_exists svc (existsCalls log)); [|reflexivity].
    apply IH. lia.
Qed.

Ltac table_cases svc :=
  unfold createTable;
  repeat (cbn;
          match goal with
          | |- context [match table_exists svc ?n with _ => _ end] =>
              let E := fresh "E" in
              destruct (table_exists svc n) as [[|]|] eqn:E
          | |- context [match table_create svc with _ => _ end] =>
              let E := fresh "Ec" in
              destruct (table_create svc) eqn:E
          end);
  cbn.

(** X19 (the wait for a table is bounded). Whatever the table service
    answers, [createTable] checks existence at most four times, calls
    [table.create] at most once, and only when a schema was passed and the
    first check found no table, and sleeps 2, 4 and 8 seconds at most, in
    that order, 14 seconds in all; three rounds of the loop are all there
    are. *)
Theorem createTable_bounded :
  forall (svc : TableService) (hasSchema : bool),
    let log := fst (createTable svc hasSchema) in
    (1 <= existsCalls log <= 4)%nat /\
    (createCalls log <= 1)%nat /\
    (createCalls log = 1%nat ->
       hasSchema = true /\ table_exists svc 0 = Returned false) /\
    (exists n, (n <= 3)%nat /\ waited log = firstn n [2000; 4000; 8000]) /\
    fold_right Z.add 0 (waited log) <= 14000 /\
    (forall extra,
       match table_exists svc 0 with
       | Returned exists_ =>
           createTable_while (3 + extra) svc hasSchema exists_ 0
             {| existsCalls := 1; createCalls := 0; waited := [] |}
           = createTable svc hasSchema
       | Threw _ => True
       end).
Proof.
  intros svc hasSchema log. unfold log, createTable.
  assert (Hfuel : forall extra,
     match table_exists svc 0 with
     | Returned exists_ =>
         createTable_while (3 + extra) svc hasSchema exists_ 0
           {| existsCalls := 1; createCalls := 0; waited := [] |}
         = match table_exists svc 0 with
           | Returned exists_ =>
               createTable_while 3 svc hasSchema exists_ 0
                 {| existsCalls := 1; createCalls := 0; waited := [] |}
           | Threw e =>
               ({| existsCalls := 1; createCalls := 0; waited := [] |},
                Threw e)
           end
     | Threw _ => True
     end).
  { intros extra. destruct (table_exists svc 0); [|exact I].
    apply createTable_while_fuel. lia. }
  split; [|split; [|split; [|split; [|split; [|exact Hfuel]]]]]; clear Hfuel;
    destruct hasSchema; table_cases svc;
    try lia; try (intros; discriminate); try (split; reflexivity);
    first [ exists 0%nat; split; [lia|reflexivity]
          | exists 1%nat; split; [lia|reflexivity]
          | exists 2%nat; split; [lia|reflexivity]
          | exists 3%nat; split; [lia|reflexivity] ].
Qed.

(** X20 (no error of its own). [createTable] throws only what
    [table.exists()] or [table.create] threw. When neither rejects it
    returns normally whether or not the table ever became visible: if no
    check ever finds the table, it has created it once (given a schema),
    checked four times, slept 2, 4 and 8 seconds, and returns as if the
    table were there. *)
Theorem createTable_gives_up_silently :
  forall (svc : TableService) (hasSchema : bool),
    (forall e, snd (createTable svc hasSchema) = Threw e ->
       table_create svc = Threw e \/
       exists n, (n <= 3)%nat /\ table_exists svc n = Threw e) /\
    ((forall n, table_exists svc n = Returned false) ->
     (exists u, table_create svc = Returned u) ->
     createTable svc hasSchema
     = ({| existsCalls := 4;
           createCalls := if hasSchema then 1 else 0;
           waited := [2000; 4000; 8000] |}, Returned tt)).
Proof.
  intros svc hasSchema. split.
  - intros e. destruct hasSchema; table_cases svc;
      intros H; try discriminate; injection H as <-;
      first [ now left
            | right; exists 0%nat; split; [lia|assumption]
            | right; exists 1%nat; split; [lia|assumption]
            | right; exists 2%nat; split; [lia|assumption]
            | right; exists 3%nat; split; [lia|assumption] ].
  - intros Hno (u & Hc). unfold createTable.
    rewrite (Hno 0%nat). cbn. rewrite Hc, (Hno 1%nat). cbn.
    rewrite (Hno 2%nat). cbn. rewrite (Hno 3%nat).
    destruct hasSchema; reflexivity.
Qed.

(** X21 (a sleep after every poll). When [createTable] returns normally,
    it has slept once for every existence check after the first, also after
    the check that found the table; so a table that is there at the first
    check costs no [create] and no wait, and a table that is not costs at
    least two seconds even when it is there at the very next check. *)
Theorem createTable_sleeps_after_each_poll :
  forall (svc : TableService) (hasSchema : bool),
    (snd (createTable svc hasSchema) = Returned tt ->
     S (length (waited (fst (createTable svc hasSchema))))
     = existsCalls (fst (createTable svc hasSchema))) /\
    (table_exists svc 0 = Returned true ->
     createTable svc hasSchema
     = ({| existsCalls := 1; createCalls := 0; waited := [] |},
        Returned tt)) /\
    (table_exists svc 0 = Returned false ->
     snd (createTable svc hasSchema) = Returned tt ->
     2000 <= fold_right Z.add 0 (waited (fst (createTable svc hasSchema)))).
Proof.
  intros svc hasSchema. split; [|split].
  - destruct hasSchema; table_cases svc; intros H;
      try discriminate; reflexivity.
  - intros E. unfold createTable. now rewrite E.
  - destruct hasSchema; table_cases svc; intros H0 H;
      try discriminate; lia.
Qed.

(** * Filtering the fields of a statement *)

Section FilterProperties.

Variable stringToNumber : string -> option Q.
Variable objectToNumber : nat -> option Q.

Lemma filterNumericFields_entry (data : list (string * jsvalue))
    (key : string) (value : jsvalue) :
  In (key, value)
     (filterNumericFields stringToNumber objectToNumber data) <->
  (isRequiredField key = true /\ In (key, value) data) \/
  (isRequiredField key = false /\ key <> "__proto__"%string /\
   exists v, In (key, v) data /\
             isNumeric stringToNumber objectToNumber v = true /\
             value = VNumber (toNumber stringToNumber objectToNumber v)).
Proof using Type.
  unfold filterNumericFields, assignNumber. rewrite in_flat_map. split.
  - intros ([k v] & Hin & H).
    destruct (isRequiredField k) eqn:Er.
    + destruct H as [[= <- <-]|[]]. now left.
    + destruct (isNumeric _ _ v) eqn:En; [|destruct H].
      destruct (String.eqb_spec k "__proto__") as [E|Hne]; [destruct H|].
      destruct H as [[= <- <-]|[]]. right. split; [assumption|].
      split; [assumption|]. now exists v.
  - intros [[Er Hin]|(Er & Hne & v & Hin & En & ->)].
    + exists (key, value). split; [assumption|]. rewrite Er. now left.
    + exists (key, v). split; [assumption|]. rewrite Er, En.
      destruct (String.eqb_spec key "__proto__") as [E|_]; [contradiction|].
      now left.
Qed.

(** X22 (what the filter lets through). The entries of the result keep
    the order of the document and add no key; [ticker], [symbol] and [date]
    pass unchanged whatever they hold; every other entry of the result
    holds a number, the number [Number(value)] of a value of the document
    under that key, and that number is NaN only when the document held the
    number NaN itself. *)
Theorem filter_lets_through :
  forall (data : list (string * jsvalue)),
    let filtered := filterNumericFields stringToNumber objectToNumber data in
    subseq (map fst filtered) (map fst data) /\
    (forall key value,
       isRequiredField key = true ->
       (In (key, value) filtered <-> In (key, value) data)) /\
    (forall key value,
       isRequiredField key = false ->
       In (key, value) filtered ->
       exists v n,
         In (key, v) data /\ value = VNumber n /\
         n = toNumber stringToNumber objectToNumber v /\
         (n = None -> v = VNumber None)).
Proof using Type.
  intros data filtered. split; [|split].
  - unfold filtered, filterNumericFields, assignNumber.
    induction data as [|[k v] data IH]; simpl; [constructor|].
    destruct (isRequiredField k); simpl; [now constructor|].
    destruct (isNumeric _ _ v); simpl; [|now constructor].
    destruct (String.eqb k "__proto__"); simpl; now constructor.
  - intros key value Hr. unfold filtered.
    rewrite filterNumericFields_entry, Hr. split.
    + intros [[_ H]|[H _]]; [assumption|discriminate].
    + intros H. now left.
  - intros key value Hr H. unfold filtered in H.
    apply filterNumericFields_entry in H.
    destruct H as [[H _]|(_ & _ & v & Hin & Hn & ->)]; [congruence|].
    exists v, (toNumber stringToNumber objectToNumber v).
    repeat split; try assumption.
    intros Hnan. unfold isNumeric in Hn.
    destruct v as [| |b|n|s|ref]; simpl in Hn, Hnan.
    + discriminate.
    + discriminate.
    + destruct b; discriminate.
    + now subst n.
    + rewrite Hnan in Hn. discriminate.
    + rewrite Hnan in Hn. discriminate.
Qed.

(** X23 (filtering twice is filtering once). The result of the filter
    passes through the filter unchanged: its required fields are kept as
    they are and its other fields already hold numbers. *)
Theorem filter_idempotent :
  forall (data : list (string * jsvalue)),
    filterNumericFields stringToNumber objectToNumber
      (filterNumericFields stringToNumber objectToNumber data)
    = filterNumericFields stringToNumber objectToNumber data.
Proof using Type.
  intros data. unfold filterNumericFields, assignNumber.
  induction data as [|[k v] data IH]; simpl; [reflexivity|].
  destruct (isRequiredField k) eqn:Er; simpl.
  - now rewrite Er, IH.
  - destruct (isNumeric _ _ v); simpl; [|assumption].
    destruct (String.eqb k "__proto__") eqn:Ep; simpl; [assumption|].
    now rewrite Er, Ep, IH.
Qed.

(** X24 (null becomes zero, undefined is dropped). Outside [ticker],
    [symbol] and [date], and but for the key [__proto__], a field holding
    [null] is kept as the number [0] and a field holding [false] or [true]
    as [0] or [1], while a field holding [undefined], or a string or object
    that does not convert to a number, is left out of the result; a field
    named [__proto__] is left out whatever it holds. *)
Theorem filter_coerces_null_to_zero :
  forall (data : list (string * jsvalue)) (key : string),
    isRequiredField key = false ->
    let filtered := filterNumericFields stringToNumber objectToNumber data in
    (key <> "__proto__"%string ->
     In (key, VNull) data -> In (key, VNumber (Some 0%Q)) filtered) /\
    (key <> "__proto__"%string ->
     forall b, In (key, VBool b) data ->
       In (key, VNumber (Some (if b then 1%Q else 0%Q))) filtered) /\
    ((forall v, In (key, v) data ->
        v = VUndefined \/
        (exists s, v = VString s /\ stringToNumber s = None) \/
        (exists ref, v = VObject ref /\ objectToNumber ref = None)) ->
     ~ In key (map fst filtered)) /\
    ~ In "__proto__"%string (map fst filtered).
Proof using Type.
  intros data key Hr filtered. split; [|split; [|split]].
  - intros Hne H. apply filterNumericFields_entry. right.
    split; [assumption|]. split; [assumption|]. now exists VNull.
  - intros Hne b H. apply filterNumericFields_entry. right.
    split; [assumption|]. split; [assumption|].
    exists (VBool b). now destruct b.
  - intros Hall Hin. apply in_map_iff in Hin.
    destruct Hin as ([k value] & E & Hin). simpl in E. subst k.
    apply filterNumericFields_entry in Hin.
    destruct Hin as [[H _]|(_ & _ & v & Hv & Hn & _)]; [congruence|].
    destruct (Hall v Hv) as [->|[(s & -> & Hs)|(ref & -> & Ho)]];
      simpl in Hn; try rewrite Hs in Hn; try rewrite Ho in Hn; discriminate.
  - intros Hin. apply in_map_iff in Hin.
    destruct Hin as ([k value] & E & Hin). simpl in E. subst k.
    apply filterNumericFields_entry in Hin.
    destruct Hin as [[H _]|(_ & Hne & _)]; [discriminate|].
    now apply Hne.
Qed.

End FilterProperties.

(** * The query in the reply *)

Lemma trimStart_pad (pad s : jsstring) :
  forallb isWhiteSpace pad = true -> trimStart (pad ++ s) = trimStart s.
Proof.
  induction pad as [|c pad IH]; simpl; intros H; [reflexivity|].
  apply andb_true_iff in H. destruct H as [-> H]. now apply IH.
Qed.

Lemma trimStart_app (s t : jsstring) :
  trimStart (s ++ t)
  = if forallb isWhiteSpace s then trimStart t else trimStart s ++ t.
Proof.
  induction s as [|c s IH]; simpl; [reflexivity|].
  destruct (isWhiteSpace c); simpl; [assumption|reflexivity].
Qed.

Lemma trimStart_nil (s : jsstring) :
  forallb isWhiteSpace s = true -> trimStart s = [].
Proof.
  intros H. rewrite <- (app_nil_r s). now rewrite trimStart_pad.
Qed.

Lemma forallb_rev {A : Type} (f : A -> bool) (l : list A) :
  forallb f (rev l) = forallb f l.
Proof.
  induction l as [|x l IH]; simpl; [reflexivity|].
  rewrite forallb_app, IH. simpl. rewrite andb_true_r. apply andb_comm.
Qed.

Lemma trimEnd_pad (s pad : jsstring) :
  forallb isWhiteSpace pad = true -> trimEnd (s ++ pad) = trimEnd s.
Proof.
  intros H. unfold trimEnd. rewrite rev_app_distr, trimStart_pad;
    [reflexivity|]. now rewrite forallb_rev.
Qed.

Lemma trim_pad (pad1 s pad2 : jsstring) :
  forallb isWhiteSpace pad1 = true ->
  forallb isWhiteSpace pad2 = true ->
  trim (pad1 ++ s ++ pad2) = trim s.
Proof.
  intros H1 H2. unfold trim. rewrite (trimStart_pad pad1 _ H1).
  rewrite trimStart_app. destruct (forallb isWhiteSpace s) eqn:E.
  - rewrite (trimStart_nil pad2 H2), (trimStart_nil s E). reflexivity.
  - now apply trimEnd_pad.
Qed.

Lemma trim_id (s : jsstring) :
  trimStart s = s -> trimStart (rev s) = rev s -> trim s = s.
Proof.
  intros H1 H2. unfold trim, trimEnd. rewrite H1, H2. apply rev_involutive.
Qed.

(** A fenced reply begins and ends with a backtick, which [trim] keeps. *)
Lemma trim_fenced (opening q : jsstring) :
  hd_error opening = Some 96%N ->
  trim (opening ++ 10%N :: q ++ 10%N :: fence)
  = opening ++ 10%N :: q ++ 10%N :: fence.
Proof.
  intros H. destruct opening as [|o opening]; [discriminate|].
  injection H as ->.
  apply trim_id; [reflexivity|].
  rewrite rev_app_distr. cbn [rev]. rewrite rev_app_distr. reflexivity.
Qed.

Lemma stripPrefix_app (p s : jsstring) : stripPrefix p (p ++ s) = Some s.
Proof.
  induction p as [|a p IH]; simpl; [reflexivity|].
  now rewrite N.eqb_refl.
Qed.

Lemma removeOpening_fenced (opening rest : jsstring) :
  removeOpening opening (opening ++ 10%N :: rest) = rest.
Proof. unfold removeOpening. now rewrite stripPrefix_app. Qed.

Lemma removeOpening_other (opening s : jsstring) :
  stripPrefix opening s = None -> removeOpening opening s = s.
Proof. unfold removeOpening. now intros ->. Qed.

Lemma removeClosing_fenced (q : jsstring) :
  removeClosing (q ++ 10%N :: fence) = q.
Proof.
  unfold removeClosing. rewrite rev_app_distr.
  change (rev (10%N :: fence)) with (fence ++ [10%N]).
  rewrite <- app_assoc. unfold removeOpening. rewrite stripPrefix_app.
  cbn [app N.eqb]. apply rev_involutive.
Qed.

(** X25 (a reply in the requested format gives its query). When the content
    of the reply is, between any white space, an opening fence with or
    without the [sql] tag, a line feed, a query that is not empty and does
    not begin with a backtick, a line feed and a closing fence, the query
    taken out is exactly that query. *)
Theorem fenced_reply_gives_query :
  forall (pad1 pad2 : jsstring) (c : N) (q' : jsstring),
    forallb isWhiteSpace pad1 = true ->
    forallb isWhiteSpace pad2 = true ->
    c <> 96%N ->
    let q := c :: q' in
    extractSqlQuery
      (Some (pad1 ++ (codeUnits "```sql" ++ 10%N :: q ++ 10%N :: fence)
               ++ pad2))
    = Returned q /\
    extractSqlQuery
      (Some (pad1 ++ (fence ++ 10%N :: q ++ 10%N :: fence) ++ pad2))
    = Returned q.
Proof.
  intros pad1 pad2 c q' H1 H2 Hc q. unfold q.
  assert (Hne : N.eqb 96 c = false) by (apply N.eqb_neq; congruence).
  assert (Hq : stripPrefix fence ((c :: q') ++ 10%N :: fence) = None).
  { cbn -[N.eqb]. now rewrite Hne. }
  unfold extractSqlQuery. rewrite !(trim_pad pad1 _ pad2 H1 H2). split.
  - rewrite (trim_fenced (codeUnits "```sql") (c :: q') eq_refl).
    rewrite removeOpening_fenced, (removeOpening_other fence _ Hq).
    rewrite removeClosing_fenced. reflexivity.
  - rewrite (trim_fenced fence (c :: q') eq_refl).
    rewrite (removeOpening_other (codeUnits "```sql")) by reflexivity.
    rewrite removeOpening_fenced.
    rewrite removeClosing_fenced. reflexivity.
Qed.

Lemma stripPrefix_longer (p p' s : jsstring) :
  stripPrefix p s = None -> stripPrefix (p ++ p') s = None.
Proof.
  revert s. induction p as [|a p IH]; intros s; simpl; [discriminate|].
  destruct s as [|c s]; [reflexivity|].
  destruct (N.eqb a c); [apply IH|reflexivity].
Qed.

(** X26 (a reply without fences, and white space around a reply). White
    space before and after the content never changes what is taken out of
    it; and content that, once trimmed, is not empty and neither begins nor
    ends with three backticks is the query as it stands, trimmed. *)
Theorem bare_reply_is_trimmed :
  forall (pad1 s pad2 : jsstring),
    forallb isWhiteSpace pad1 = true ->
    forallb isWhiteSpace pad2 = true ->
    extractSqlQuery (Some (pad1 ++ s ++ pad2)) = extractSqlQuery (Some s) /\
    (trim s <> [] ->
     stripPrefix fence (trim s) = None ->
     stripPrefix fence (rev (trim s)) = None ->
     extractSqlQuery (Some (pad1 ++ s ++ pad2)) = Returned (trim s)).
Proof.
  intros pad1 s pad2 H1 H2.
  assert (E : extractSqlQuery (Some (pad1 ++ s ++ pad2))
              = extractSqlQuery (Some s)).
  { unfold extractSqlQuery. now rewrite (trim_pad pad1 s pad2 H1 H2). }
  split; [exact E|]. intros Hne Ho Hc. rewrite E. unfold extractSqlQuery.
  change (codeUnits "```sql") with (fence ++ codeUnits "sql").
  rewrite (removeOpening_other _ _ (stripPrefix_longer _ _ _ Ho)).
  rewrite (removeOpening_other _ _ Ho).
  unfold removeClosing. rewrite (removeOpening_other _ _ Hc).
  rewrite rev_involutive. destruct (trim s); [congruence|reflexivity].
Qed.

(** X27 (nothing to run). No content, content of white space only, and a
    fence with nothing between its opening and its closing all make the
    extraction throw "No SQL query generated"; the extraction never returns
    an empty query. *)
Theorem empty_reply_throws :
  extractSqlQuery None = Threw "No SQL query generated" /\
  (forall pad,
     forallb isWhiteSpace pad = true ->
     extractSqlQuery (Some pad) = Threw "No SQL query generated") /\
  (forall pad1 pad2,
     forallb isWhiteSpace pad1 = true ->
     forallb isWhiteSpace pad2 = true ->
     extractSqlQuery
       (Some (pad1 ++ (codeUnits "```sql" ++ 10%N :: fence) ++ pad2))
     = Threw "No SQL query generated" /\
     extractSqlQuery (Some (pad1 ++ (fence ++ fence) ++ pad2))
     = Threw "No SQL query generated") /\
  (forall content q, extractSqlQuery content = Returned q -> q <> []).
Proof.
  split; [reflexivity|]. split; [|split].
  - intros pad H. unfold extractSqlQuery, trim.
    now rewrite (trimStart_nil pad H).
  - intros pad1 pad2 H1 H2. unfold extractSqlQuery.
    rewrite !(trim_pad pad1 _ pad2 H1 H2). split; reflexivity.
  - intros [content|] q; simpl; [|discriminate].
    destruct (removeClosing _); [discriminate|].
    intros [= <-]. discriminate.
Qed.

(** * The merge pattern of the data managers *)

Section MergePatternProperties.

Context {Row : Type}.
Variable rowKey : Row -> string * Z.
Variable updateRow : Row -> Row -> Row.

Hypothesis update_key : forall t s, rowKey (updateRow t s) = rowKey t.
Hypothesis update_again :
  forall t s, updateRow (updateRow t s) s = updateRow t s.
Hypothesis update_self : forall s, updateRow s s = s.

Lemma onKey_rowKey (t s : Row) :
  onKey rowKey t s = true <-> rowKey t = rowKey s.
Proof using Type.
  unfold onKey. rewrite andb_true_iff, String.eqb_eq, Z.eqb_eq.
  destruct (rowKey t), (rowKey s); simpl. split.
  - now intros [-> ->].
  - now intros [= -> ->].
Qed.

Lemma onKey_ext (t t' s : Row) :
  rowKey t = rowKey t' -> onKey rowKey t s = onKey rowKey t' s.
Proof using Type. unfold onKey. now intros ->. Qed.

Variable source : list Row.
Hypothesis source_keys : NoDup (map rowKey source).

Lemma onKey_unique (s : Row) :
  In s source -> filter (onKey rowKey s) source = [s].
Proof using source_keys.
  revert source_keys. induction source as [|a l IH]; intros Hnd Hin;
    [destruct Hin|].
  simpl in Hnd. inversion Hnd as [|? ? Ha Hl]; subst.
  destruct Hin as [->|Hin]; simpl.
  - rewrite (proj2 (onKey_rowKey s s) eq_refl). f_equal.
    apply filter_none. intros y Hy.
    apply not_true_iff_false. intros E. apply onKey_rowKey in E.
    apply Ha. rewrite E. now apply in_map.
  - destruct (onKey rowKey s a) eqn:E.
    + apply onKey_rowKey in E. exfalso. apply Ha. rewrite <- E.
      now apply in_map.
    + now apply IH.
Qed.

Lemma onKey_at_most_one (t : Row) :
  (length (filter (onKey rowKey t) source) <= 1)%nat.
Proof using source_keys.
  destruct (filter (onKey rowKey t) source) as [|s rest] eqn:E;
    [simpl; lia|].
  assert (Hs : In s source /\ onKey rowKey t s = true).
  { apply filter_In. rewrite E. now left. }
  destruct Hs as [Hin Hk]. apply onKey_rowKey in Hk.
  rewrite (filter_ext _ _ (fun x => onKey_ext t s x Hk)),
    (onKey_unique s Hin) in E.
  injection E as <-. simpl. lia.
Qed.

Lemma mergeRows_twice (target : list Row) :
  exists merged,
    mergeRows rowKey updateRow target source = (merged, Returned tt) /\
    mergeRows rowKey updateRow merged source = (merged, Returned tt).
Proof using source_keys update_key update_again update_self.
  assert (Hacc : forall T,
    existsb (fun t => Nat.ltb 1 (length (filter (onKey rowKey t) source))) T
    = false).
  { intros T. apply not_true_iff_false. intros H.
    apply existsb_exists in H. destruct H as (t & _ & H).
    apply Nat.ltb_lt in H. pose proof (onKey_at_most_one t). lia. }
  set (wm := fun t =>
               match filter (onKey rowKey t) source with
               | s :: _ => updateRow t s
               | [] => t
               end).
  assert (Hwk : forall t, rowKey (wm t) = rowKey t).
  { intros t. unfold wm. destruct (filter _ source); [reflexivity|].
    apply update_key. }
  assert (Hww : forall t, wm (wm t) = wm t).
  { intros t. unfold wm at 1.
    rewrite (filter_ext _ _ (fun x => onKey_ext (wm t) t x (Hwk t))).
    unfold wm. destruct (filter _ source); [reflexivity|].
    apply update_again. }
  eexists. unfold mergeRows. rewrite !Hacc. split; [reflexivity|].
  f_equal. fold wm.
  set (nm := filter (fun s => negb (existsb (fun t => onKey rowKey t s)
                                      target)) source).
  rewrite map_app, map_map.
  replace (filter _ source) with (@nil Row); [rewrite app_nil_r; f_equal|].
  - apply map_ext. exact Hww.
  - rewrite <- (map_id nm) at 2. apply map_ext_in. intros s Hs.
    apply filter_In in Hs. destruct Hs as [Hs _].
    unfold wm. rewrite (onKey_unique s Hs). apply update_self.
  - symmetry. apply filter_none. intros s Hs. apply negb_false_iff.
    apply existsb_exists.
    destruct (existsb (fun t => onKey rowKey t s) target) eqn:E.
    + apply existsb_exists in E. destruct E as (t & Ht & Hk).
      exists (wm t). split.
      * apply in_or_app. left. now apply in_map.
      * rewrite <- Hk. apply onKey_ext, Hwk.
    + exists s. split; [|now apply onKey_rowKey].
      apply in_or_app. right. apply filter_In. split; [assumption|].
      now rewrite E.
Qed.

Lemma stageAndMergeRows_twice (mainTable : list Row) :
  exists merged,
    stageAndMergeRows rowKey updateRow mainTable source
    = (merged, Returned tt) /\
    stageAndMergeRows rowKey updateRow merged source
    = (merged, Returned tt).
Proof using source_keys update_key update_again update_self.
  unfold stageAndMergeRows.
  replace (if Nat.eqb (length source) 0 then []
           else insertLoop (length source) 500 source 0 [])
    with source; [apply mergeRows_twice|].
  destruct source as [|r rest] eqn:E; [reflexivity|].
  cbn [length Nat.eqb].
  rewrite (insertLoop_all 500 (r :: rest)); [reflexivity|lia|simpl; lia].
Qed.

End MergePatternProperties.

(** X28 (the other managers load idempotently too). For the earnings table
    and for the international stock table, staging a batch with at most one
    row per (ticker, date) and merging it succeeds, and doing it again with
    the same batch leaves the table as it was after the first time. Both
    keep the [symbol] of a row that is already there, as the price-metrics
    merge does. *)
Theorem sibling_merges_idempotent :
  (forall (T B : list Earnings.t),
     NoDup (map earningsKey B) ->
     exists T1,
       saveEarnings T B = (T1, Returned tt) /\
       saveEarnings T1 B = (T1, Returned tt) /\
       map Earnings.symbol (firstn (length T) T1) = map Earnings.symbol T) /\
  (forall (T B : list StockData.t),
     NoDup (map stockDataKey B) ->
     exists T1,
       saveStockData T B = (T1, Returned tt) /\
       saveStockData T1 B = (T1, Returned tt) /\
       map StockData.symbol (firstn (length T) T1)
       = map StockData.symbol T).
Proof.
  split.
  - intros T B HB.
    destruct (stageAndMergeRows_twice earningsKey earningsUpdateSet
                (fun _ _ => eq_refl) (fun _ _ => eq_refl)
                (fun s => match s with Earnings.mk _ _ _ _ _ _ _ _ =>
                                         eq_refl end)
                B HB T) as (T1 & H1 & H2).
    exists T1. split; [exact H1|]. split; [exact H2|].
    unfold saveEarnings, stageAndMergeRows, mergeRows in H1.
    destruct (existsb _ T); [discriminate|]. injection H1 as <-.
    rewrite firstn_app, length_map, Nat.sub_diag, firstn_O, app_nil_r.
    rewrite firstn_all2 by (rewrite length_map; lia).
    rewrite map_map. apply map_ext. intros t.
    match goal with
    | |- context [match ?x with _ :: _ => _ | [] => _ end] => destruct x
    end; reflexivity.
  - intros T B HB.
    destruct (stageAndMergeRows_twice stockDataKey stockDataUpdateSet
                (fun _ _ => eq_refl) (fun _ _ => eq_refl)
                (fun s => match s with StockData.mk _ _ _ _ _ _ =>
                                         eq_refl end)
                B HB T) as (T1 & H1 & H2).
    exists T1. split; [exact H1|]. split; [exact H2|].
    unfold saveStockData, stageAndMergeRows, mergeRows in H1.
    destruct (existsb _ T); [discriminate|]. injection H1 as <-.
    rewrite firstn_app, length_map, Nat.sub_diag, firstn_O, app_nil_r.
    rewrite firstn_all2 by (rewrite length_map; lia).
    rewrite map_map. apply map_ext. intros t.
    match goal with
    | |- context [match ?x with _ :: _ => _ | [] => _ end] => destruct x
    end; reflexivity.
Qed.

(** * A run that is stopped by a failing save *)

Lemma saveBatches_threw (env : Env) (services : nat -> Services)
    (intlTickerSet : list string) (startDate endDate : string) :
  forall (batches : list (list string)) (i : nat) (stores stores' : Stores)
         (e : string),
    saveBatches env services intlTickerSet startDate endDate i batches stores
    = (stores', Threw e) ->
    exists done failing rest stores0,
      batches = done ++ failing :: rest /\
      saveBatches env services intlTickerSet startDate endDate i done stores
      = (stores0, Returned tt) /\
      processBatch env (services (i + 10 * length done)%nat) intlTickerSet
        startDate endDate stores0 failing
      = (stores', Threw e).
Proof.
  induction batches as [|batch rest IH]; intros i stores stores' e H;
    [discriminate|].
  cbn [saveBatches] in H.
  destruct (processBatch env (services i) intlTickerSet startDate endDate
              stores batch)
    as [st [[]|e']] eqn:E.
  - destruct (IH (i + 10)%nat st stores' e H)
      as (done & failing & rest' & st0 & -> & H1 & H2).
    exists (batch :: done), failing, rest', st0.
    split; [reflexivity|]. split.
    + cbn [saveBatches]. now rewrite E.
    + cbn [length].
      replace (i + 10 * S (length done))%nat
        with (i + 10 + 10 * length done)%nat by lia.
      exact H2.
  - injection H as <- <-. exists [], batch, rest, stores.
    split; [reflexivity|]. split; [reflexivity|].
    cbn [length]. now rewrite Nat.mul_0_r, Nat.add_0_r.
Qed.

(** X29 (a failing save stops the run and keeps what was saved). When the
    loop over the batches ends with an exception, the batches before the
    failing one were processed and saved without error and the batches
    after it were not processed; the exception is that of the save of the
    failing batch, which left the analytical table as the previous batch
    left it, and the operational collection with the first rows of the
    batch written: as many as the bulk write had applied when it is the
    bulk write that rejected, all of them when a later call did. The two
    stores are not written together. *)
Theorem failed_save_keeps_progress :
  forall (env : Env) (services : nat -> Services)
         (intlTickerSet : list string) (startDate endDate : string)
         (allTickers : list string) (fuel i : nat)
         (stores stores' : Stores) (e : string),
    batchLoop fuel env services intlTickerSet startDate endDate allTickers i
      stores
    = (stores', Threw e) ->
    exists done failing rest stores0,
      let during := services (i + 10 * length done)%nat in
      let rows :=
        allMetrics
          (batchResults env intlTickerSet startDate endDate failing) in
      sliceLoop fuel 10 allTickers i = done ++ failing :: rest /\
      saveBatches env services intlTickerSet startDate endDate i done stores
      = (stores0, Returned tt) /\
      saveMetrics during stores0 rows = (stores', Threw e) /\
      bigQuery stores' = bigQuery stores0 /\
      (forall n e0, bulkWrite_rejection during = Some (n, e0) ->
         e = e0 /\
         mongo stores' = bulkWrite (mongo stores0) (firstn n rows)) /\
      (bulkWrite_rejection during = None ->
       mongo stores' = bulkWrite (mongo stores0) rows).
Proof.
  intros env services intlTickerSet startDate endDate allTickers fuel i
    stores stores' e H.
  rewrite batchLoop_slices in H.
  destruct (saveBatches_threw _ _ _ _ _ _ _ _ _ _ H)
    as (done & failing & rest & st0 & E & H1 & H2).
  exists done, failing, rest, st0. cbv zeta.
  split; [exact E|]. split; [exact H1|].
  rewrite processBatch_saves in H2. split; [exact H2|].
  now apply saveMetrics_threw in H2.
Qed.

(** * The further properties on the sample data *)

Lemma asof_monotone_witness :
  ascending Quarter.date Sample.allQuarters /\
  ascending IntlStock.date Sample.intlStockData /\
  250 <= 350 /\
  exists q2, latestQuarter Sample.allQuarters 350 = Some q2 /\
             Quarter.date Sample.q2 <= Quarter.date q2.
Proof.
  split; [exact ascending_sample_quarters|].
  split; [exact ascending_sample_intl|].
  split; [lia|].
  exact (proj1 (asof_monotone Sample.allQuarters Sample.intlStockData
                  250 350 ascending_sample_quarters ascending_sample_intl
                  ltac:(lia))
           Sample.q2 eq_refl).
Defined.

Lemma sample_row_emitted_in :
  In Sample.row (usMetricsAt "X" 0 Sample.allQuarters Sample.priceData).
Proof. left. reflexivity. Defined.

Lemma ratio_presence_witness :
  In Sample.row (usMetricsAt "X" 0 Sample.allQuarters Sample.priceData) /\
  (Metrics.peRatioTTM Sample.row <> None <->
   (0 < sumOr0 Quarter.netIncome (ttmQuarters Sample.allQuarters 350))%Q).
Proof.
  split; [exact sample_row_emitted_in|].
  exact (proj1 (ratio_presence "X" 0 Sample.allQuarters Sample.priceData
                  Sample.row sample_row_emitted_in)).
Defined.

Lemma no_prices_no_rows_witness :
  eodhdClient_getHistoricalPriceData Sample.env "P" "US"
    "1996-01-01" "2026-01-01" = Threw "Request failed" /\
  calculateHistoricalMetrics_try Sample.env "P" false
    "1996-01-01" "2026-01-01" "US" = Returned [].
Proof.
  split; [reflexivity|].
  exact (proj1 (proj2 (no_prices_no_rows Sample.env "P" false
                         "1996-01-01" "2026-01-01" "US"
                         (or_intror (ex_intro _ "Request failed"%string
                                       eq_refl))))).
Defined.

Lemma sample_table_keys : NoDup (map keyOf Sample.mainTable).
Proof. repeat constructor; simpl; intuition discriminate. Defined.

Lemma bulkWrite_unique_index_witness :
  NoDup (map keyOf Sample.mainTable) /\
  NoDup (map keyOf (bulkWrite Sample.mainTable Sample.batch)).
Proof.
  split; [exact sample_table_keys|].
  exact (proj1 (bulkWrite_unique_index Sample.mainTable Sample.batch
                  sample_table_keys)).
Defined.

Lemma bulkWrite_idempotent_witness :
  NoDup (map keyOf Sample.batch) /\
  bulkWrite (bulkWrite Sample.mainTable Sample.batch) Sample.batch
  = bulkWrite Sample.mainTable Sample.batch.
Proof.
  split; [exact sample_batch_keys|].
  exact (proj1 (bulkWrite_idempotent Sample.mainTable Sample.batch
                  sample_batch_keys)).
Defined.

Lemma merge_keeps_keys_unique_witness :
  NoDup (map keyOf Sample.mainTable) /\
  NoDup (map keyOf Sample.batch) /\
  exists T1,
    stageAndMerge Sample.mainTable Sample.batch = (T1, Returned tt) /\
    NoDup (map keyOf T1).
Proof.
  split; [exact sample_table_keys|]. split; [exact sample_batch_keys|].
  destruct (merge_keeps_keys_unique Sample.mainTable Sample.batch
              sample_table_keys sample_batch_keys) as (T1 & H1 & H2 & _).
  exists T1. split; [exact H1|exact H2].
Defined.

Lemma merge_effect_witness :
  NoDup (map keyOf Sample.batch) /\
  exists T1,
    stageAndMerge Sample.mainTable Sample.batch = (T1, Returned tt) /\
    length T1 = 3%nat.
Proof.
  split; [exact sample_batch_keys|].
  destruct (merge_effect Sample.mainTable Sample.batch sample_batch_keys)
    as (T1 & H1 & _ & _ & _ & H2).
  exists T1. split; [exact H1|exact H2].
Defined.

Lemma merge_in_two_batches_witness :
  NoDup (map keyOf ([Sample.stored "X" "X" 350 50%Q] ++
                    [Sample.stored "X" "X" 351 51%Q])) /\
  exists T1 T2,
    stageAndMerge Sample.mainTable [Sample.stored "X" "X" 350 50%Q]
    = (T1, Returned tt) /\
    stageAndMerge T1 [Sample.stored "X" "X" 351 51%Q] = (T2, Returned tt) /\
    stageAndMerge Sample.mainTable Sample.batch = (T2, Returned tt).
Proof.
  split; [exact sample_batch_keys|].
  exact (merge_in_two_batches Sample.mainTable
           [Sample.stored "X" "X" 350 50%Q] [Sample.stored "X" "X" 351 51%Q]
           sample_batch_keys).
Defined.

Lemma sample_tickers_distinct : NoDup ["X"; "Y"]%string.
Proof. repeat constructor; simpl; intuition discriminate. Defined.

Lemma sample_dates_distinct :
  forall ticker,
    In ticker ["X"; "A"; "Y"]%string \/ In ticker ["Y"%string] ->
    NoDup (map PriceData.date
             (getHistoricalPriceData Sample.env ticker
                "1996-01-01" "2026-01-01" "US")).
Proof.
  intros ticker [[<-|[<-|[<-|[]]]]|[<-|[]]]; vm_compute;
    repeat constructor; simpl; intuition discriminate.
Defined.

Lemma sample_services_accepted : accepted Sample.services.
Proof. repeat split. Defined.

(** The batch of [X] and [Y] processed in November 2023 and again a day
    later: the three rows are there after both runs, the same but for
    their timestamps. *)
Lemma batch_rerun_witness :
  let first :=
    processBatch Sample.env Sample.services ["Y"%string]
      "1996-01-01" "2026-01-01" Sample.emptyStores ["X"; "Y"]%string in
  let second :=
    processBatch (withClock Sample.env Sample.later) Sample.services
      ["Y"%string] "1996-01-01" "2026-01-01" (fst first)
      ["X"; "Y"]%string in
  NoDup ["X"; "Y"]%string /\
  snd first = Returned tt /\ snd second = Returned tt /\
  map Metrics.lastUpdated (bigQuery (fst first))
  = [1700000000000; 1700000000001; 1700000000000] /\
  map Metrics.lastUpdated (bigQuery (fst second))
  = [1700086400000; 1700086400001; 1700086400000] /\
  map unstamped (bigQuery (fst second))
  = map unstamped (bigQuery (fst first)).
Proof.
  intros first second.
  split; [exact sample_tickers_distinct|].
  split; [reflexivity|]. split; [reflexivity|].
  split; [reflexivity|]. split; [reflexivity|].
  assert (H1 : processBatch Sample.env Sample.services ["Y"%string]
                 "1996-01-01" "2026-01-01" Sample.emptyStores
                 ["X"; "Y"]%string
               = (fst first, Returned tt)) by reflexivity.
  assert (H2 : processBatch (withClock Sample.env Sample.later)
                 Sample.services ["Y"%string] "1996-01-01" "2026-01-01"
                 (fst first) ["X"; "Y"]%string
               = (fst second, Returned tt)) by reflexivity.
  assert (Hd : forall ticker,
             In ticker ["X"; "Y"]%string ->
             NoDup (map PriceData.date
                      (getHistoricalPriceData Sample.env ticker
                         "1996-01-01" "2026-01-01" "US"))).
  { intros ticker H. apply sample_dates_distinct.
    destruct H as [<-|[<-|[]]]; left; simpl; tauto. }
  exact (proj1 (proj2
    (batch_rerun Sample.env Sample.later Sample.services Sample.services
       ["Y"%string] "1996-01-01" "2026-01-01" Sample.emptyStores
       (fst first) (fst second) ["X"; "Y"]%string
       sample_tickers_distinct Hd H1 H2))).
Defined.


(** The run over [X], [A] and [Y]: it returns normally and has stored the
    two rows of [X] and the row of [Y]. *)
Lemma hydration_is_one_save_witness :
  let run :=
    hydrateAllData Sample.env (fun _ => Sample.services) Fixture.universe
      "1996-01-01" "2026-01-01" Sample.emptyStores in
  usTickers Fixture.universe = Returned ["X"; "A"; "Y"]%string /\
  intlTickers Fixture.universe = Returned ["Y"%string] /\
  snd run = Returned tt /\
  map Metrics.ticker (mongo (fst run)) = ["X"; "X"; "Y"]%string /\
  mongo (fst run)
  = bulkWrite []
      (allMetrics
         (batchResults Sample.env ["Y"%string] "1996-01-01" "2026-01-01"
            (dedupe [] (["X"; "A"; "Y"]%string ++ ["Y"%string])))).
Proof.
  intros run. split; [reflexivity|]. split; [reflexivity|].
  destruct (hydration_is_one_save Sample.env (fun _ => Sample.services)
              Fixture.universe ["X"; "A"; "Y"]%string ["Y"%string]
              "1996-01-01" "2026-01-01" Sample.emptyStores
              eq_refl eq_refl sample_dates_distinct) as [Hreturns Hstored].
  pose proof (Hreturns (fun _ => sample_services_accepted)) as Hr.
  split; [exact Hr|]. split; [reflexivity|].
  exact (proj1 (Hstored Hr)).
Defined.

Lemma filter_coerces_null_to_zero_witness :
  isRequiredField "netIncome" = false /\
  In ("netIncome"%string, VNumber (Some 0%Q))
     (filterNumericFields Fixture.noNumber Fixture.noObjectNumber
        Fixture.document) /\
  In ("__proto__"%string, VNumber (Some 7%Q)) Fixture.document /\
  ~ In "__proto__"%string
      (map fst
         (filterNumericFields Fixture.noNumber Fixture.noObjectNumber
            Fixture.document)).
Proof.
  split; [reflexivity|].
  pose proof (filter_coerces_null_to_zero Fixture.noNumber
                Fixture.noObjectNumber Fixture.document "netIncome" eq_refl)
    as H.
  destruct H as (Hnull & _ & _ & Hproto).
  assert (Hne : "netIncome"%string <> "__proto__"%string) by discriminate.
  split; [|split].
  - exact (Hnull Hne (or_intror (or_intror (or_introl eq_refl)))).
  - do 5 right. left. reflexivity.
  - exact Hproto.
Defined.

Lemma fenced_reply_gives_query_witness :
  forallb isWhiteSpace Fixture.padding = true /\
  83%N <> 96%N /\
  extractSqlQuery
    (Some (Fixture.padding ++
           (codeUnits "```sql" ++ 10%N :: Fixture.select1 ++ 10%N :: fence)
           ++ Fixture.padding))
  = Returned Fixture.select1.
Proof.
  split; [reflexivity|]. split; [discriminate|].
  exact (proj1 (fenced_reply_gives_query Fixture.padding Fixture.padding
                  83%N (codeUnits "ELECT 1") eq_refl eq_refl
                  ltac:(discriminate))).
Defined.

Lemma bare_reply_is_trimmed_witness :
  forallb isWhiteSpace Fixture.padding = true /\
  extractSqlQuery
    (Some (Fixture.padding ++ Fixture.select1 ++ Fixture.padding))
  = Returned Fixture.select1.
Proof.
  split; [reflexivity|].
  exact (proj2 (bare_reply_is_trimmed Fixture.padding Fixture.select1
                  Fixture.padding eq_refl eq_refl)
           ltac:(discriminate) eq_refl eq_refl).
Defined.

(** A run whose staging insert is refused: the two rows of [X] are in the
    operational collection, the analytical table has none. *)
Lemma failed_save_keeps_progress_witness :
  let run :=
    batchLoop 1 Sample.env (fun _ => Sample.insertRefused) []
      "1996-01-01" "2026-01-01" ["X"%string] 0 Sample.emptyStores in
  snd run = Threw "quota exceeded" /\
  length (mongo (fst run)) = 2%nat /\ bigQuery (fst run) = [] /\
  exists stores0 rows,
    saveMetrics Sample.insertRefused stores0 rows
    = (fst run, Threw "quota exceeded") /\
    bigQuery (fst run) = bigQuery stores0.
Proof.
  intros run. split; [reflexivity|]. split; [reflexivity|].
  split; [reflexivity|].
  destruct (failed_save_keeps_progress Sample.env
              (fun _ => Sample.insertRefused) []
              "1996-01-01" "2026-01-01" ["X"%string] 1 0
              Sample.emptyStores (fst run) "quota exceeded" eq_refl)
    as (done & failing & rest & st0 & _ & _ & H1 & H2 & _).
  exists st0. eexists. split; [exact H1|exact H2].
Defined.
